(** * SEO audit engine: a shallow embedding of [seo/seo_audit.py]

    The development follows the Python module function by function:
    URL helpers, the on-page checks, link sampling and validation,
    technical headers, the robots/sitemap probe, the scorer and the
    top-level [seo_audit], together with the three callers that cap the
    worker count.

    Conventions.
    - A Python [str] is a [string]; every [ascii] stands for one code point
      below 256, so [len] is [String.length].
    - Python integers are [Z].
    - The parsed document (the BeautifulSoup tree) is a record holding
      exactly the observations the checks make on it.
    - The network is an oracle; every request that is issued is appended
      to a log, and the recommendation list that the checks share is
      threaded through a small state-and-exception monad.
    - The thread pool of link validation is an oracle too: a scheduler
      decides in which order the requests of its tasks reach the log, and
      another in which order the futures complete.
    - URLs are taken without square brackets, where [urlparse] raises
      nothing; see the section on [urllib.parse]. *)

From Stdlib Require Import ZArith Lia Bool List Ascii String DecimalString.
From Stdlib Require Import Permutation.
From stdpp Require Import base option list strings gmap.

Local Open Scope string_scope.
Local Open Scope list_scope.
Local Open Scope Z_scope.

(** ** Python string primitives *)

Module Py.

Definition chars (s : string) : list ascii := list_ascii_of_string s.
Definition str (l : list ascii) : string := string_of_list_ascii l.

Definition code (c : ascii) : N := N_of_ascii c.

(** [str.isspace] on one code point below 256. *)
Definition isspace (c : ascii) : bool :=
  let n := code c in
  ((9 <=? n) && (n <=? 13) || (28 <=? n) && (n <=? 32)
   || (n =? 133) || (n =? 160))%N.

(** [str.lower] on one code point below 256. *)
Definition lower_char (c : ascii) : ascii :=
  let n := code c in
  if ((65 <=? n) && (n <=? 90)
      || (192 <=? n) && (n <=? 222) && negb (n =? 215))%N
  then ascii_of_N (n + 32) else c.

Definition lower (s : string) : string := str (List.map lower_char (chars s)).

Fixpoint lstrip_by (p : ascii -> bool) (l : list ascii) : list ascii :=
  match l with
  | c :: l' => if p c then lstrip_by p l' else l
  | [] => []
  end.

Definition rstrip_by (p : ascii -> bool) (l : list ascii) : list ascii :=
  rev (lstrip_by p (rev l)).

(** [s.strip()] *)
Definition strip (s : string) : string :=
  str (rstrip_by isspace (lstrip_by isspace (chars s))).

(** [len(s)] *)
Definition len (s : string) : Z := Z.of_nat (String.length s).

(** [s.startswith(p)] *)
Definition startswith (s p : string) : bool := String.prefix p s.

(** [p in s] *)
Fixpoint contains (s p : string) : bool :=
  String.prefix p s ||
  match s with
  | EmptyString => false
  | String _ s' => contains s' p
  end.

(** Truthiness of a string: non-empty. *)
Definition truthy (s : string) : bool :=
  match s with EmptyString => false | _ => true end.

(** Truthiness of [x] where [x] is [None] or a string. *)
Definition truthy_opt (o : option string) : bool :=
  match o with Some s => truthy s | None => false end.

(** [s.split(sep, 1)] when [sep] occurs in [s]: the text before the
    first [sep] and the text after it. *)
Fixpoint split_once (sep : ascii) (l : list ascii)
  : option (list ascii * list ascii) :=
  match l with
  | [] => None
  | c :: l' =>
      if Ascii.eqb c sep then Some ([], l')
      else match split_once sep l' with
           | Some (a, b) => Some (c :: a, b)
           | None => None
           end
  end.

(** [s.split(sep)]: always at least one piece. *)
Fixpoint split (sep : ascii) (l : list ascii) : list (list ascii) :=
  match l with
  | [] => [[]]
  | c :: l' =>
      if Ascii.eqb c sep then [] :: split sep l'
      else match split sep l' with
           | p :: ps => (c :: p) :: ps
           | [] => [[c]]
           end
  end.

(** [sep.join(parts)] *)
Fixpoint join (sep : ascii) (parts : list (list ascii)) : list ascii :=
  match parts with
  | [] => []
  | [p] => p
  | p :: ps => p ++ sep :: join sep ps
  end.

(** [xs[:n]] for any integer [n]: a negative bound counts from the end. *)
Definition slice_to {A} (n : Z) (xs : list A) : list A :=
  if 0 <=? n then firstn (Z.to_nat n) xs
  else firstn (Z.to_nat (Z.of_nat (List.length xs) + n)) xs.

Definition is_digit (c : ascii) : bool :=
  ((48 <=? code c) && (code c <=? 57))%N.

(** The digits of an [int(...)] literal in base 10: decimal digits,
    with single underscores allowed between two digits. *)
Fixpoint digits (l : list ascii) (acc : Z) (after_digit : bool)
  : option Z :=
  match l with
  | [] => if after_digit then Some acc else None
  | c :: l' =>
      if is_digit c
      then digits l' (10 * acc + Z.of_N (code c - 48)) true
      else if Ascii.eqb c "_" && after_digit then digits l' acc false
      else None
  end.

(** The white space [int] skips around a literal: what [str.isspace]
    accepts, except U+001C to U+001F, which [int] does not take for
    white space. *)
Definition int_space (c : ascii) : bool :=
  let n := code c in
  ((9 <=? n) && (n <=? 13) || (n =? 32) || (n =? 133) || (n =? 160))%N.

(** [sys.get_int_max_str_digits()], as it is set by default. *)
Definition MAX_STR_DIGITS : nat := 4300.

(** [int(s)]: [None] stands for [ValueError], which is raised for a
    string that is not a literal and for one of more than 4300 digits. *)
Definition int_of_str (s : string) : option Z :=
  let l := rstrip_by int_space (lstrip_by int_space (chars s)) in
  if (MAX_STR_DIGITS <? List.length (List.filter is_digit l))%nat then None
  else
    match l with
    | "-"%char :: l => Z.opp <$> digits l 0 false
    | "+"%char :: l => digits l 0 false
    | l => digits l 0 false
    end.

(** [str(n)] for an integer. *)
Definition str_of_Z (n : Z) : string :=
  NilZero.string_of_int (Z.to_int n).

End Py.

(** ** The [urllib.parse] functions the module imports

    [urlparse] and [urljoin] as CPython 3.11 defines them, on strings
    without square brackets.  On a host written with [[] or []]
    [urlsplit] may raise [ValueError] (an unbalanced bracket, or an
    invalid address between the brackets); that check is not modelled,
    so the functions below are total, and on such a string they say
    nothing about the code.  The audit module calls them unguarded in
    [_check_canonical], [_check_technical_headers],
    [_check_robots_and_sitemap], [_score] and [seo_audit], and inside
    [try/except] in [_ensure_url_scheme], [_absolute_url] and
    [_is_internal]; the exception branches of the latter three are taken
    on bracketed hosts only and are likewise outside the model.  A
    theorem that would be false where the code raises or takes such a
    branch states that its URLs hold no square bracket.  (The other
    check of [urlsplit], on NFKC-normalised hosts, never fires below
    code point 256.) *)

Module Urllib.
Import Py.

Record ParseResult := {
  scheme : string;
  netloc : string;
  path : string;
  params : string;
  query : string;
  fragment : string
}.

Definition uses_relative : list string :=
  [""; "ftp"; "http"; "gopher"; "nntp"; "imap"; "wais"; "file"; "https";
   "shttp"; "mms"; "prospero"; "rtsp"; "rtspu"; "sftp"; "svn"; "svn+ssh";
   "ws"; "wss"].

Definition uses_netloc : list string :=
  [""; "ftp"; "http"; "gopher"; "nntp"; "telnet"; "imap"; "wais"; "file";
   "mms"; "https"; "shttp"; "snews"; "prospero"; "rtsp"; "rtspu"; "rsync";
   "svn"; "svn+ssh"; "sftp"; "nfs"; "git"; "git+ssh"; "ws"; "wss"].

Definition uses_params : list string :=
  [""; "ftp"; "hdl"; "prospero"; "http"; "imap"; "https"; "shttp"; "rtsp";
   "rtspu"; "sip"; "sips"; "mms"; "sftp"; "tel"].

Definition mem (s : string) (l : list string) : bool :=
  existsb (String.eqb s) l.

Definition is_alpha (c : ascii) : bool :=
  let n := code c in
  ((65 <=? n) && (n <=? 90) || (97 <=? n) && (n <=? 122))%N.

Definition scheme_char (c : ascii) : bool :=
  is_alpha c || is_digit c
  || Ascii.eqb c "+" || Ascii.eqb c "-" || Ascii.eqb c ".".

Definition c0_or_space (c : ascii) : bool := (code c <=? 32)%N.

Definition unsafe_byte (c : ascii) : bool :=
  ((code c =? 9) || (code c =? 13) || (code c =? 10))%N.

Definition has_char (c : ascii) (l : list ascii) : bool :=
  existsb (Ascii.eqb c) l.

(** The scheme prefix of [url], when it has one: [url[:i].lower()] and
    [url[i+1:]] for [i = url.find(':')]. *)
Definition split_scheme (url : list ascii)
  : option (list ascii * list ascii) :=
  match split_once ":" url with
  | Some (c :: pre, rest) =>
      if is_alpha c && forallb scheme_char (c :: pre)
      then Some (List.map lower_char (c :: pre), rest)
      else None
  | _ => None
  end.

Definition is_netloc_delim (c : ascii) : bool :=
  Ascii.eqb c "/" || Ascii.eqb c "?" || Ascii.eqb c "#".

(** [_splitnetloc(url, 2)] applied to the text after the two slashes. *)
Fixpoint splitnetloc (l : list ascii) : list ascii * list ascii :=
  match l with
  | [] => ([], [])
  | c :: l' =>
      if is_netloc_delim c then ([], l)
      else let '(a, b) := splitnetloc l' in (c :: a, b)
  end.

Definition urlsplit (url default_scheme : string)
  : string * string * list ascii * string * string :=
  let u := List.filter (fun c => negb (unsafe_byte c))
                       (lstrip_by c0_or_space (chars url)) in
  let '(sch, u) :=
    match split_scheme u with
    | Some (s, rest) => (str s, rest)
    | None => (default_scheme, u)
    end in
  let '(loc, u) :=
    match u with
    | "/"%char :: "/"%char :: rest => splitnetloc rest
    | _ => ([], u)
    end in
  let '(u, frag) :=
    match split_once "#" u with
    | Some (a, b) => (a, b)
    | None => (u, [])
    end in
  let '(u, qry) :=
    match split_once "?" u with
    | Some (a, b) => (a, b)
    | None => (u, [])
    end in
  (sch, str loc, u, str qry, str frag).

(** [_splitparams]: the first [;] of the last path segment. *)
Definition splitparams (url : list ascii) : list ascii * list ascii :=
  match rev (split "/" url) with
  | [] => (url, [])
  | last :: dirs_rev =>
      match split_once ";" last with
      | Some (a, b) => (join "/" (rev (a :: dirs_rev)), b)
      | None => (url, [])
      end
  end.

Definition urlparse_with (url default_scheme : string) : ParseResult :=
  let '(sch, loc, u, qry, frag) := urlsplit url default_scheme in
  let '(u, prm) :=
    if mem sch uses_params && has_char ";" u then splitparams u
    else (u, []) in
  {| scheme := sch; netloc := loc; path := str u; params := str prm;
     query := qry; fragment := frag |}.

Definition urlparse (url : string) : ParseResult := urlparse_with url "".

Definition urlunsplit (sch loc url qry frag : string) : string :=
  let url :=
    if truthy loc
       || (truthy sch && mem sch uses_netloc && negb (startswith url "//"))
    then "//" +:+ loc +:+
         (if truthy url && negb (startswith url "/") then "/" +:+ url else url)
    else url in
  let url := if truthy sch then sch +:+ ":" +:+ url else url in
  let url := if truthy qry then url +:+ "?" +:+ qry else url in
  if truthy frag then url +:+ "#" +:+ frag else url.

Definition urlunparse (p : ParseResult) : string :=
  let url := if truthy (params p) then path p +:+ ";" +:+ params p
             else path p in
  urlunsplit (scheme p) (netloc p) url (query p) (fragment p).

Definition nonempty (l : list ascii) : bool :=
  match l with [] => false | _ => true end.

(** [segments[1:-1] = filter(None, segments[1:-1])] *)
Definition filter_middle (segs : list (list ascii)) : list (list ascii) :=
  match segs with
  | [] => []
  | first :: rest =>
      match rev rest with
      | [] => [first]
      | last :: mid_rev =>
          first :: List.filter nonempty (rev mid_rev) ++ [last]
      end
  end.

Definition dot : list ascii := ["."%char].
Definition dotdot : list ascii := ["."%char; "."%char].

Definition seg_eqb (a b : list ascii) : bool := String.eqb (str a) (str b).

(** The loop over [segments]; the accumulator is [resolved_path]
    reversed, so [pop] removes its head and an empty list is left alone. *)
Fixpoint resolve (segs : list (list ascii)) (acc : list (list ascii))
  : list (list ascii) :=
  match segs with
  | [] => rev acc
  | seg :: segs' =>
      if seg_eqb seg dotdot then resolve segs' (tl acc)
      else if seg_eqb seg dot then resolve segs' acc
      else resolve segs' (seg :: acc)
  end.

Definition urljoin (base url : string) : string :=
  if negb (truthy base) then url
  else if negb (truthy url) then base
  else
    let b := urlparse_with base "" in
    let u := urlparse_with url (scheme b) in
    if negb (String.eqb (scheme u) (scheme b))
       || negb (mem (scheme u) uses_relative)
    then url
    else if mem (scheme u) uses_netloc && truthy (netloc u)
    then urlunparse u
    else
      let loc := if mem (scheme u) uses_netloc then netloc b else netloc u in
      if negb (truthy (path u)) && negb (truthy (params u)) then
        urlunparse {| scheme := scheme u; netloc := loc; path := path b;
                      params := params b;
                      query := if truthy (query u) then query u
                               else query b;
                      fragment := fragment u |}
      else
        let base_parts :=
          let bp := split "/" (chars (path b)) in
          match rev bp with
          | last :: dirs_rev => if nonempty last then rev dirs_rev else bp
          | [] => bp
          end in
        let segments :=
          if startswith (path u) "/" then split "/" (chars (path u))
          else filter_middle (base_parts ++ split "/" (chars (path u))) in
        let resolved := resolve segments [] in
        let resolved :=
          match rev segments with
          | last :: _ =>
              if seg_eqb last dot || seg_eqb last dotdot
              then resolved ++ [[]] else resolved
          | [] => resolved
          end in
        let joined := str (join "/" resolved) in
        urlunparse {| scheme := scheme u; netloc := loc;
                      path := if truthy joined then joined else "/";
                      params := params u; query := query u;
                      fragment := fragment u |}.

End Urllib.

(** ** Effects: exceptions, the request log, the shared recommendation list *)

Inductive exn :=
| ValueError (msg : string)
| KeyError (key : string)
| IntValueError (literal : string).
    (* the ValueError that [int(literal)] raises; its message quotes the
       literal, or its number of digits when there are too many *)

Inductive result (A : Type) :=
| Ok (a : A)
| Raise (e : exn).
Arguments Ok {A} a.
Arguments Raise {A} e.

#[global] Instance result_ret : MRet result := fun _ a => Ok a.
#[global] Instance result_bind : MBind result := fun _ _ f r =>
  match r with Ok a => f a | Raise e => Raise e end.

Inductive method := HEAD | GET.

Record request := {
  req_method : method;
  req_url : string;
  req_timeout : Z
}.

(** What one audit run mutates or does to the outside: the list behind
    [report["recommendations"]] that every check appends to, the HTTP
    requests issued so far, and the [max_workers] of every
    [ThreadPoolExecutor] created so far. *)
Record world := {
  recommendations : list string;
  requests : list request;
  pools : list Z
}.

Definition M (A : Type) : Type := world -> result A * world.

#[global] Instance M_ret : MRet M := fun _ a w => (Ok a, w).
#[global] Instance M_bind : MBind M := fun _ _ f m w =>
  match m w with
  | (Ok a, w') => f a w'
  | (Raise e, w') => (Raise e, w')
  end.

Definition raise {A} (e : exn) : M A := fun w => (Raise e, w).

(** [recommendations.append(s)] *)
Definition recommend (s : string) : M unit := fun w =>
  (Ok tt, {| recommendations := recommendations w ++ [s];
             requests := requests w; pools := pools w |}).

Definition get_recommendations : M (list string) := fun w =>
  (Ok (recommendations w), w).

Definition log_request (r : request) : M unit := fun w =>
  (Ok tt, {| recommendations := recommendations w;
             requests := requests w ++ [r]; pools := pools w |}).

Definition log_pool (n : Z) : M unit := fun w =>
  (Ok tt, {| recommendations := recommendations w;
             requests := requests w; pools := pools w ++ [n] |}).

(** [if c: body] *)
Definition when (c : bool) (body : M unit) : M unit :=
  if c then body else mret tt.

Definition initial_world : world :=
  {| recommendations := []; requests := []; pools := [] |}.

(** ** The parsed document and the network *)

Record Img := {
  img_alt : option string;    (* img.get("alt") *)
  img_src : option string     (* img.get("src") *)
}.

Record Anchor := {
  href : string;              (* a.get("href") *)
  anchor_text : string;       (* a.get_text(strip=True) *)
  in_nav : bool;              (* a.find_parent("nav") *)
  in_main : bool;
  in_article : bool;
  in_header : bool;
  in_footer : bool
}.

(** The observations the checks make on the BeautifulSoup tree.  An
    attribute read through [tag.get(...)] is [None] when the tag or the
    attribute is absent. *)
Record Document := {
  doc_title : option string;          (* soup.find("title").text *)
  doc_meta_description : option string;
  doc_h1 : list string;               (* h1.text of every h1 *)
  doc_images : list Img;              (* soup.find_all("img") *)
  doc_canonical : option string;      (* href of the canonical link *)
  doc_viewport : bool;                (* a meta viewport tag exists *)
  doc_meta_robots : option string;
  doc_html_lang : option string;
  doc_meta_charset : option string;
  doc_http_equiv : option string;
  doc_alternates : list (option string * option string);
                                      (* hreflang, href of rel=alternate *)
  doc_og : bool;                      (* a meta property og:* exists *)
  doc_twitter_card : bool;
  doc_json_ld : list bool;            (* json.loads succeeds, per script *)
  doc_anchors : list Anchor           (* soup.find_all("a", href=True) *)
}.

Record Response := {
  status_code : Z;
  headers : list (string * string);
  text : string;
  soup : Document                     (* _soupify(text) *)
}.

(** [bool(response)] is [response.ok] in the requests library: false for
    a status in [400, 600). *)
Definition response_ok (r : Response) : bool :=
  negb ((400 <=? status_code r) && (status_code r <? 600)).

(** A future of the link pool: the link and what [head_or_get] returned. *)
Definition future : Type := string * option Response.

Record Env := {
  (** the reply to a request: an exception message or a response *)
  send : request -> string + Response;
  (** [int(elapsed * 1000)] for the request *)
  elapsed_ms : request -> Z;
  (** the order in which [as_completed] yields the submitted futures *)
  as_completed : list future -> list future;
  (** the scheduler of the thread pool: which of the tasks that still
      have a request to send goes next (taken modulo their number) *)
  next_task : list (list request) -> nat
}.

(** ** URL helpers

    [_ensure_url_scheme], [_absolute_url] and [_is_internal] wrap their
    calls of [urlparse] and [urljoin] in [try/except]; the handlers run
    only when a host written with square brackets is rejected, and are
    not part of the definitions below, which are the [try] bodies. *)

Definition _ensure_url_scheme (input_url : string) : string :=
  if negb (Py.truthy (Urllib.scheme (Urllib.urlparse input_url)))
  then "https://" +:+ input_url
  else input_url.

(** [_fetch]: the response or the error text, and the elapsed time. *)
Definition _fetch (env : Env) (url : string) (timeout : Z)
  : M (option Response * option string * Z) :=
  let rq := {| req_method := GET; req_url := url; req_timeout := timeout |} in
  _ ← log_request rq;
  match send env rq with
  | inr response => mret (Some response, None, elapsed_ms env rq)
  | inl exc => mret (None, Some exc, elapsed_ms env rq)
  end.

Definition _absolute_url (base_url href : string) : string :=
  Urllib.urljoin base_url href.

Definition _domain (url : string) : string :=
  Py.lower (Urllib.netloc (Urllib.urlparse url)).

Definition _is_internal (base_url href : string) : bool :=
  String.eqb (_domain base_url) (_domain (_absolute_url base_url href)).

(** ** On-page checks *)

(** [{"length": ..., "issues": [...]}] *)
Record LengthInfo := {
  info_length : Z;
  info_issues : list string
}.

(** [{"count": ..., "issues": [...]}] *)
Record CountInfo := {
  info_count : Z;
  count_issues : list string
}.

(** One length test of [_check_title] and [_check_meta_description]:
    [if c: data["issues"].append(issue); recommendations.append(rec)]. *)
Definition flag (c : bool) (issue rec : string) (issues : list string)
  : M (list string) :=
  if c then (_ ← recommend rec; mret (issues ++ [issue]))
  else mret issues.

Definition _check_title (soup : Document) : M (option string * LengthInfo) :=
  match doc_title soup with
  | Some title_text =>
      if Py.truthy (Py.strip title_text) then
        let title := Py.strip title_text in
        issues ← flag (Py.len title <? 30) "Title too short (<30 chars)"
                   "Increase title length to ~50-60 characters." [];
        issues ← flag (60 <? Py.len title) "Title too long (>60 chars)"
                   "Shorten title to <=60 characters." issues;
        mret (Some title,
              {| info_length := Py.len title; info_issues := issues |})
      else
        _ ← recommend "Missing <title> tag.";
        mret (None, {| info_length := 0; info_issues := ["Missing title"] |})
  | None =>
      _ ← recommend "Missing <title> tag.";
      mret (None, {| info_length := 0; info_issues := ["Missing title"] |})
  end.

Definition _check_meta_description (soup : Document)
  : M (option string * LengthInfo) :=
  match doc_meta_description soup with
  | Some raw =>
      if Py.truthy raw then
        let content := Py.strip raw in
        issues ← flag (Py.len content <? 50)
                   "Description too short (<50 chars)"
                   "Expand meta description to 120-160 characters." [];
        issues ← flag (160 <? Py.len content)
                   "Description too long (>160 chars)"
                   "Shorten meta description to <=160 characters." issues;
        mret (Some content,
              {| info_length := Py.len content; info_issues := issues |})
      else
        _ ← recommend "Add a unique meta description (120-160 characters).";
        mret (None, {| info_length := 0;
                       info_issues := ["Missing meta description"] |})
  | None =>
      _ ← recommend "Add a unique meta description (120-160 characters).";
      mret (None, {| info_length := 0;
                     info_issues := ["Missing meta description"] |})
  end.

Definition _check_h1 (soup : Document) : M (list string * CountInfo) :=
  let h1s := List.map Py.strip
               (List.filter (fun t => Py.truthy t && Py.truthy (Py.strip t))
                            (doc_h1 soup)) in
  let n := Z.of_nat (List.length h1s) in
  if n =? 0 then
    _ ← recommend "Add one descriptive H1 heading.";
    mret (h1s, {| info_count := n; count_issues := ["No H1"] |})
  else if 1 <? n then
    _ ← recommend "Use only one primary H1 heading per page.";
    mret (h1s, {| info_count := n; count_issues := ["Multiple H1s"] |})
  else mret (h1s, {| info_count := n; count_issues := [] |}).

(** [not img.get("alt") or img.get("alt", "").strip() == ""] *)
Definition alt_missing (img : Img) : bool :=
  negb (Py.truthy_opt (img_alt img))
  || String.eqb (Py.strip (default "" (img_alt img))) "".

Definition _check_images (soup : Document) : M (list string * Z) :=
  let images := doc_images soup in
  let missing := List.map (fun img => default "unknown" (img_src img))
                          (List.filter alt_missing images) in
  _ ← when (negb (Nat.eqb (List.length missing) 0))
        (recommend (Py.str_of_Z (Z.of_nat (List.length missing))
                    +:+ " images missing alt text."));
  mret (missing, Z.of_nat (List.length images)).

Definition _check_canonical (base_url : string) (soup : Document)
  : M (option string * list string) :=
  if Py.truthy_opt (doc_canonical soup) then
    let href := _absolute_url base_url (default "" (doc_canonical soup)) in
    let page_no_fragment := _absolute_url base_url "" in
    if negb (String.eqb (Urllib.netloc (Urllib.urlparse href))
                        (Urllib.netloc (Urllib.urlparse page_no_fragment)))
    then
      _ ← recommend "Ensure canonical URL points to the same domain.";
      mret (Some href, ["Canonical points to different domain"])
    else mret (Some href, [])
  else
    _ ← recommend "Add a canonical <link> to avoid duplicate content.";
    mret (None, ["Missing canonical"]).

Definition _check_viewport (soup : Document) : M bool :=
  if negb (doc_viewport soup) then
    _ ← recommend "Add responsive viewport meta tag.";
    mret false
  else mret true.

(** [{"noindex": ..., "nofollow": ...}] *)
Record MetaRobots := {
  noindex : bool;
  nofollow : bool
}.

Definition _check_meta_robots (soup : Document) : M MetaRobots :=
  if Py.truthy_opt (doc_meta_robots soup) then
    let content := Py.lower (default "" (doc_meta_robots soup)) in
    let data := {| noindex := Py.contains content "noindex";
                   nofollow := Py.contains content "nofollow" |} in
    _ ← when (noindex data) (recommend "Page is set to noindex.");
    _ ← when (nofollow data) (recommend "Page is set to nofollow.");
    mret data
  else mret {| noindex := false; nofollow := false |}.

(** [{"lang": ..., "charset": ...}] *)
Record LangCharset := {
  lang : option string;
  charset : option string
}.

Definition _check_lang_and_charset (soup : Document) : M LangCharset :=
  lang_value ←
    (if Py.truthy_opt (doc_html_lang soup)
     then mret (Py.strip <$> doc_html_lang soup)
     else (_ ← recommend "Set <html lang> attribute for accessibility and SEO.";
           mret None));
  charset_value ←
    (if Py.truthy_opt (doc_meta_charset soup)
     then mret ((fun c => Py.lower (Py.strip c)) <$> doc_meta_charset soup)
     else if Py.truthy_opt (doc_http_equiv soup)
     then mret (Py.lower <$> doc_http_equiv soup)
     else (_ ← recommend "Declare a charset (e.g., UTF-8).";
           mret None));
  mret {| lang := lang_value; charset := charset_value |}.

Definition _check_hreflang (base_url : string) (soup : Document)
  : M (list (string * string)) :=
  let hreflangs :=
    omap (fun tag : option string * option string =>
            if Py.truthy_opt tag.1 && Py.truthy_opt tag.2
            then Some (default "" tag.1,
                       _absolute_url base_url (default "" tag.2))
            else None)
         (doc_alternates soup) in
  let has_x_default :=
    existsb (fun h : string * string => String.eqb (Py.lower h.1) "x-default")
            hreflangs in
  _ ← when (negb (Nat.eqb (List.length hreflangs) 0) && negb has_x_default)
        (recommend "Add x-default hreflang for international pages.");
  mret hreflangs.

Record Social := {
  open_graph : bool;
  twitter_card : bool;
  json_ld_blocks : Z;
  json_ld_errors : Z
}.

(** The JSON-LD loop: one script at a time, counting successes and
    failures and recommending a fix at every failure. *)
Fixpoint json_ld_loop (scripts : list bool) (blocks errors : Z) : M (Z * Z) :=
  match scripts with
  | [] => mret (blocks, errors)
  | true :: rest => json_ld_loop rest (blocks + 1) errors
  | false :: rest =>
      _ ← recommend "Fix invalid JSON-LD structured data.";
      json_ld_loop rest blocks (errors + 1)
  end.

Definition _check_social_and_structured (soup : Document) : M Social :=
  _ ← when (negb (doc_og soup))
        (recommend "Add Open Graph tags for better social sharing.");
  _ ← when (negb (doc_twitter_card soup))
        (recommend "Add Twitter Card meta tags.");
  '(blocks, errors) ← json_ld_loop (doc_json_ld soup) 0 0;
  mret {| open_graph := doc_og soup; twitter_card := doc_twitter_card soup;
          json_ld_blocks := blocks; json_ld_errors := errors |}.

(** ** Link sampling and validation *)

(** The importance score of one anchor. *)
Definition link_score (a : Anchor) : Z :=
  let score := 0 in
  let score := if in_nav a then score + 10 else score in
  let score := if in_main a || in_article a then score + 8 else score in
  let score := if in_header a then score + 6 else score in
  let score := if in_footer a then score + 4 else score in
  let score :=
    if existsb (Py.contains (Py.lower (href a)))
               ["social"; "ad"; "analytics"; "tracking"]
    then score - 5 else score in
  if (3 <? Py.len (anchor_text a)) && (Py.len (anchor_text a) <? 50)
  then score + 2 else score.

(** [xs.sort(key=lambda x: x[1], reverse=True)]: descending by score,
    equal scores keep their original order. *)
Fixpoint insert_by_score (x : string * Z) (l : list (string * Z))
  : list (string * Z) :=
  match l with
  | [] => [x]
  | y :: l' => if y.2 <=? x.2 then x :: l else y :: insert_by_score x l'
  end.

Definition sort_by_score (l : list (string * Z)) : list (string * Z) :=
  foldr insert_by_score [] l.

Definition skipped_scheme (h : string) : bool :=
  Py.startswith h "javascript:" || Py.startswith h "mailto:"
  || Py.startswith h "tel:".

(** The base every link is classified against while sampling. *)
Definition placeholder_base : string := "https://placeholder.com".

(** The test that sends a link to [scored_internal]. *)
Definition sampled_as_internal (h : string) : bool :=
  let full_url := _absolute_url placeholder_base h in
  _is_internal placeholder_base full_url.

(** The anchor loop: the two scored lists, in document order. *)
Fixpoint score_anchors (anchors : list Anchor)
  : list (string * Z) * list (string * Z) :=
  match anchors with
  | [] => ([], [])
  | a :: rest =>
      let '(scored_internal, scored_external) := score_anchors rest in
      if skipped_scheme (href a) then (scored_internal, scored_external)
      else
        let link_data := (href a, link_score a) in
        if sampled_as_internal (href a)
        then (link_data :: scored_internal, scored_external)
        else (scored_internal, link_data :: scored_external)
  end.

Definition _smart_link_sampling (soup : Document) (max_links : Z)
  : list string * list string :=
  let '(scored_internal, scored_external) :=
    score_anchors (doc_anchors soup) in
  let scored_internal := sort_by_score scored_internal in
  let scored_external := sort_by_score scored_external in
  (List.map fst (Py.slice_to max_links scored_internal),
   List.map fst (Py.slice_to max_links scored_external)).

(** [unique]: first occurrences, in order; [seen] is the set built so far. *)
Fixpoint unique_from (seen : gset string) (xs : list string) : list string :=
  match xs with
  | [] => []
  | x :: xs' =>
      if decide (x ∈ seen) then unique_from seen xs'
      else x :: unique_from ({[x]} ∪ seen) xs'
  end.

Definition unique (xs : list string) : list string := unique_from ∅ xs.

Definition LINK_TIMEOUT : Z := 3.

(** [head_or_get]: [None] when either request raises. *)
Definition head_or_get (env : Env) (u : string) : M (option Response) :=
  let head := {| req_method := HEAD; req_url := u;
                 req_timeout := LINK_TIMEOUT |} in
  _ ← log_request head;
  match send env head with
  | inl _ => mret None
  | inr r =>
      if (400 <=? status_code r)
         || ((status_code r =? 405) || (status_code r =? 501))
      then
        let get := {| req_method := GET; req_url := u;
                      req_timeout := LINK_TIMEOUT |} in
        _ ← log_request get;
        match send env get with
        | inl _ => mret None
        | inr r' => mret (Some r')
        end
      else mret (Some r)
  end.

(** One task of the pool, [head_or_get] on [u], run on its own: what
    it returns and the requests it sends, in the order it sends them. *)
Definition probe (env : Env) (u : string) : option Response :=
  match (head_or_get env u initial_world).1 with
  | Ok r => r
  | Raise _ => None
  end.

Definition probe_requests (env : Env) (u : string) : list request :=
  requests (head_or_get env u initial_world).2.

Definition has_pending (task : list request) : bool :=
  match task with [] => false | _ => true end.

(** The requests of tasks that run concurrently, in the order they
    reach the network: as long as some task has a request left, the
    scheduler [pick] names one of these tasks, and that task sends its
    next request.  [fuel] bounds the number of requests. *)
Fixpoint interleave (pick : list (list request) -> nat) (fuel : nat)
    (tasks : list (list request)) : list request :=
  match fuel with
  | O => []
  | S fuel' =>
      let running := List.filter has_pending tasks in
      let i := (pick running mod List.length running)%nat in
      match running !! i with
      | Some (rq :: rest) =>
          rq :: interleave pick fuel' (<[i := rest]> running)
      | _ => []
      end
  end.

(** The log of the pool for [tasks] under the scheduler of [env].  Any
    interleaving of the tasks is the log for some scheduler; that the
    pool runs at most [max_workers] tasks at a time only rules some of
    them out. *)
Definition schedule (env : Env) (tasks : list (list request))
  : list request :=
  interleave (next_task env) (List.length (concat tasks)) tasks.

(** [{executor.submit(head_or_get, link): link for link in links}]: the
    tasks run on the threads of the pool, so their requests are logged
    interleaved; the futures hold what the tasks return. *)
Definition submit_all (env : Env) (links : list string) : M (list future) :=
  fun w =>
    (Ok (List.map (fun link => (link, probe env link)) links),
     {| recommendations := recommendations w;
        requests := requests w
                    ++ schedule env (List.map (probe_requests env) links);
        pools := pools w |}).

(** The three outcome lists before they are cut for the report. *)
Record Buckets := {
  all_broken_internal : list (string * Z);
  all_broken_external : list (string * Z);
  all_redirects : list (string * Z)
}.

Definition empty_buckets : Buckets :=
  {| all_broken_internal := []; all_broken_external := [];
     all_redirects := [] |}.

Definition add_broken (base_url link : string) (status : Z) (b : Buckets)
  : Buckets :=
  if _is_internal base_url link
  then {| all_broken_internal := all_broken_internal b ++ [(link, status)];
          all_broken_external := all_broken_external b;
          all_redirects := all_redirects b |}
  else {| all_broken_internal := all_broken_internal b;
          all_broken_external := all_broken_external b ++ [(link, status)];
          all_redirects := all_redirects b |}.

Definition add_redirect (link : string) (status : Z) (b : Buckets) : Buckets :=
  {| all_broken_internal := all_broken_internal b;
     all_broken_external := all_broken_external b;
     all_redirects := all_redirects b ++ [(link, status)] |}.

(** The body of the [as_completed] loop for one future.  A future whose
    result is [None] makes [resp.status_code] raise, which the [except]
    clause turns into status 0. *)
Definition record_outcome (base_url : string) (b : Buckets) (f : future)
  : Buckets :=
  let '(link, resp) := f in
  match resp with
  | Some r =>
      let status := status_code r in
      let b := if (300 <=? status) && (status <? 400)
               then add_redirect link status b else b in
      if 400 <=? status then add_broken base_url link status b else b
  | None => add_broken base_url link 0 b
  end.

(** The [with ThreadPoolExecutor(max_workers=workers)] block. *)
Definition validate_links (env : Env) (base_url : string) (workers : Z)
    (links : list string) : M Buckets :=
  if workers <=? 0
  then raise (ValueError "max_workers must be greater than 0")
  else
    _ ← log_pool workers;
    futures ← submit_all env links;
    mret (fold_left (record_outcome base_url) (as_completed env futures)
                    empty_buckets).

Record Links := {
  internal_count : Z;
  external_count : Z;
  broken_internal : list (string * Z);
  broken_external : list (string * Z);
  redirects : list (string * Z)
}.

Definition nonempty {A} (l : list A) : bool :=
  match l with [] => false | _ => true end.

Definition count_of {A} (l : list A) : string :=
  Py.str_of_Z (Z.of_nat (List.length l)).

Definition _check_links (env : Env) (base_url : string) (soup : Document)
    (max_links : Z) (workers : Z) : M Links :=
  let '(internal, external) := _smart_link_sampling soup max_links in
  let internal := unique internal in
  let external := unique external in
  b ← validate_links env base_url workers (internal ++ external);
  _ ← when (nonempty (all_broken_internal b))
        (recommend (count_of (all_broken_internal b)
                    +:+ " internal links appear broken."));
  _ ← when (nonempty (all_redirects b))
        (recommend (count_of (all_redirects b)
                    +:+ " links redirect; update to final URLs where possible."));
  mret {| internal_count := Z.of_nat (List.length internal);
          external_count := Z.of_nat (List.length external);
          broken_internal := Py.slice_to 10 (all_broken_internal b);
          broken_external := Py.slice_to 10 (all_broken_external b);
          redirects := Py.slice_to 10 (all_redirects b) |}.

(** ** Technical headers *)

Record Tech := {
  tech_status_code : Z;
  response_time_ms : Z;
  content_length : Z;
  gzip : bool;
  hsts : bool;
  x_content_type_options : bool;
  x_frame_options : bool;
  referrer_policy : bool;
  csp : bool;
  server : option string;
  cache_control : option string
}.

(** [{k.lower(): v for k, v in response.headers.items()}] *)
Definition lower_headers (hs : list (string * string)) : gmap string string :=
  fold_left (fun m kv => <[Py.lower kv.1 := kv.2]> m) hs ∅.

Definition TWO_MIB : Z := 2 * 1024 * 1024.

Definition _check_technical_headers (url : string) (response : Response)
    (elapsed : Z) : M Tech :=
  let hs := lower_headers (headers response) in
  let length_header := hs !! "content-length" in
  match (if Py.truthy_opt length_header
         then Py.int_of_str (default "" length_header) else Some 0) with
  | None => raise (IntValueError (default "" length_header))
  | Some len =>
      let encoding := Py.lower (default "" (hs !! "content-encoding")) in
      let tech :=
        {| tech_status_code := status_code response;
           response_time_ms := elapsed;
           content_length := len;
           gzip := Urllib.mem encoding ["gzip"; "br"; "deflate"];
           hsts := bool_decide (is_Some (hs !! "strict-transport-security"));
           x_content_type_options :=
             bool_decide (hs !! "x-content-type-options" = Some "nosniff");
           x_frame_options := bool_decide (is_Some (hs !! "x-frame-options"));
           referrer_policy := bool_decide (is_Some (hs !! "referrer-policy"));
           csp := bool_decide (is_Some (hs !! "content-security-policy"));
           server := hs !! "server";
           cache_control := hs !! "cache-control" |} in
      _ ← when (1500 <? response_time_ms tech)
            (recommend
               "Page load (first byte) seems slow (>1.5s). Optimize performance.");
      _ ← when (TWO_MIB <? content_length tech)
            (recommend "Large page size (>2MB). Consider optimizing assets.");
      _ ← when (String.eqb (Urllib.scheme (Urllib.urlparse url)) "https"
                && negb (hsts tech))
            (recommend "Enable HSTS for better transport security.");
      _ ← when (negb (x_content_type_options tech))
            (recommend "Add X-Content-Type-Options: nosniff header.");
      _ ← when (negb (x_frame_options tech))
            (recommend "Add X-Frame-Options header to prevent clickjacking.");
      _ ← when (negb (referrer_policy tech))
            (recommend "Set a Referrer-Policy header.");
      _ ← when (negb (csp tech))
            (recommend "Consider adding a Content-Security-Policy header.");
      mret tech
  end.

(** ** robots.txt and sitemap.xml *)

Record RobotsSitemap := {
  robots_txt : string;
  sitemap : string;
  robots_notes : list string
}.

Definition PROBE_TIMEOUT : Z := 3.

(** [resp and resp.status_code == 200] *)
Definition is_200 (resp : option Response) : bool :=
  match resp with
  | Some r => response_ok r && (status_code r =? 200)
  | None => false
  end.

Definition _check_robots_and_sitemap (env : Env) (base_url : string)
  : M RobotsSitemap :=
  let robots_url := Urllib.urljoin base_url "/robots.txt" in
  '(resp, _, _) ← _fetch env robots_url PROBE_TIMEOUT;
  '(robots, notes) ←
    (if is_200 resp then
       let content := default "" (text <$> resp) in
       let notes :=
         if negb (Py.contains content "Disallow:")
            && negb (Py.contains content "Allow:")
         then ["robots.txt seems permissive (no explicit rules)."] else [] in
       let notes :=
         if Py.contains content "Sitemap:"
         then notes ++ ["robots.txt references a sitemap."] else notes in
       mret ("Present", notes)
     else
       _ ← recommend "Missing robots.txt file.";
       mret ("Missing", []));
  let sitemap_url := Urllib.urljoin base_url "/sitemap.xml" in
  '(s_resp, _, _) ← _fetch env sitemap_url PROBE_TIMEOUT;
  if is_200 s_resp then
    mret {| robots_txt := robots; sitemap := "Present";
            robots_notes := notes |}
  else
    _ ← recommend "Missing sitemap.xml file.";
    mret {| robots_txt := robots; sitemap := "Missing";
            robots_notes := notes |}.

(** ** The report *)

Record OnPage := {
  title : option string;
  title_info : LengthInfo;
  meta_description : option string;
  meta_description_info : LengthInfo;
  h1_tags : list string;
  h1_info : CountInfo;
  images_missing_alt : list string;
  images_info : Z;                     (* {"total": ...} *)
  canonical : option string;
  canonical_info : list string;        (* {"issues": [...]} *)
  has_viewport_meta : bool;
  meta_robots : MetaRobots;
  lang_charset : LangCharset;
  hreflang : list (string * string)
}.

(** The shapes [report["technical"]] takes. *)
Inductive Technical :=
| TechEmpty                                      (* {} *)
| TechError (error : option string)              (* {"error": err} *)
| TechHttpError (status response_ms : Z)
      (* {"status_code": ..., "response_time_ms": ...} *)
| TechFull (tech : Tech).

(** The keys of [report["technical"]]. *)
Definition technical_keys (t : Technical) : list string :=
  match t with
  | TechEmpty => []
  | TechError _ => ["error"]
  | TechHttpError _ _ => ["status_code"; "response_time_ms"]
  | TechFull _ =>
      ["status_code"; "response_time_ms"; "content_length"; "gzip"; "hsts";
       "x_content_type_options"; "x_frame_options"; "referrer_policy"; "csp";
       "server"; "cache_control"]
  end.

Record Score := {
  overall : Z;
  deductions : list string
}.

(** The report dictionary.  A section that is still [{}] is [None].  The
    float [analysis_time] of a full report is not represented. *)
Record Report := {
  url : string;
  on_page : option OnPage;
  social_structured : option Social;
  links : option Links;
  technical : Technical;
  robots_sitemap : option RobotsSitemap;
  report_recommendations : list string;
  score : option Score;
  workers_used : option Z;
  fast_mode : option bool
}.

(** ** The scorer *)

(** [deduct(points, reason)] on the pair of [score] and [deductions]. *)
Definition deduct (points : Z) (reason : string) (st : Z * list string)
  : Z * list string :=
  (st.1 - points,
   st.2 ++ ["-" +:+ Py.str_of_Z points +:+ ": " +:+ reason]).

(** [if c: deduct(points, reason)] *)
Definition deduct_if (c : bool) (points : Z) (reason : string)
    (st : Z * list string) : Z * list string :=
  if c then deduct points reason st else st.

(** Reading [first_key] in a section of the report: a section that is
    still [{}] raises [KeyError]. *)
Definition section {A} (first_key : string) (s : option A) : result A :=
  match s with
  | Some a => Ok a
  | None => Raise (KeyError first_key)
  end.

Definition tech_section (t : Technical) : result Tech :=
  match t with
  | TechFull tech => Ok tech
  | TechEmpty | TechError _ => Raise (KeyError "response_time_ms")
  | TechHttpError _ _ => Raise (KeyError "content_length")
  end.

(** The sequence of conditional deductions, starting from 100. *)
Definition apply_deductions (page_url : string) (onp : OnPage)
    (social : Social) (lnk : Links) (tech : Tech) (rs : RobotsSitemap)
  : Z * list string :=
  let st := (100, []) in
  (* On-page *)
  let st := deduct_if (nonempty (info_issues (title_info onp)))
              5 "Title issues" st in
  let st := deduct_if (nonempty (info_issues (meta_description_info onp)))
              5 "Meta description issues" st in
  let st := deduct_if (nonempty (count_issues (h1_info onp)))
              5 "H1 count issues" st in
  let st := deduct_if (5 <? Z.of_nat (List.length (images_missing_alt onp)))
              3 "Many images missing alt" st in
  let st := deduct_if (nonempty (canonical_info onp))
              2 "Canonical issues" st in
  let st := deduct_if (negb (has_viewport_meta onp))
              2 "Missing viewport" st in
  (* Indexing *)
  let st := deduct_if (noindex (meta_robots onp)) 10 "noindex set" st in
  (* Social/structured *)
  let st := deduct_if (negb (open_graph social)) 2 "Missing Open Graph" st in
  let st := deduct_if (negb (twitter_card social))
              1 "Missing Twitter Card" st in
  let st := deduct_if (0 <? json_ld_errors social) 2 "Invalid JSON-LD" st in
  (* Links *)
  let st := deduct_if (0 <? Z.of_nat (List.length (broken_internal lnk)))
              5 "Broken internal links" st in
  let st := deduct_if (3 <? Z.of_nat (List.length (broken_external lnk)))
              2 "Multiple broken external links" st in
  (* Technical *)
  let st := deduct_if (1500 <? response_time_ms tech) 5 "Slow TTFB" st in
  let st := deduct_if (TWO_MIB <? content_length tech)
              4 "Large page size" st in
  let st := deduct_if (negb (hsts tech)
                       && String.eqb (Urllib.scheme (Urllib.urlparse page_url))
                                     "https")
              2 "Missing HSTS" st in
  let st := deduct_if (negb (x_content_type_options tech))
              1 "Missing X-Content-Type-Options" st in
  let st := deduct_if (negb (x_frame_options tech))
              1 "Missing X-Frame-Options" st in
  let st := deduct_if (negb (referrer_policy tech))
              1 "Missing Referrer-Policy" st in
  let st := deduct_if (negb (csp tech)) 1 "Missing CSP" st in
  (* Robots/Sitemap *)
  let st := deduct_if (negb (String.eqb (robots_txt rs) "Present"))
              2 "Missing robots.txt" st in
  let st := deduct_if (negb (String.eqb (sitemap rs) "Present"))
              2 "Missing sitemap.xml" st in
  st.

Definition _score (report : Report) : result Score :=
  onp ← section "title_info" (on_page report);
  social ← section "open_graph" (social_structured report);
  lnk ← section "broken_internal" (links report);
  tech ← tech_section (technical report);
  rs ← section "robots_txt" (robots_sitemap report);
  let st := apply_deductions (url report) onp social lnk tech rs in
  Ok {| overall := Z.max st.1 0; deductions := st.2 |}.

(** ** The audit *)

Definition lift {A} (r : result A) : M A := fun w => (r, w).

Definition PAGE_TIMEOUT : Z := 15.

(** [f"{err}"] for [err] a string or [None]. *)
Definition format_opt (o : option string) : string := default "None" o.

(** [report["score"] = sc] *)
Definition set_score (sc : Score) (report : Report) : Report :=
  {| url := url report; on_page := on_page report;
     social_structured := social_structured report;
     links := links report; technical := technical report;
     robots_sitemap := robots_sitemap report;
     report_recommendations := report_recommendations report;
     score := Some sc;
     workers_used := workers_used report; fast_mode := fast_mode report |}.

(** [report["workers_used"] = workers] *)
Definition set_workers_used (workers : Z) (report : Report) : Report :=
  {| url := url report; on_page := on_page report;
     social_structured := social_structured report;
     links := links report; technical := technical report;
     robots_sitemap := robots_sitemap report;
     report_recommendations := report_recommendations report;
     score := score report;
     workers_used := Some workers; fast_mode := fast_mode report |}.

(** [report["fast_mode"] = fast] *)
Definition set_fast_mode (fast : bool) (report : Report) : Report :=
  {| url := url report; on_page := on_page report;
     social_structured := social_structured report;
     links := links report; technical := technical report;
     robots_sitemap := robots_sitemap report;
     report_recommendations := report_recommendations report;
     score := score report;
     workers_used := workers_used report; fast_mode := Some fast |}.

(** The report of a run that stops after the page fetch: only
    ["technical"], ["recommendations"] and ["score"] are filled in.
    [recs] is the shared recommendation list. *)
Definition failure_report (u : string) (tech : Technical)
    (recs : list string) (reason : string) : Report :=
  set_score {| overall := 0; deductions := [reason] |}
    {| url := u; on_page := None; social_structured := None; links := None;
       technical := tech; robots_sitemap := None;
       report_recommendations := recs; score := None;
       workers_used := None; fast_mode := None |}.

Definition seo_audit (env : Env) (url0 : string) (max_links workers : Z)
  : M Report :=
  let url := _ensure_url_scheme (Py.strip url0) in
  let parsed_url := Urllib.urlparse url in
  let base_url :=
    Urllib.scheme parsed_url +:+ "://" +:+ Urllib.netloc parsed_url in
  '(response, err, elapsed) ← _fetch env url PAGE_TIMEOUT;
  (* the branch taken when [not response] *)
  let not_fetched : M Report :=
    _ ← recommend ("Could not fetch website: " +:+ format_opt err);
    recs ← get_recommendations;
    mret (failure_report url (TechError err) recs
                         "Critical: site unreachable") in
  match response with
  | None => not_fetched
  | Some response =>
      if negb (response_ok response) then not_fetched
      else if 400 <=? status_code response then
        _ ← recommend ("Website returned status code "
                       +:+ Py.str_of_Z (status_code response)
                       +:+ ". Check server health.");
        recs ← get_recommendations;
        mret (failure_report url
                (TechHttpError (status_code response) elapsed) recs
                "Critical: HTTP error")
      else
        let doc := soup response in
        (* On-page checks *)
        '(title, title_info) ← _check_title doc;
        '(desc, desc_info) ← _check_meta_description doc;
        '(h1s, h1_info) ← _check_h1 doc;
        '(missing_alts, img_info) ← _check_images doc;
        '(canonical, canonical_info) ← _check_canonical url doc;
        has_viewport ← _check_viewport doc;
        robots_meta ← _check_meta_robots doc;
        lang_charset ← _check_lang_and_charset doc;
        hreflangs ← _check_hreflang url doc;
        let onp :=
          {| title := title; title_info := title_info;
             meta_description := desc; meta_description_info := desc_info;
             h1_tags := h1s; h1_info := h1_info;
             images_missing_alt := missing_alts; images_info := img_info;
             canonical := canonical; canonical_info := canonical_info;
             has_viewport_meta := has_viewport; meta_robots := robots_meta;
             lang_charset := lang_charset; hreflang := hreflangs |} in
        (* Social and structured data *)
        social ← _check_social_and_structured doc;
        (* Technical headers and perf *)
        tech ← _check_technical_headers url response elapsed;
        (* Robots / Sitemap *)
        rs ← _check_robots_and_sitemap env base_url;
        (* Links *)
        lnk ← _check_links env url doc max_links workers;
        recs ← get_recommendations;
        let report :=
          {| url := url; on_page := Some onp;
             social_structured := Some social; links := Some lnk;
             technical := TechFull tech; robots_sitemap := Some rs;
             report_recommendations := recs; score := None;
             workers_used := None; fast_mode := None |} in
        (* Score *)
        sc ← lift (_score report);
        mret (set_workers_used workers (set_score sc report))
  end.

(** ** The callers: command line and web handlers *)

Definition WORKER_CAP : Z := 20.

(** The audit step of the loop in [main]. *)
Definition main_audit (env : Env) (target_url : string)
    (args_max_links args_workers : Z) (args_fast : bool) : M Report :=
  let max_links := if args_fast then 0 else args_max_links in
  let workers := Z.min args_workers WORKER_CAP in
  seo_audit env target_url max_links workers.

(** The audit step of the web handlers [index] and [full]. *)
Definition web_audit (env : Env) (target_url : string)
    (max_links workers : Z) (fast : bool) : M Report :=
  let max_links := if fast then 0 else max_links in
  let workers := Z.min workers WORKER_CAP in
  report ← seo_audit env target_url max_links workers;
  mret (set_fast_mode fast (set_workers_used workers report)).

(** ** Vocabulary of the statements *)

(** Every section of the report has been filled in by a complete run. *)
Definition is_full (r : Report) : bool :=
  match on_page r, social_structured r, links r, technical r,
        robots_sitemap r with
  | Some _, Some _, Some _, TechFull _, Some _ => true
  | _, _, _, _, _ => false
  end.

(** The report of a run that stopped after the page fetch. *)
Definition is_failure (r : Report) : bool :=
  match on_page r, social_structured r, links r, technical r,
        robots_sitemap r with
  | None, None, None, (TechError _ | TechHttpError _ _), None => true
  | _, _, _, _, _ => false
  end.

(** The request [seo_audit] issues for the page itself. *)
Definition page_request (url0 : string) : request :=
  {| req_method := GET; req_url := _ensure_url_scheme (Py.strip url0);
     req_timeout := PAGE_TIMEOUT |}.

(** ** Sample reports *)

Definition worst_on_page : OnPage :=
  {| title := None;
     title_info := {| info_length := 0; info_issues := ["Missing title"] |};
     meta_description := None;
     meta_description_info :=
       {| info_length := 0; info_issues := ["Missing meta description"] |};
     h1_tags := [];
     h1_info := {| info_count := 0; count_issues := ["No H1"] |};
     images_missing_alt := ["a"; "b"; "c"; "d"; "e"; "f"];
     images_info := 6;
     canonical := None; canonical_info := ["Missing canonical"];
     has_viewport_meta := false;
     meta_robots := {| noindex := true; nofollow := false |};
     lang_charset := {| lang := None; charset := None |};
     hreflang := [] |}.

Definition worst_tech : Tech :=
  {| tech_status_code := 200; response_time_ms := 2000;
     content_length := 3 * 1024 * 1024; gzip := false; hsts := false;
     x_content_type_options := false; x_frame_options := false;
     referrer_policy := false; csp := false;
     server := None; cache_control := None |}.

(** A full report on which every guard of the scorer fires. *)
Definition worst_report : Report :=
  {| url := "https://example.com";
     on_page := Some worst_on_page;
     social_structured :=
       Some {| open_graph := false; twitter_card := false;
               json_ld_blocks := 0; json_ld_errors := 1 |};
     links :=
       Some {| internal_count := 1; external_count := 4;
               broken_internal := [("/x", 404)];
               broken_external :=
                 [("http://a.test/", 0); ("http://b.test/", 0);
                  ("http://c.test/", 0); ("http://d.test/", 500)];
               redirects := [] |};
     technical := TechFull worst_tech;
     robots_sitemap :=
       Some {| robots_txt := "Missing"; sitemap := "Missing";
               robots_notes := [] |};
     report_recommendations := []; score := None;
     workers_used := None; fast_mode := None |}.

(** ** Sample environments *)

Definition blank_doc : Document :=
  {| doc_title := None; doc_meta_description := None; doc_h1 := [];
     doc_images := []; doc_canonical := None; doc_viewport := false;
     doc_meta_robots := None; doc_html_lang := None;
     doc_meta_charset := None; doc_http_equiv := None;
     doc_alternates := []; doc_og := false; doc_twitter_card := false;
     doc_json_ld := []; doc_anchors := [] |}.

(** A network that answers [reply], takes 120 ms for every request,
    lets the tasks of a pool send their requests one task after the
    other, and completes the futures in submission order. *)
Definition env_of (reply : request -> string + Response) : Env :=
  {| send := reply; elapsed_ms := fun _ => 120; as_completed := fun l => l;
     next_task := fun _ => 0%nat |}.

Definition plain_response (status : Z) (body : string) : Response :=
  {| status_code := status; headers := []; text := body; soup := blank_doc |}.

(** No host can be reached. *)
Definition unreachable_env : Env :=
  env_of (fun _ => inl "Connection refused").

(** Every request is answered with 404. *)
Definition not_found_env : Env :=
  env_of (fun _ => inr (plain_response 404 "Not Found")).

(** [s] holds no square bracket: [urlparse] and [urljoin] accept it (and
    whatever is built from such strings), so the model of these functions
    is the code. *)
Definition no_brackets (s : string) : Prop :=
  forallb (fun c => negb (Ascii.eqb c "[" || Ascii.eqb c "]")) (Py.chars s)
  = true.

(** ** What a link probe does *)

Definition head_request (u : string) : request :=
  {| req_method := HEAD; req_url := u; req_timeout := LINK_TIMEOUT |}.

Definition get_request (u : string) : request :=
  {| req_method := GET; req_url := u; req_timeout := LINK_TIMEOUT |}.

(** The condition under which a HEAD answer is followed by a GET. *)
Definition error_or_unsupported (r : Response) : Prop :=
  400 <= status_code r \/ status_code r = 405 \/ status_code r = 501.

(** Validation of [u] raises: on the HEAD request, or on the GET request
    that follows a HEAD answered with an error status. *)
Inductive probe_raises (env : Env) (u : string) : Prop :=
| head_raises exc :
    send env (head_request u) = inl exc -> probe_raises env u
| get_raises r exc :
    send env (head_request u) = inr r -> error_or_unsupported r ->
    send env (get_request u) = inl exc -> probe_raises env u.

(** Validation of [u] ends with the response [r]. *)
Inductive probe_returns (env : Env) (u : string) (r : Response) : Prop :=
| head_returns :
    send env (head_request u) = inr r -> ~ error_or_unsupported r ->
    probe_returns env u r
| get_returns r0 :
    send env (head_request u) = inr r0 -> error_or_unsupported r0 ->
    send env (get_request u) = inr r -> probe_returns env u r.

Definition add_requests (w : world) (reqs : list request) : world :=
  {| recommendations := recommendations w; requests := requests w ++ reqs;
     pools := pools w |}.

Definition add_recommendations (w : world) (recs : list string) : world :=
  {| recommendations := recommendations w ++ recs; requests := requests w;
     pools := pools w |}.

Definition add_pool (w : world) (n : Z) : world :=
  {| recommendations := recommendations w; requests := requests w;
     pools := pools w ++ [n] |}.

(** The bucket a broken [link] belongs to on the page [base_url]. *)
Definition broken_bucket (base_url link : string) (b : Buckets)
  : list (string * Z) :=
  if _is_internal base_url link then all_broken_internal b
  else all_broken_external b.


(** The links [_check_links] validates: the two sampled lists, each
    without duplicates. *)
Definition validated_links (doc : Document) (max_links : Z)
  : list string * list string :=
  (unique (_smart_link_sampling doc max_links).1,
   unique (_smart_link_sampling doc max_links).2).

(** The outcome lists [_check_links] builds, before they are cut to 10. *)
Definition link_buckets (env : Env) (base_url : string) (doc : Document)
    (max_links : Z) : Buckets :=
  let '(internal, external) := validated_links doc max_links in
  fold_left (record_outcome base_url)
            (as_completed env
               (List.map (fun link => (link, probe env link))
                         (internal ++ external)))
            empty_buckets.

(** What a future leaves in the buckets. *)
Definition outcome_recorded (base_url : string) (f : future) (b : Buckets)
  : Prop :=
  match f.2 with
  | None => In (f.1, 0) (broken_bucket base_url f.1 b)
  | Some r =>
      (400 <= status_code r ->
       In (f.1, status_code r) (broken_bucket base_url f.1 b))
      /\ (300 <= status_code r < 400 ->
          In (f.1, status_code r) (all_redirects b))
  end.

(** One bucket list after the other, [b'] holds what [b] holds. *)
Definition buckets_le (b b' : Buckets) : Prop :=
  incl (all_broken_internal b) (all_broken_internal b')
  /\ incl (all_broken_external b) (all_broken_external b')
  /\ incl (all_redirects b) (all_redirects b').

(** [log] is an interleaving of the request sequences [tasks]: it holds
    the requests of all the tasks, and those of each task in the order
    the task sent them. *)
Definition interleaving (log : list request) (tasks : list (list request))
  : Prop :=
  Permutation log (concat tasks) /\ Forall (fun task => sublist task log) tasks.

(** [as_completed] yields every submitted future exactly once, in some
    order. *)
Definition completes_all (env : Env) : Prop :=
  forall fs, Permutation (as_completed env fs) fs.

(** ** Sample pages for link checking *)

Definition doc_with_anchors (l : list Anchor) : Document :=
  {| doc_title := None; doc_meta_description := None; doc_h1 := [];
     doc_images := []; doc_canonical := None; doc_viewport := false;
     doc_meta_robots := None; doc_html_lang := None;
     doc_meta_charset := None; doc_http_equiv := None;
     doc_alternates := []; doc_og := false; doc_twitter_card := false;
     doc_json_ld := []; doc_anchors := l |}.

(** An anchor in the main content. *)
Definition anchor_to (h label : string) : Anchor :=
  {| href := h; anchor_text := label; in_nav := false; in_main := true;
     in_article := false; in_header := false; in_footer := false |}.

(** A page with a relative link, a dead external link, a redirecting
    external link and a live absolute link to the page's own host. *)
Definition links_doc : Document :=
  doc_with_anchors
    [anchor_to "/contact" "Contact us";
     anchor_to "https://other.test/gone" "Gone page";
     anchor_to "https://other.test/moved" "Moved page";
     anchor_to "https://example.com/ok" "Fine page"].

(** The network around [links_doc]: a URL without scheme makes the
    request raise, [/gone] is answered 404, [/moved] 301, the rest 200. *)
Definition links_env : Env :=
  env_of (fun rq =>
            if String.eqb (req_url rq) "/contact"
            then inl "Invalid URL '/contact': No scheme supplied."
            else if String.eqb (req_url rq) "https://other.test/gone"
            then inr (plain_response 404 "Not Found")
            else if String.eqb (req_url rq) "https://other.test/moved"
            then inr (plain_response 301 "")
            else inr (plain_response 200 "ok")).

(** A page whose only link is a dead external one. *)
Definition gone_doc : Document :=
  doc_with_anchors [anchor_to "https://other.test/gone" "Gone page"].

(** ** The end-to-end scenario *)

(** The URL [seo_audit] audits for the input [url0], and its origin. *)
Definition audited_url (url0 : string) : string :=
  _ensure_url_scheme (Py.strip url0).

Definition origin (url0 : string) : string :=
  Urllib.scheme (Urllib.urlparse (audited_url url0)) +:+ "://"
  +:+ Urllib.netloc (Urllib.urlparse (audited_url url0)).

Definition well_known_request (url0 path : string) : request :=
  {| req_method := GET; req_url := Urllib.urljoin (origin url0) path;
     req_timeout := PROBE_TIMEOUT |}.

(** A successfully fetched page with no title, no meta description, two
    H1 tags, one image without alt text, served over https without an
    HSTS header, whose sitemap cannot be reached, and on which every other
    scored check passes.  The URL and the canonical link hold no square
    bracket. *)
Record Scenario (env : Env) (url0 : string) (max_links : Z)
    (page : Response) : Prop := {
  sc_url : no_brackets url0;
  sc_fetched : send env (page_request url0) = inr page;
  sc_status : status_code page < 400;
  (* what is wrong with the page *)
  sc_no_title : doc_title (soup page) = None;
  sc_no_description : doc_meta_description (soup page) = None;
  sc_two_h1 : exists a b, doc_h1 (soup page) = [a; b];
  sc_one_alt :
    List.length (List.filter alt_missing (doc_images (soup page))) = 1%nat;
  sc_https : Urllib.scheme (Urllib.urlparse (audited_url url0)) = "https";
  sc_no_hsts :
    lower_headers (headers page) !! "strict-transport-security" = None;
  sc_no_sitemap :
    exists exc, send env (well_known_request url0 "/sitemap.xml") = inl exc;
  (* what is right with it *)
  sc_canonical :
    exists c, doc_canonical (soup page) = Some c /\ c <> ""
              /\ no_brackets c
              /\ Urllib.netloc
                   (Urllib.urlparse (_absolute_url (audited_url url0) c))
                 = Urllib.netloc
                     (Urllib.urlparse (_absolute_url (audited_url url0) ""));
  sc_viewport : doc_viewport (soup page) = true;
  sc_indexable :
    forall c, doc_meta_robots (soup page) = Some c ->
              Py.contains (Py.lower c) "noindex" = false;
  sc_og : doc_og (soup page) = true;
  sc_twitter : doc_twitter_card (soup page) = true;
  sc_json_ld : Forall (fun ok => ok = true) (doc_json_ld (soup page));
  sc_fast : elapsed_ms env (page_request url0) <= 1500;
  sc_small :
    match lower_headers (headers page) !! "content-length" with
    | Some s => s = "" \/ exists n, Py.int_of_str s = Some n /\ n <= TWO_MIB
    | None => True
    end;
  sc_nosniff :
    lower_headers (headers page) !! "x-content-type-options" = Some "nosniff";
  sc_frame_options :
    is_Some (lower_headers (headers page) !! "x-frame-options");
  sc_referrer_policy :
    is_Some (lower_headers (headers page) !! "referrer-policy");
  sc_csp :
    is_Some (lower_headers (headers page) !! "content-security-policy");
  sc_robots :
    exists r, send env (well_known_request url0 "/robots.txt") = inr r
              /\ status_code r = 200;
  sc_links :
    forall u,
      In u ((validated_links (soup page) max_links).1
            ++ (validated_links (soup page) max_links).2) ->
      exists r, send env (head_request u) = inr r /\ status_code r < 400;
  sc_completes : completes_all env
}.

(** No H1 tag of the page is empty or blank. *)
Definition headings_not_blank (page : Response) : Prop :=
  Forall (fun h => Py.strip h <> "") (doc_h1 (soup page)).

(** A page of the scenario, with the texts [h1s] in its H1 tags. *)
Definition e2e_doc_with (h1s : list string) : Document :=
  {| doc_title := None; doc_meta_description := None;
     doc_h1 := h1s;
     doc_images :=
       [{| img_alt := None; img_src := Some "/hero.png" |};
        {| img_alt := Some "Logo"; img_src := Some "/logo.png" |}];
     doc_canonical := Some "https://example.com/";
     doc_viewport := true; doc_meta_robots := None;
     doc_html_lang := Some "en"; doc_meta_charset := Some "utf-8";
     doc_http_equiv := None; doc_alternates := [];
     doc_og := true; doc_twitter_card := true; doc_json_ld := [true];
     doc_anchors :=
       [anchor_to "https://example.com/about" "About us";
        anchor_to "https://partner.test/" "Our partner"] |}.

Definition e2e_doc : Document := e2e_doc_with ["Welcome"; "Latest news"].

Definition e2e_page_with (h1s : list string) : Response :=
  {| status_code := 200;
     headers :=
       [("Content-Type", "text/html"); ("Content-Length", "5120");
        ("X-Content-Type-Options", "nosniff"); ("X-Frame-Options", "DENY");
        ("Referrer-Policy", "strict-origin");
        ("Content-Security-Policy", "default-src 'self'")];
     text := "<html>...</html>";
     soup := e2e_doc_with h1s |}.

Definition e2e_page : Response := e2e_page_with ["Welcome"; "Latest news"].

(** The network around such a page: the page and its robots.txt are
    served, the sitemap times out, every HEAD request is answered 200. *)
Definition e2e_env_with (h1s : list string) : Env :=
  env_of (fun rq =>
            match req_method rq with
            | HEAD => inr (plain_response 200 "")
            | GET =>
                if String.eqb (req_url rq) "https://example.com"
                then inr (e2e_page_with h1s)
                else if String.eqb (req_url rq)
                                   "https://example.com/robots.txt"
                then inr (plain_response 200 "User-agent: *")
                else inl "Read timed out."
            end).

Definition e2e_env : Env := e2e_env_with ["Welcome"; "Latest news"].

(** ** Sample titles *)

(** A title of [n] characters. *)
Definition title_of_length (n : nat) : string := Py.str (repeat "a"%char n).

Definition doc_titled (t : string) : Document :=
  {| doc_title := Some t; doc_meta_description := None; doc_h1 := [];
     doc_images := []; doc_canonical := None; doc_viewport := false;
     doc_meta_robots := None; doc_html_lang := None;
     doc_meta_charset := None; doc_http_equiv := None;
     doc_alternates := []; doc_og := false; doc_twitter_card := false;
     doc_json_ld := []; doc_anchors := [] |}.

(** [m] returns [a] and appends [recs] to the recommendation list,
    whatever the world it is run in, and does nothing else. *)
Definition appends {A} (m : M A) (a : A) (recs : list string) : Prop :=
  forall w, m w = (Ok a, add_recommendations w recs).

(** ** Invariants and postconditions of computations *)

(** [m] keeps [P] true of the world, whether it returns or raises. *)
Definition maintains (P : world -> Prop) {A} (m : M A) : Prop :=
  forall w, P w -> P (m w).2.

(** [P] does not look at the recommendation list. *)
Definition ignores_recommendations (P : world -> Prop) : Prop :=
  forall w recs,
    P w -> P {| recommendations := recs; requests := requests w;
                pools := pools w |}.

(** [P] does not look at the request log. *)
Definition ignores_requests (P : world -> Prop) : Prop :=
  forall w reqs,
    P w -> P {| recommendations := recommendations w; requests := reqs;
                pools := pools w |}.

(** [P] survives the creation of a pool of [n] workers. *)
Definition allows_pool (P : world -> Prop) (n : Z) : Prop :=
  forall w,
    P w -> P {| recommendations := recommendations w; requests := requests w;
                pools := pools w ++ [n] |}.

(** Whenever [m] returns, its result satisfies [Q]. *)
Definition ensures {A} (Q : A -> Prop) (m : M A) : Prop :=
  forall w a w', m w = (Ok a, w') -> Q a.

(** A returned report is a failure report with score 0, or a full report
    carrying the score the scorer gives it. *)
Definition well_scored (r : Report) : Prop :=
  (is_failure r = true /\
   exists reason, score r = Some {| overall := 0; deductions := [reason] |})
  \/ (is_full r = true /\
      exists sc, score r = Some sc /\ _score r = Ok sc).

(** Every pool created so far has exactly [n] workers. *)
Definition pools_sized (n : Z) (w : world) : Prop :=
  Forall (fun k => k = n) (pools w).

(** ** Vocabulary of the further properties *)

From Stdlib Require Import Sorted.

(** The alt text of an image is absent or blank. *)
Definition no_alt_text (img : Img) : Prop :=
  img_alt img = None \/ exists alt, img_alt img = Some alt /\ Py.strip alt = "".

(** A heading with some text besides white space. *)
Definition not_blank (s : string) : bool := Py.truthy (Py.strip s).

(** Sample documents for the on-page checks. *)
Definition doc_described (d : string) : Document :=
  {| doc_title := None; doc_meta_description := Some d; doc_h1 := [];
     doc_images := []; doc_canonical := None; doc_viewport := false;
     doc_meta_robots := None; doc_html_lang := None;
     doc_meta_charset := None; doc_http_equiv := None;
     doc_alternates := []; doc_og := false; doc_twitter_card := false;
     doc_json_ld := []; doc_anchors := [] |}.

Definition doc_with_robots (c : string) : Document :=
  {| doc_title := None; doc_meta_description := None; doc_h1 := [];
     doc_images := []; doc_canonical := None; doc_viewport := false;
     doc_meta_robots := Some c; doc_html_lang := None;
     doc_meta_charset := None; doc_http_equiv := None;
     doc_alternates := []; doc_og := false; doc_twitter_card := false;
     doc_json_ld := []; doc_anchors := [] |}.

(** The attribute [o] is present and not empty. *)
Definition present (o : option string) : Prop :=
  exists s, o = Some s /\ s <> "".

(** The number of scripts that parse ([true]) or do not ([false]). *)
Definition count_scripts (ok : bool) (scripts : list bool) : nat :=
  List.length (List.filter (Bool.eqb ok) scripts).

(** A list of scored links in descending order of score. *)
Definition sorted_by_score (l : list (string * Z)) : Prop :=
  StronglySorted (fun x y : string * Z => y.2 <= x.2) l.

(** The entries of [l] with score [k], in their order. *)
Definition with_score (k : Z) (l : list (string * Z)) : list (string * Z) :=
  List.filter (fun x : string * Z => x.2 =? k) l.

(** The number of entries in the three outcome lists together. *)
Definition outcomes (b : Buckets) : nat :=
  (List.length (all_broken_internal b) + List.length (all_broken_external b)
   + List.length (all_redirects b))%nat.

(** Every entry of the outcome lists is a link of [batch]; a broken entry
    has status 0 or an error status and sits in the list of its
    classification against [base_url]; a redirect entry has a status
    from 300 to 399. *)
Definition outcomes_sound (base_url : string) (batch : list string)
    (b : Buckets) : Prop :=
  Forall (fun e : string * Z =>
            In e.1 batch /\ _is_internal base_url e.1 = true
            /\ (e.2 = 0 \/ 400 <= e.2)) (all_broken_internal b)
  /\ Forall (fun e : string * Z =>
               In e.1 batch /\ _is_internal base_url e.1 = false
               /\ (e.2 = 0 \/ 400 <= e.2)) (all_broken_external b)
  /\ Forall (fun e : string * Z =>
               In e.1 batch /\ 300 <= e.2 < 400) (all_redirects b).

(** [m] raises, whatever the world it is run in. *)
Definition raises {A} (m : M A) : Prop :=
  forall w, exists e w', m w = (Raise e, w').

(** [m] returns, whatever the world it is run in, and only appends
    recommendations. *)
Definition only_recommends {A} (m : M A) : Prop :=
  exists a recs, appends m a recs.

(** A page served with a Content-Length header that is not a number. *)
Definition bad_length_page : Response :=
  {| status_code := 200; headers := [("Content-Length", "unknown")];
     text := ""; soup := blank_doc |}.

Definition bad_length_env : Env := env_of (fun _ => inr bad_length_page).

(** Some header of [hs] is named [name], in any case. *)
Definition has_header (hs : list (string * string)) (name : string) : Prop :=
  exists k v, In (k, v) hs /\ Py.lower k = name.

(** The GET request the robots and sitemap probes send for [u]. *)
Definition probe_get (u : string) : request :=
  {| req_method := GET; req_url := u; req_timeout := 3 |}.

(** [env] answers the probe for [u] with status 200. *)
Definition answers_200 (env : Env) (u : string) : Prop :=
  exists r, send env (probe_get u) = inr r /\ status_code r = 200.

(** The recommendation for a file that is not ["Present"]. *)
Definition missing_file (state recommendation : string) : list string :=
  if String.eqb state "Present" then [] else [recommendation].

(** The points of a deduction line [-<points>: <reason>]. *)
Definition deduction_points (d : string) : Z :=
  match Py.chars d with
  | "-"%char :: rest =>
      match Py.split_once ":" rest with
      | Some (points, _) => default 0 (Py.int_of_str (Py.str points))
      | None => 0
      end
  | _ => 0
  end.

Definition total_points (ds : list string) : Z :=
  fold_right Z.add 0 (List.map deduction_points ds).

(** The score and the deduction lines agree, and every line takes at
    least one point. *)
Definition explained (st : Z * list string) : Prop :=
  st.1 = 100 - total_points st.2
  /\ Forall (fun d => 1 <= deduction_points d) st.2.

(** The origin [scheme://netloc] of the audited URL, under which
    robots.txt and the sitemap are looked for. *)
Definition site_base (url0 : string) : string :=
  let u := _ensure_url_scheme (Py.strip url0) in
  Urllib.scheme (Urllib.urlparse u) +:+ "://"
  +:+ Urllib.netloc (Urllib.urlparse u).

Definition site_probes (url0 : string) : list request :=
  [probe_get (Urllib.urljoin (site_base url0) "/robots.txt");
   probe_get (Urllib.urljoin (site_base url0) "/sitemap.xml")].

(** The tasks of link validation on [page]: the requests of each
    validated link, in submission order of the links. *)
Definition link_tasks (env : Env) (page : Response) (max_links : Z)
  : list (list request) :=
  List.map (probe_requests env)
    ((validated_links (soup page) max_links).1
     ++ (validated_links (soup page) max_links).2).

(** The requests of link validation on [page], as the pool sends them. *)
Definition link_probes (env : Env) (page : Response) (max_links : Z)
  : list request :=
  schedule env (link_tasks env page max_links).

(** How a run of the audit ends: after the page fetch alone, with a
    failure report or an exception; or, on a page answered with a status
    below 400, after the two site probes with an exception when no pool
    can be created, and after link validation with a full report. *)
Definition audit_outcome (env : Env) (url0 : string) (max_links workers : Z)
    (w : world) (out : result Report * world) : Prop :=
  (requests out.2 = requests w ++ [page_request url0]
   /\ pools out.2 = pools w
   /\ forall r, out.1 = Ok r -> is_failure r = true)
  \/ exists page,
       send env (page_request url0) = inr page /\ status_code page < 400
       /\ ((workers <= 0
            /\ requests out.2
               = requests w ++ page_request url0 :: site_probes url0
            /\ pools out.2 = pools w
            /\ exists e, out.1 = Raise e)
           \/ (0 < workers
               /\ requests out.2
                  = requests w ++ page_request url0 :: site_probes url0
                    ++ link_probes env page max_links
               /\ pools out.2 = pools w ++ [workers]
               /\ exists r lnk,
                    out.1 = Ok r /\ is_full r = true
                    /\ workers_used r = Some workers
                    /\ links r = Some lnk
                    /\ internal_count lnk
                       = Z.of_nat
                           (List.length
                              (validated_links (soup page) max_links).1)
                    /\ external_count lnk
                       = Z.of_nat
                           (List.length
                              (validated_links (soup page) max_links).2))).

(** ** Presentation: the summary and HTML escaping *)

(** A Python string as the list of its code points, for text that does
    not stay below code point 256. *)
Definition code_points (s : string) : list N :=
  List.map Py.code (Py.chars s).

(** The suffix literal of [_truncate] as the source file holds it: the
    three code points U+00E2, U+20AC and U+00A6. *)
Definition TRUNCATION_SUFFIX : list N := [226; 8364; 166]%N.

Definition _truncate (text : option (list N)) (max_len : Z)
  : option (list N) :=
  match text with
  | None => None
  | Some text_str =>
      Some (if Z.of_nat (List.length text_str) <=? max_len then text_str
            else Py.slice_to (max_len - 1) text_str ++ TRUNCATION_SUFFIX)
  end.

(** [section.get(key, default)] on a section that is [{}] or filled in. *)
Definition get {A B} (section : option A) (field : A -> B) (default : B)
  : B :=
  match section with
  | Some s => field s
  | None => default
  end.

Definition tech_get_status_code (t : Technical) : option Z :=
  match t with
  | TechHttpError status _ => Some status
  | TechFull tech => Some (tech_status_code tech)
  | TechEmpty | TechError _ => None
  end.

Definition tech_get_response_time_ms (t : Technical) : option Z :=
  match t with
  | TechHttpError _ ms => Some ms
  | TechFull tech => Some (response_time_ms tech)
  | TechEmpty | TechError _ => None
  end.

Definition tech_get_content_length (t : Technical) : option Z :=
  match t with
  | TechFull tech => Some (content_length tech)
  | _ => None
  end.

Definition len_of {A} (l : list A) : Z := Z.of_nat (List.length l).

Record Summary := {
  sum_url : string;
  sum_score : option Z;
  sum_code : option Z;
  sum_response_time_ms : option Z;
  sum_size_bytes : option Z;
  sum_title : option (list N);
  sum_meta_description_len : Z;
  sum_h1_count : Z;
  sum_images_missing_alt : Z;
  sum_canonical_present : bool;
  sum_viewport : bool;
  sum_noindex : bool;
  sum_nofollow : bool;
  sum_internal_checked : Z;
  sum_external_checked : Z;
  sum_broken_internal : Z;
  sum_broken_external : Z;
  sum_redirects : Z;
  sum_open_graph : bool;
  sum_twitter_card : bool;
  sum_json_ld_blocks : Z;
  sum_json_ld_errors : Z;
  sum_robots_txt : option string;
  sum_sitemap : option string;
  top_recommendations : list string
}.

Definition _build_summary (report : Report) : Summary :=
  let lnk := links report in
  let onp := on_page report in
  let tech := technical report in
  let social := social_structured report in
  let rs := robots_sitemap report in
  let recs := report_recommendations report in
  {| sum_url := url report;
     sum_score := overall <$> score report;
     sum_code := tech_get_status_code tech;
     sum_response_time_ms := tech_get_response_time_ms tech;
     sum_size_bytes := tech_get_content_length tech;
     sum_title := _truncate (code_points <$> get onp title None) 70;
     sum_meta_description_len :=
       (if Py.truthy_opt (get onp meta_description None)
        then Py.len (default "" (get onp meta_description (Some "")))
        else 0);
     sum_h1_count := len_of (get onp h1_tags []);
     sum_images_missing_alt := len_of (get onp images_missing_alt []);
     sum_canonical_present :=
       match get onp canonical None with Some _ => true | None => false end;
     sum_viewport := get onp has_viewport_meta false;
     sum_noindex := get onp (fun o => noindex (meta_robots o)) false;
     sum_nofollow := get onp (fun o => nofollow (meta_robots o)) false;
     sum_internal_checked := get lnk internal_count 0;
     sum_external_checked := get lnk external_count 0;
     sum_broken_internal := len_of (get lnk broken_internal []);
     sum_broken_external := len_of (get lnk broken_external []);
     sum_redirects := len_of (get lnk redirects []);
     sum_open_graph := get social open_graph false;
     sum_twitter_card := get social twitter_card false;
     sum_json_ld_blocks := get social json_ld_blocks 0;
     sum_json_ld_errors := get social json_ld_errors 0;
     sum_robots_txt := get rs (fun s => Some (robots_txt s)) None;
     sum_sitemap := get rs (fun s => Some (sitemap s)) None;
     top_recommendations := Py.slice_to 5 recs |}.

(** [l] begins with [p]. *)
Fixpoint begins_with (p l : list ascii) : bool :=
  match p, l with
  | [], _ => true
  | a :: p', b :: l' => Ascii.eqb a b && begins_with p' l'
  | _ :: _, [] => false
  end.

(** [s.replace(old, new)] for a non-empty [old]: occurrences are found
    from the left and do not overlap.  [skip] counts the characters of
    the occurrence just replaced that are still to be dropped. *)
Fixpoint replace_from (old new : list ascii) (skip : nat) (l : list ascii)
  : list ascii :=
  match l with
  | [] => []
  | c :: l' =>
      match skip with
      | S k => replace_from old new k l'
      | O =>
          if begins_with old (c :: l')
          then new ++ replace_from old new (List.length old - 1) l'
          else c :: replace_from old new 0 l'
      end
  end.

Definition replace (s old new : string) : string :=
  Py.str (replace_from (Py.chars old) (Py.chars new) 0 (Py.chars s)).

(** [esc] of [_render_html], applied to a string. *)
Definition esc (s : string) : string :=
  replace (replace (replace s "<&" "") "<" "&lt;") ">" "&gt;".

(** The character [c] occurs in [s]. *)
Definition occurs (c : ascii) (s : string) : Prop := In c (Py.chars s).

(** The links section holds at most ten entries in each outcome list. *)
Definition lists_cut (lnk : Links) : Prop :=
  (List.length (broken_internal lnk) <= 10)%nat
  /\ (List.length (broken_external lnk) <= 10)%nat
  /\ (List.length (redirects lnk) <= 10)%nat.

(** A report whose links section, when filled in, has its lists cut. *)
Definition links_cut (r : Report) : Prop :=
  forall lnk, links r = Some lnk -> lists_cut lnk.

(** A document whose only content is a canonical link to [c]. *)
Definition doc_canonical_to (c : string) : Document :=
  {| doc_title := None; doc_meta_description := None; doc_h1 := [];
     doc_images := []; doc_canonical := Some c; doc_viewport := false;
     doc_meta_robots := None; doc_html_lang := None;
     doc_meta_charset := None; doc_http_equiv := None;
     doc_alternates := []; doc_og := false; doc_twitter_card := false;
     doc_json_ld := []; doc_anchors := [] |}.

(** A document whose only content is the alternate links [l]. *)
Definition doc_with_alternates (l : list (option string * option string))
  : Document :=
  {| doc_title := None; doc_meta_description := None; doc_h1 := [];
     doc_images := []; doc_canonical := None; doc_viewport := false;
     doc_meta_robots := None; doc_html_lang := None;
     doc_meta_charset := None; doc_http_equiv := None;
     doc_alternates := l; doc_og := false; doc_twitter_card := false;
     doc_json_ld := []; doc_anchors := [] |}.

(** * Properties *)

(** ** Stepping through the monad *)

Lemma bind_ok {A B} (m : M A) (f : A -> M B) w a w' :
  m w = (Ok a, w') -> (m ≫= f) w = f a w'.
Proof. intros H. unfold mbind, M_bind. now rewrite H. Qed.

Lemma bind_inv {A B} (m : M A) (f : A -> M B) w b w' :
  (m ≫= f) w = (Ok b, w') ->
  exists a w1, m w = (Ok a, w1) /\ f a w1 = (Ok b, w').
Proof.
  unfold mbind, M_bind. destruct (m w) as [[a|e] w1]; intros H.
  - now exists a, w1.
  - discriminate.
Qed.

(** ** The scorer *)

Lemma deduct_if_fst c points reason st :
  (deduct_if c points reason st).1 = st.1 - (if c then points else 0).
Proof. destruct c; simpl; lia. Qed.

(** Every guard of the scorer subtracts between 0 and its table entry. *)
Ltac bound_guards :=
  repeat match goal with
         | |- context [if ?c then ?p else 0] =>
             let H := fresh "Hguard" in
             assert (H : 0 <= (if c then p else 0) <= p)
               by (destruct c; lia);
             generalize dependent (if c then p else 0); intros
         end.

Lemma apply_deductions_range page_url onp social lnk tech rs :
  100 - 63 <= (apply_deductions page_url onp social lnk tech rs).1 <= 100.
Proof.
  unfold apply_deductions.
  rewrite !deduct_if_fst.
  change ((100, @nil string).1) with 100.
  bound_guards. lia.
Qed.

(** What [_score] returns, section by section. *)
Lemma _score_inv report sc :
  _score report = Ok sc ->
  exists onp social lnk tech rs,
    on_page report = Some onp /\ social_structured report = Some social /\
    links report = Some lnk /\ technical report = TechFull tech /\
    robots_sitemap report = Some rs /\
    sc = {| overall :=
              Z.max (apply_deductions (url report) onp social lnk tech rs).1 0;
            deductions :=
              (apply_deductions (url report) onp social lnk tech rs).2 |}.
Proof.
  unfold _score, section, tech_section.
  destruct (on_page report) as [onp|]; [|discriminate].
  destruct (social_structured report) as [social|]; [|discriminate].
  destruct (links report) as [lnk|]; [|discriminate].
  destruct (technical report) as [| |? ?|tech]; try discriminate.
  destruct (robots_sitemap report) as [rs|]; [|discriminate].
  simpl. intros [= <-]. now exists onp, social, lnk, tech, rs.
Qed.

(** The scorer returns on every full report. *)
Lemma _score_total report :
  is_full report = true -> exists sc, _score report = Ok sc.
Proof.
  unfold is_full, _score, section, tech_section.
  destruct (on_page report); [|discriminate].
  destruct (social_structured report); [|discriminate].
  destruct (links report); [|discriminate].
  destruct (technical report); try discriminate.
  destruct (robots_sitemap report); [|discriminate].
  intros _. simpl. eauto.
Qed.

(** C3: the scorer returns a score on every full report, it returns one
    on no other report, and every score it returns lies between 0 and
    100, whichever guards fire. *)
Theorem score_in_range report :
  (is_full report = true -> exists sc, _score report = Ok sc)
  /\ (forall sc,
        _score report = Ok sc ->
        is_full report = true /\ 0 <= overall sc <= 100).
Proof.
  split; [apply _score_total|].
  intros sc H. apply _score_inv in H.
  destruct H as (onp & social & lnk & tech & rs
                 & Hon & Hso & Hli & Hte & Hrs & ->).
  split.
  - unfold is_full. rewrite Hon, Hso, Hli, Hte, Hrs. reflexivity.
  - pose proof (apply_deductions_range (url report) onp social lnk tech rs).
    simpl. lia.
Qed.

Lemma score_in_range_witness :
  is_full worst_report = true
  /\ _score worst_report
     = Ok {| overall := 37;
             deductions :=
               ["-5: Title issues"; "-5: Meta description issues";
                "-5: H1 count issues"; "-3: Many images missing alt";
                "-2: Canonical issues"; "-2: Missing viewport";
                "-10: noindex set"; "-2: Missing Open Graph";
                "-1: Missing Twitter Card"; "-2: Invalid JSON-LD";
                "-5: Broken internal links";
                "-2: Multiple broken external links"; "-5: Slow TTFB";
                "-4: Large page size"; "-2: Missing HSTS";
                "-1: Missing X-Content-Type-Options";
                "-1: Missing X-Frame-Options"; "-1: Missing Referrer-Policy";
                "-1: Missing CSP"; "-2: Missing robots.txt";
                "-2: Missing sitemap.xml"] |}
  /\ 0 <= 37 <= 100.
Proof.
  split; [reflexivity|]. split; [reflexivity|].
  exact (proj2 (proj2 (score_in_range worst_report) _ eq_refl)).
Defined.

(** ** Invariants of the world along a computation *)

Section Maintains.
Context (P : world -> Prop).

Lemma maintains_ret {A} (a : A) : maintains P (mret a).
Proof. now intros w Hw. Qed.

Lemma maintains_raise {A} e : maintains P (@raise A e).
Proof. now intros w Hw. Qed.

Lemma maintains_lift {A} (r : result A) : maintains P (lift r).
Proof. now intros w Hw. Qed.

Lemma maintains_get_recommendations : maintains P get_recommendations.
Proof. now intros w Hw. Qed.

Lemma maintains_bind {A B} (m : M A) (f : A -> M B) :
  maintains P m -> (forall a, maintains P (f a)) -> maintains P (m ≫= f).
Proof.
  intros Hm Hf w Hw. specialize (Hm w Hw).
  unfold mbind, M_bind. destruct (m w) as [[a|e] w1]; simpl in *.
  - now apply Hf.
  - exact Hm.
Qed.

Lemma maintains_recommend s :
  ignores_recommendations P -> maintains P (recommend s).
Proof. intros HP w Hw. apply HP, Hw. Qed.

Lemma maintains_when c (body : M unit) :
  maintains P body -> maintains P (when c body).
Proof. destruct c; [trivial | intros _; apply maintains_ret]. Qed.
End Maintains.

(** Walks through a computation made of binds, case analyses and the
    primitives above; [tac] closes the goals about other primitives. *)
Ltac maintain_with tac :=
  repeat first
    [ progress tac
    | apply maintains_ret
    | apply maintains_raise
    | apply maintains_lift
    | apply maintains_get_recommendations
    | apply maintains_recommend; assumption
    | apply maintains_when
    | apply maintains_bind; [| intros ?]
    | match goal with
      | |- maintains _ (match ?x with _ => _ end) => destruct x
      end ].

Ltac maintain := maintain_with idtac.

Section Checks_maintain.
Context (P : world -> Prop) (HP : ignores_recommendations P).

Lemma maintains_flag c issue rec issues :
  maintains P (flag c issue rec issues).
Proof. unfold flag. maintain. Qed.

Lemma maintains_check_title doc : maintains P (_check_title doc).
Proof. unfold _check_title. maintain_with ltac:(apply maintains_flag). Qed.

Lemma maintains_check_meta_description doc :
  maintains P (_check_meta_description doc).
Proof.
  unfold _check_meta_description.
  maintain_with ltac:(apply maintains_flag).
Qed.

Lemma maintains_check_h1 doc : maintains P (_check_h1 doc).
Proof. unfold _check_h1. maintain. Qed.

Lemma maintains_check_images doc : maintains P (_check_images doc).
Proof. unfold _check_images. maintain. Qed.

Lemma maintains_check_canonical base doc :
  maintains P (_check_canonical base doc).
Proof. unfold _check_canonical. maintain. Qed.

Lemma maintains_check_viewport doc : maintains P (_check_viewport doc).
Proof. unfold _check_viewport. maintain. Qed.

Lemma maintains_check_meta_robots doc : maintains P (_check_meta_robots doc).
Proof. unfold _check_meta_robots. maintain. Qed.

Lemma maintains_check_lang_and_charset doc :
  maintains P (_check_lang_and_charset doc).
Proof. unfold _check_lang_and_charset. maintain. Qed.

Lemma maintains_check_hreflang base doc :
  maintains P (_check_hreflang base doc).
Proof. unfold _check_hreflang. maintain. Qed.

Lemma maintains_json_ld_loop scripts blocks errors :
  maintains P (json_ld_loop scripts blocks errors).
Proof.
  revert blocks errors.
  induction scripts as [|[] rest IH]; intros blocks errors; simpl.
  - apply maintains_ret.
  - apply IH.
  - maintain. apply IH.
Qed.

Lemma maintains_check_social doc :
  maintains P (_check_social_and_structured doc).
Proof.
  unfold _check_social_and_structured.
  maintain_with ltac:(apply maintains_json_ld_loop).
Qed.

Lemma maintains_check_technical_headers u response elapsed :
  maintains P (_check_technical_headers u response elapsed).
Proof. unfold _check_technical_headers. maintain. Qed.
End Checks_maintain.

Section Network_maintains.
Context (P : world -> Prop) (env : Env).
Context (HP : ignores_recommendations P) (HQ : ignores_requests P).

Lemma maintains_log_request rq : maintains P (log_request rq).
Proof. intros w Hw. apply HQ, Hw. Qed.

Lemma maintains_fetch u timeout : maintains P (_fetch env u timeout).
Proof.
  unfold _fetch. maintain_with ltac:(apply maintains_log_request).
Qed.

Lemma maintains_check_robots_and_sitemap base :
  maintains P (_check_robots_and_sitemap env base).
Proof.
  unfold _check_robots_and_sitemap.
  maintain_with ltac:(apply maintains_fetch).
Qed.

Lemma maintains_head_or_get u : maintains P (head_or_get env u).
Proof.
  unfold head_or_get. maintain_with ltac:(apply maintains_log_request).
Qed.

Lemma maintains_submit_all links_to_check :
  maintains P (submit_all env links_to_check).
Proof. intros w Hw. apply HQ, Hw. Qed.

Context (workers : Z) (HW : allows_pool P workers).

Lemma maintains_log_pool : maintains P (log_pool workers).
Proof. intros w Hw. apply HW, Hw. Qed.

Lemma maintains_validate_links base links_to_check :
  maintains P (validate_links env base workers links_to_check).
Proof.
  unfold validate_links.
  maintain_with
    ltac:(first [apply maintains_log_pool | apply maintains_submit_all]).
Qed.

Lemma maintains_check_links base doc max_links :
  maintains P (_check_links env base doc max_links workers).
Proof.
  unfold _check_links.
  maintain_with ltac:(apply maintains_validate_links).
Qed.

Lemma maintains_seo_audit url0 max_links :
  maintains P (seo_audit env url0 max_links workers).
Proof.
  unfold seo_audit.
  maintain_with
    ltac:(first
            [ apply maintains_fetch
            | apply maintains_check_title
            | apply maintains_check_meta_description
            | apply maintains_check_h1
            | apply maintains_check_images
            | apply maintains_check_canonical
            | apply maintains_check_viewport
            | apply maintains_check_meta_robots
            | apply maintains_check_lang_and_charset
            | apply maintains_check_hreflang
            | apply maintains_check_social
            | apply maintains_check_technical_headers
            | apply maintains_check_robots_and_sitemap
            | apply maintains_check_links ]; try assumption).
Qed.
End Network_maintains.

(** ** What a computation ensures of its result *)

Lemma ensures_bind {A B} (Q : B -> Prop) (m : M A) (f : A -> M B) :
  (forall a, ensures Q (f a)) -> ensures Q (m ≫= f).
Proof.
  intros Hf w b w' H. apply bind_inv in H as (a & w1 & _ & H).
  exact (Hf a w1 b w' H).
Qed.

Lemma ensures_bind_lift {A B} (Q : B -> Prop) (r : result A)
    (f : A -> M B) :
  (forall a, r = Ok a -> ensures Q (f a)) -> ensures Q (lift r ≫= f).
Proof.
  intros Hf w b w' H. apply bind_inv in H as (a & w1 & Hr & H).
  injection Hr as Hr _. exact (Hf a Hr w1 b w' H).
Qed.

Lemma ensures_ret {A} (Q : A -> Prop) (a : A) : Q a -> ensures Q (mret a).
Proof. intros Ha w b w' [= <- _]. exact Ha. Qed.

Lemma seo_audit_well_scored env url0 max_links workers :
  ensures well_scored (seo_audit env url0 max_links workers).
Proof.
  unfold seo_audit.
  apply ensures_bind; intros [[response err] elapsed].
  destruct response as [response|].
  - destruct (negb (response_ok response)).
    + do 2 (apply ensures_bind; intros ?). apply ensures_ret.
      left. split; [reflexivity | eauto].
    + destruct (400 <=? status_code response).
      * do 2 (apply ensures_bind; intros ?). apply ensures_ret.
        left. split; [reflexivity | eauto].
      * repeat match goal with
               | |- ensures _ (match ?x with _ => _ end) => destruct x
               | |- ensures _ (lift _ ≫= _) =>
                   apply ensures_bind_lift; intros sc Hsc
               | |- ensures _ (_ ≫= _) => apply ensures_bind; intros ?
               end.
        apply ensures_ret. right. split; [reflexivity|].
        exists sc. split; [reflexivity | exact Hsc].
  - do 2 (apply ensures_bind; intros ?). apply ensures_ret.
    left. split; [reflexivity | eauto].
Qed.

(** On a report the scorer accepts, the clamp at 0 is the identity: the
    overall score is the unclamped value, and it is at least 100 - 63. *)
Lemma _score_unclamped report sc :
  _score report = Ok sc ->
  37 <= overall sc /\
  exists onp social lnk tech rs,
    on_page report = Some onp /\ social_structured report = Some social /\
    links report = Some lnk /\ technical report = TechFull tech /\
    robots_sitemap report = Some rs /\
    overall sc = (apply_deductions (url report) onp social lnk tech rs).1.
Proof.
  intros H. apply _score_inv in H.
  destruct H as (onp & social & lnk & tech & rs & H1 & H2 & H3 & H4 & H5 & ->).
  pose proof (apply_deductions_range (url report) onp social lnk tech rs).
  simpl. split; [lia|].
  exists onp, social, lnk, tech, rs. repeat split; trivial. lia.
Qed.

(** C10: the deductions of the scorer add up to at most 63 (and to
    exactly 63 on some report), so a score the scorer returns is at least
    37 and equals the unclamped value; a report returned by the audit with
    score 0 is a failure report. *)
Theorem full_report_score_at_least_37 :
  (forall page_url onp social lnk tech rs,
     100 - (apply_deductions page_url onp social lnk tech rs).1 <= 63)
  /\ (exists sc, _score worst_report = Ok sc /\ 100 - overall sc = 63)
  /\ (forall report sc,
        _score report = Ok sc ->
        37 <= overall sc /\
        exists onp social lnk tech rs,
          on_page report = Some onp /\
          social_structured report = Some social /\
          links report = Some lnk /\ technical report = TechFull tech /\
          robots_sitemap report = Some rs /\
          overall sc
          = (apply_deductions (url report) onp social lnk tech rs).1)
  /\ (forall env url0 max_links workers w r w' sc,
        seo_audit env url0 max_links workers w = (Ok r, w') ->
        score r = Some sc ->
        (is_full r = true -> 37 <= overall sc) /\
        (overall sc = 0 -> is_failure r = true)).
Proof.
  split; [|split; [|split]].
  - intros. pose proof (apply_deductions_range page_url onp social lnk tech rs).
    lia.
  - eexists. split; reflexivity.
  - exact _score_unclamped.
  - intros env url0 max_links workers w r w' sc Hrun Hsc.
    destruct (seo_audit_well_scored _ _ _ _ _ _ _ Hrun)
      as [[Hfail _] | [Hfull (sc' & Hsc' & Hscore)]].
    + split; [|trivial].
      intros Hfull. unfold is_full, is_failure in *.
      destruct (on_page r); discriminate.
    + rewrite Hsc in Hsc'. injection Hsc' as <-.
      apply _score_unclamped in Hscore as [Hge _].
      split; [trivial | lia].
Qed.

Lemma full_report_score_at_least_37_witness :
  (exists r w sc,
     seo_audit not_found_env "example.com" 25 10 initial_world = (Ok r, w)
     /\ score r = Some sc /\ overall sc = 0 /\ is_failure r = true)
  /\ (exists sc, _score worst_report = Ok sc /\ 37 <= overall sc).
Proof.
  destruct full_report_score_at_least_37 as (_ & _ & Hscore & Hrun).
  split.
  - eexists _, _, _. split; [vm_compute; reflexivity|].
    split; [reflexivity|]. split; [reflexivity|].
    eapply (Hrun not_found_env "example.com" 25 10 initial_world).
    + vm_compute; reflexivity.
    + reflexivity.
    + reflexivity.
  - eexists. split; [reflexivity|].
    apply (Hscore worst_report). reflexivity.
Defined.

(** ** Failure reports *)

Lemma _fetch_run env u timeout w :
  let rq := {| req_method := GET; req_url := u; req_timeout := timeout |} in
  _fetch env u timeout w
  = (Ok (match send env rq with
         | inr response => (Some response, None, elapsed_ms env rq)
         | inl exc => (None, Some exc, elapsed_ms env rq)
         end),
     {| recommendations := recommendations w;
        requests := requests w ++ [rq]; pools := pools w |}).
Proof.
  unfold _fetch, log_request, mbind, M_bind. simpl.
  destruct (send env _); reflexivity.
Qed.

(** C2: an HTTP error is not reported as one.  A page answered with a
    status from 400 to 599 is a falsy response, so the audit takes the
    branch written for a fetch that raised, before its own test
    [status_code >= 400] is reached: the report says that the site is
    unreachable, its technical section is an error entry that holds
    nothing, and the status code is not recorded.  The branch that
    records the status code is reached only for a status of 600 or
    more.  (The URL is taken without square brackets.) *)
Theorem http_error_reported_as_unreachable
    env url0 max_links workers page :
  no_brackets url0 ->
  send env (page_request url0) = inr page ->
  400 <= status_code page ->
  exists r w,
    seo_audit env url0 max_links workers initial_world = (Ok r, w)
    /\ is_failure r = true
    /\ requests w = [page_request url0]
    /\ (status_code page < 600 ->
        technical r = TechError None
        /\ technical_keys (technical r) = ["error"]
        /\ report_recommendations r = ["Could not fetch website: None"]
        /\ score r = Some {| overall := 0;
                             deductions := ["Critical: site unreachable"] |})
    /\ (600 <= status_code page ->
        technical r
        = TechHttpError (status_code page)
                        (elapsed_ms env (page_request url0))
        /\ report_recommendations r
           = ["Website returned status code "
              +:+ Py.str_of_Z (status_code page)
              +:+ ". Check server health."]
        /\ score r = Some {| overall := 0;
                             deductions := ["Critical: HTTP error"] |}).
Proof.
  unfold page_request. intros _ Hpage Hstatus.
  unfold seo_audit.
  remember (_ensure_url_scheme (Py.strip url0)) as u eqn:Hu.
  rewrite (bind_ok _ _ _ _ _ (_fetch_run env u PAGE_TIMEOUT initial_world)).
  cbv zeta. rewrite Hpage. cbv beta iota.
  assert (Hhigh : (400 <=? status_code page) = true) by (apply Z.leb_le; lia).
  unfold response_ok. rewrite Hhigh. cbn [andb].
  destruct (status_code page <? 600) eqn:Hlow; cbn [negb].
  - apply Z.ltb_lt in Hlow.
    eexists _, _. split; [reflexivity|]. split; [reflexivity|].
    split; [reflexivity|]. split; [|intros H; lia].
    intros _. repeat split.
  - apply Z.ltb_ge in Hlow.
    eexists _, _. split; [reflexivity|]. split; [reflexivity|].
    split; [reflexivity|]. split; [intros H; lia|].
    intros _. repeat split.
Qed.

Lemma http_error_reported_as_unreachable_witness :
  (no_brackets "example.com"
   /\ send not_found_env (page_request "example.com")
      = inr (plain_response 404 "Not Found")
   /\ 400 <= 404 < 600)
  /\ exists r w',
       seo_audit not_found_env "example.com" 25 10 initial_world = (Ok r, w')
       /\ technical r = TechError None
       /\ report_recommendations r = ["Could not fetch website: None"]
       /\ score r = Some {| overall := 0;
                            deductions := ["Critical: site unreachable"] |}.
Proof.
  assert (Hb : no_brackets "example.com") by (vm_compute; reflexivity).
  assert (Hs : send not_found_env (page_request "example.com")
               = inr (plain_response 404 "Not Found")) by reflexivity.
  assert (H4 : 400 <= 404) by lia.
  assert (H6 : 404 < 600) by lia.
  split; [exact (conj Hb (conj Hs (conj H4 H6)))|].
  destruct (http_error_reported_as_unreachable not_found_env "example.com"
              25 10 (plain_response 404 "Not Found") Hb Hs H4)
    as (r & w' & Hrun & _ & _ & Hlow & _).
  destruct (Hlow H6) as (Htech & _ & Hrecs & Hscore).
  exists r, w'. exact (conj Hrun (conj Htech (conj Hrecs Hscore))).
Defined.

(** ** The worker pool *)

Lemma pools_sized_ignores_recommendations n :
  ignores_recommendations (pools_sized n).
Proof. now intros w recs Hw. Qed.

Lemma pools_sized_ignores_requests n : ignores_requests (pools_sized n).
Proof. now intros w reqs Hw. Qed.

Lemma pools_sized_allows n : allows_pool (pools_sized n) n.
Proof.
  intros w Hw. unfold pools_sized in *. simpl.
  apply Forall_app. split; [exact Hw | now constructor].
Qed.

(** The audit creates its pools with the worker count it is given. *)
Lemma seo_audit_pools env url0 max_links workers :
  pools_sized workers (seo_audit env url0 max_links workers initial_world).2.
Proof.
  apply maintains_seo_audit.
  - apply pools_sized_ignores_recommendations.
  - apply pools_sized_ignores_requests.
  - apply pools_sized_allows.
  - constructor.
Qed.

(** C7, as the code has it: the cap of 20 workers is applied by the
    callers of the audit, the command line and the two web handlers,
    before they invoke it; every pool of an audit started by them has at
    most 20 workers.  The audit itself creates its pool with the worker
    count it receives. *)
Theorem callers_cap_workers env target_url max_links workers fast :
  Forall (fun n => n <= 20)
         (pools (main_audit env target_url max_links workers fast
                            initial_world).2)
  /\ Forall (fun n => n <= 20)
            (pools (web_audit env target_url max_links workers fast
                              initial_world).2)
  /\ Forall (fun n => n = workers)
            (pools (seo_audit env target_url max_links workers
                              initial_world).2).
Proof.
  assert (Hcap : forall ml,
             Forall (fun n => n <= 20)
                    (pools (seo_audit env target_url ml
                                      (Z.min workers WORKER_CAP)
                                      initial_world).2)).
  { intros ml. eapply Forall_impl; [apply seo_audit_pools|].
    unfold WORKER_CAP. simpl. intros n ->. lia. }
  split; [|split].
  - unfold main_audit. apply Hcap.
  - unfold web_audit, mbind, M_bind.
    specialize (Hcap (if fast then 0 else max_links)).
    destruct (seo_audit _ _ _ _ _) as [[r|e] w]; exact Hcap.
  - apply seo_audit_pools.
Qed.

(** ** Link sampling *)

Lemma slice_to_length {A} n (l : list A) :
  0 <= n -> Z.of_nat (List.length (Py.slice_to n l)) <= n.
Proof.
  intros Hn. unfold Py.slice_to.
  destruct (0 <=? n) eqn:E; [|apply Z.leb_gt in E; lia].
  pose proof (firstn_le_length (Z.to_nat n) l). lia.
Qed.

Lemma unique_from_length seen xs :
  (List.length (unique_from seen xs) <= List.length xs)%nat.
Proof.
  revert seen. induction xs as [|x xs IH]; intros seen; simpl; [lia|].
  destruct (decide (x ∈ seen)); simpl.
  - specialize (IH seen). lia.
  - specialize (IH ({[x]} ∪ seen)). lia.
Qed.

Lemma unique_length xs : (List.length (unique xs) <= List.length xs)%nat.
Proof. apply unique_from_length. Qed.

(** Both sampled lists have at most [max_links] entries. *)
Lemma _smart_link_sampling_length doc max_links :
  0 <= max_links ->
  Z.of_nat (List.length (_smart_link_sampling doc max_links).1) <= max_links
  /\ Z.of_nat (List.length (_smart_link_sampling doc max_links).2)
     <= max_links.
Proof.
  intros Hn. unfold _smart_link_sampling.
  destruct (score_anchors (doc_anchors doc)) as [si se]. simpl.
  rewrite !length_map. split; now apply slice_to_length.
Qed.

(** ** The scheduler of the pool *)

Lemma concat_running (tasks : list (list request)) :
  concat (List.filter has_pending tasks) = concat tasks.
Proof.
  induction tasks as [|[|rq task] tasks IH]; cbn [List.filter has_pending concat].
  - reflexivity.
  - exact IH.
  - now rewrite IH.
Qed.

Lemma running_pending (tasks : list (list request)) i task :
  List.filter has_pending tasks !! i = Some task -> task <> [].
Proof.
  intros H Hnil. subst task.
  assert (Hin : In [] (List.filter has_pending tasks)).
  { apply list_elem_of_In, list_elem_of_lookup. now exists i. }
  apply filter_In in Hin as [_ Hin]. discriminate Hin.
Qed.

Lemma concat_insert_tail (tasks : list (list request)) i rq rest :
  tasks !! i = Some (rq :: rest) ->
  Permutation (concat tasks) (rq :: concat (<[i := rest]> tasks)).
Proof.
  intros H.
  rewrite insert_take_drop by (eapply lookup_lt_Some; exact H).
  rewrite <- (take_drop_middle tasks i (rq :: rest) H) at 1.
  rewrite !concat_app. cbn [concat].
  rewrite <- app_comm_cons. symmetry. apply Permutation_middle.
Qed.

Lemma nothing_pending (tasks : list (list request)) :
  List.filter has_pending tasks = [] -> Forall (fun task => task = []) tasks.
Proof.
  induction tasks as [|[|rq task] tasks IH]; cbn [List.filter has_pending].
  - constructor.
  - intros H. constructor; [reflexivity | now apply IH].
  - discriminate.
Qed.

(** What the scheduler does at one step: it is done, with no request
    pending, or some running task sends its next request. *)
Lemma interleave_step pick fuel (tasks : list (list request)) :
  let running := List.filter has_pending tasks in
  (interleave pick (S fuel) tasks = [] /\ running = [])
  \/ exists i rq rest,
       running !! i = Some (rq :: rest)
       /\ interleave pick (S fuel) tasks
          = rq :: interleave pick fuel (<[i := rest]> running).
Proof.
  cbn [interleave]. cbv zeta.
  set (running := List.filter has_pending tasks).
  set (i := (pick running mod List.length running)%nat).
  destruct (running !! i) as [[|rq rest]|] eqn:E.
  - now apply running_pending in E.
  - right. now exists i, rq, rest.
  - left. split; [reflexivity|].
    destruct running as [|task running']; [reflexivity|].
    apply lookup_ge_None in E.
    pose proof (Nat.mod_upper_bound (pick (task :: running'))
                  (List.length (task :: running'))) as Hlt.
    cbn [List.length] in *. unfold i in E. cbn [List.length] in E. lia.
Qed.

Lemma interleave_perm pick fuel (tasks : list (list request)) :
  (List.length (concat tasks) <= fuel)%nat ->
  Permutation (interleave pick fuel tasks) (concat tasks).
Proof.
  revert tasks. induction fuel as [|fuel IH]; intros tasks Hfuel.
  - destruct (concat tasks); [reflexivity | cbn [List.length] in Hfuel; lia].
  - rewrite <- (concat_running tasks) in *.
    destruct (interleave_step pick fuel tasks)
      as [[-> Hnone]|(i & rq & rest & Hi & ->)].
    + rewrite Hnone. reflexivity.
    + pose proof (concat_insert_tail _ _ _ _ Hi) as Hperm.
      rewrite Hperm. constructor. apply IH.
      apply Permutation_length in Hperm. cbn [List.length] in Hperm. lia.
Qed.

Lemma interleave_sublist pick fuel (tasks : list (list request)) :
  (List.length (concat tasks) <= fuel)%nat ->
  Forall (fun task => sublist task (interleave pick fuel tasks)) tasks.
Proof.
  revert tasks. induction fuel as [|fuel IH]; intros tasks Hfuel.
  - apply List.Forall_forall. intros task Hin.
    assert (task = []) as ->; [|apply sublist_nil_l].
    destruct task as [|rq task]; [reflexivity|].
    apply in_split in Hin as (l1 & l2 & ->).
    rewrite concat_app in Hfuel. cbn [concat] in Hfuel.
    rewrite !length_app in Hfuel. cbn [List.length] in Hfuel. lia.
  - rewrite <- (concat_running tasks) in Hfuel.
    destruct (interleave_step pick fuel tasks)
      as [[-> Hnone]|(i & rq & rest & Hi & ->)].
    + eapply List.Forall_impl; [|apply nothing_pending, Hnone].
      intros task ->. apply sublist_nil_l.
    + pose proof (concat_insert_tail _ _ _ _ Hi) as Hperm.
      apply Permutation_length in Hperm. cbn [List.length] in Hperm.
      assert (Hrest : Forall (fun task =>
                                sublist task
                                  (interleave pick fuel
                                     (<[i := rest]>
                                        (List.filter has_pending tasks))))
                             (<[i := rest]> (List.filter has_pending tasks)))
        by (apply IH; lia).
      rewrite Forall_lookup in Hrest.
      apply List.Forall_forall. intros task Hin.
      destruct task as [|rq' task']; [apply sublist_nil_l|].
      assert (Hrun : In (rq' :: task') (List.filter has_pending tasks))
        by (apply filter_In; split; [exact Hin | reflexivity]).
      apply list_elem_of_In, list_elem_of_lookup in Hrun as (j & Hj).
      destruct (decide (i = j)) as [<-|Hne].
      * rewrite Hi in Hj. injection Hj as <- <-.
        apply sublist_skip. apply (Hrest i).
        apply list_lookup_insert_eq. eapply lookup_lt_Some; exact Hi.
      * apply sublist_cons. apply (Hrest j).
        rewrite list_lookup_insert_ne by exact Hne. exact Hj.
Qed.

Lemma schedule_interleaving env tasks : interleaving (schedule env tasks) tasks.
Proof.
  split; [apply interleave_perm | apply interleave_sublist]; reflexivity.
Qed.

Lemma schedule_nil env : schedule env [] = [].
Proof. reflexivity. Qed.

(** ** Link validation *)

Lemma head_or_get_run env u w :
  head_or_get env u w = (Ok (probe env u), add_requests w (probe_requests env u)).
Proof.
  unfold probe, probe_requests, head_or_get, add_requests,
    log_request, mbind, M_bind, mret, M_ret.
  simpl.
  destruct (send env {| req_method := HEAD; req_url := u;
                        req_timeout := LINK_TIMEOUT |}) as [exc|r];
    [reflexivity|].
  destruct ((400 <=? status_code r)
            || ((status_code r =? 405) || (status_code r =? 501)));
    [|reflexivity].
  simpl.
  destruct (send env {| req_method := GET; req_url := u;
                        req_timeout := LINK_TIMEOUT |});
    rewrite <- ?app_assoc; reflexivity.
Qed.

Lemma add_requests_app w l1 l2 :
  add_requests (add_requests w l1) l2 = add_requests w (l1 ++ l2).
Proof. unfold add_requests. simpl. now rewrite app_assoc. Qed.

Lemma add_requests_nil w : add_requests w [] = w.
Proof. destruct w. unfold add_requests. simpl. now rewrite app_nil_r. Qed.

Lemma submit_all_run env links_to_check w :
  submit_all env links_to_check w
  = (Ok (List.map (fun link => (link, probe env link)) links_to_check),
     add_requests w
       (schedule env (List.map (probe_requests env) links_to_check))).
Proof. reflexivity. Qed.

Lemma validate_links_run env base workers links_to_check w :
  0 < workers ->
  validate_links env base workers links_to_check w
  = (Ok (fold_left (record_outcome base)
                   (as_completed env
                      (List.map (fun link => (link, probe env link))
                                links_to_check))
                   empty_buckets),
     add_requests (add_pool w workers)
                  (schedule env
                     (List.map (probe_requests env) links_to_check))).
Proof.
  intros Hw. unfold validate_links.
  destruct (workers <=? 0) eqn:E; [apply Z.leb_le in E; lia|].
  assert (Hpool : log_pool workers w = (Ok tt, add_pool w workers))
    by reflexivity.
  rewrite (bind_ok _ _ _ _ _ Hpool).
  now rewrite (bind_ok _ _ _ _ _ (submit_all_run env links_to_check _)).
Qed.

Lemma _check_links_run env base doc max_links workers w :
  0 < workers ->
  let internal := (validated_links doc max_links).1 in
  let external := (validated_links doc max_links).2 in
  let b := link_buckets env base doc max_links in
  _check_links env base doc max_links workers w
  = (Ok {| internal_count := Z.of_nat (List.length internal);
           external_count := Z.of_nat (List.length external);
           broken_internal := firstn 10 (all_broken_internal b);
           broken_external := firstn 10 (all_broken_external b);
           redirects := firstn 10 (all_redirects b) |},
     add_recommendations
       (add_requests (add_pool w workers)
          (schedule env
             (List.map (probe_requests env) (internal ++ external))))
       ((if nonempty (all_broken_internal b)
         then [count_of (all_broken_internal b)
               +:+ " internal links appear broken."]
         else [])
        ++ (if nonempty (all_redirects b)
            then [count_of (all_redirects b)
                  +:+ " links redirect; update to final URLs where possible."]
            else []))).
Proof.
  intros Hw. unfold _check_links, link_buckets, validated_links.
  destruct (_smart_link_sampling doc max_links) as [internal external].
  cbn [fst snd].
  rewrite (bind_ok _ _ _ _ _ (validate_links_run env base workers _ w Hw)).
  set (b := fold_left _ _ _).
  unfold when, recommend, add_recommendations, mbind, M_bind, mret, M_ret.
  destruct (nonempty (all_broken_internal b));
    destruct (nonempty (all_redirects b));
    simpl; rewrite ?app_nil_r, <- ?app_assoc; reflexivity.
Qed.






(** *** One probe *)

Lemma error_or_unsupported_spec r :
  ((400 <=? status_code r)
   || ((status_code r =? 405) || (status_code r =? 501))) = true
  <-> error_or_unsupported r.
Proof.
  unfold error_or_unsupported.
  rewrite !orb_true_iff, Z.leb_le, !Z.eqb_eq. tauto.
Qed.

(** The requests of one probe: HEAD, then GET exactly when the HEAD
    answer is an error or an unsupported-method status. *)
Lemma probe_requests_spec env u :
  exists retry,
    probe_requests env u = head_request u :: retry
    /\ (retry = [] \/ retry = [get_request u])
    /\ (retry = [get_request u]
        <-> exists r, send env (head_request u) = inr r
                      /\ error_or_unsupported r).
Proof.
  unfold probe_requests, head_or_get, log_request, mbind, M_bind, mret, M_ret.
  simpl. fold (head_request u). fold (get_request u).
  destruct (send env (head_request u)) as [exc|r] eqn:Hhead.
  - exists []. split; [reflexivity|]. split; [now left|].
    split; [discriminate | intros (r & [=] & _)].
  - destruct ((400 <=? status_code r) || _) eqn:Hretry.
    + apply error_or_unsupported_spec in Hretry.
      exists [get_request u]. simpl.
      split; [destruct (send env (get_request u)); reflexivity|].
      split; [now right|]. split; [eauto | reflexivity].
    + exists []. split; [reflexivity|]. split; [now left|].
      split; [discriminate|].
      intros (r' & [= <-] & Hr'). apply error_or_unsupported_spec in Hr'.
      congruence.
Qed.

(** The outcome of one probe. *)
Lemma probe_spec env u :
  (probe env u = None <-> probe_raises env u)
  /\ (forall r, probe env u = Some r <-> probe_returns env u r).
Proof.
  unfold probe, head_or_get, log_request, mbind, M_bind, mret, M_ret.
  simpl. fold (head_request u). fold (get_request u).
  destruct (send env (head_request u)) as [exc|r0] eqn:Hhead; simpl.
  - split.
    + split; [intros _; eapply head_raises; eauto | reflexivity].
    + intros r. split; [discriminate|].
      intros [H _|r1 H _ _]; congruence.
  - destruct ((400 <=? status_code r0) || _) eqn:Hretry; simpl.
    + apply error_or_unsupported_spec in Hretry.
      destruct (send env (get_request u)) as [exc|r1] eqn:Hget; simpl.
      * split.
        -- split; [intros _; eapply get_raises; eauto | reflexivity].
        -- intros r. split; [discriminate|].
           intros [H Hn|r2 H _ Hg]; [|congruence].
           assert (r = r0) as -> by congruence. contradiction.
      * split.
        -- split; [discriminate|].
           intros [exc H|r2 exc _ _ Hg]; congruence.
        -- intros r. split.
           ++ intros [= <-]. eapply get_returns; eauto.
           ++ intros [H Hn|r2 _ _ Hg]; [|congruence].
              assert (r = r0) as -> by congruence. contradiction.
    + assert (Hno : ~ error_or_unsupported r0).
      { rewrite <- error_or_unsupported_spec. congruence. }
      split.
      * split; [discriminate|].
        intros [exc H|r2 exc H Hr _]; [congruence|].
        assert (r2 = r0) as -> by congruence. contradiction.
      * intros r. split.
        -- intros [= <-]. now apply head_returns.
        -- intros [H _|r2 H Hr _]; [congruence|].
           assert (r2 = r0) as -> by congruence. contradiction.
Qed.

(** *** Aggregation *)

Lemma buckets_le_refl b : buckets_le b b.
Proof. repeat split; apply incl_refl. Qed.

Lemma buckets_le_trans b1 b2 b3 :
  buckets_le b1 b2 -> buckets_le b2 b3 -> buckets_le b1 b3.
Proof.
  intros (H1 & H2 & H3) (K1 & K2 & K3).
  repeat split; eapply incl_tran; eauto.
Qed.

Lemma add_broken_le base link status b :
  buckets_le b (add_broken base link status b).
Proof.
  unfold add_broken. destruct (_is_internal base link);
    repeat split; simpl; try apply incl_refl; apply incl_appl, incl_refl.
Qed.

Lemma add_redirect_le link status b : buckets_le b (add_redirect link status b).
Proof.
  repeat split; simpl; try apply incl_refl. apply incl_appl, incl_refl.
Qed.

Lemma record_outcome_le base b f : buckets_le b (record_outcome base b f).
Proof.
  destruct f as [link [r|]]; simpl; [|apply add_broken_le].
  destruct ((300 <=? status_code r) && (status_code r <? 400));
    destruct (400 <=? status_code r);
    eauto using buckets_le_refl, buckets_le_trans, add_broken_le,
      add_redirect_le.
Qed.

Lemma fold_record_outcome_le base fs b :
  buckets_le b (fold_left (record_outcome base) fs b).
Proof.
  revert b. induction fs as [|f fs IH]; intros b; simpl.
  - apply buckets_le_refl.
  - eapply buckets_le_trans; [apply record_outcome_le | apply IH].
Qed.

Lemma broken_bucket_le base link b b' :
  buckets_le b b' -> incl (broken_bucket base link b) (broken_bucket base link b').
Proof.
  intros (H1 & H2 & _). unfold broken_bucket.
  now destruct (_is_internal base link).
Qed.

Lemma outcome_recorded_le base f b b' :
  buckets_le b b' -> outcome_recorded base f b -> outcome_recorded base f b'.
Proof.
  intros Hle. pose proof (broken_bucket_le base f.1 _ _ Hle) as Hb.
  destruct Hle as (_ & _ & Hr).
  unfold outcome_recorded. destruct f.2 as [r|].
  - intros [H1 H2]. split; intros H; [apply Hb, H1, H | apply Hr, H2, H].
  - apply Hb.
Qed.

Lemma add_broken_in base link status b :
  In (link, status) (broken_bucket base link (add_broken base link status b)).
Proof.
  unfold broken_bucket, add_broken.
  destruct (_is_internal base link); simpl; apply in_or_app; right; now left.
Qed.

Lemma record_outcome_recorded base b f :
  outcome_recorded base f (record_outcome base b f).
Proof.
  destruct f as [link [r|]]; unfold outcome_recorded; simpl;
    [|apply add_broken_in].
  split; intros H.
  - apply Z.leb_le in H as ->. apply add_broken_in.
  - assert (((300 <=? status_code r) && (status_code r <? 400)) = true) as ->
      by (apply andb_true_iff; split; [apply Z.leb_le | apply Z.ltb_lt]; lia).
    assert ((400 <=? status_code r) = false) as -> by (apply Z.leb_gt; lia).
    simpl. apply in_or_app; right; now left.
Qed.

(** Every future the loop sees leaves its trace in the final buckets. *)
Lemma fold_record_outcome_recorded base fs b f :
  In f fs -> outcome_recorded base f (fold_left (record_outcome base) fs b).
Proof.
  revert b. induction fs as [|f' fs IH]; intros b; simpl; [tauto|].
  intros [->|Hin]; [|now apply IH].
  eapply outcome_recorded_le; [apply fold_record_outcome_le|].
  apply record_outcome_recorded.
Qed.

(** C6: validation of a link first issues a HEAD request and follows it
    with one GET request exactly when the HEAD answer has a status of 400
    or more, or 405 or 501; the requests of the batch are those of its
    links, interleaved as the pool runs them, each link's own requests in
    that order; the whole batch is always processed: a link whose
    validation raises is recorded with status 0 in the broken bucket of
    its classification, and every other link of the batch is recorded
    according to its final status.  (The page URL, against which links
    are classified, is taken without square brackets.) *)
Theorem link_validation_head_then_get env base workers links_to_check w :
  no_brackets base -> 0 < workers -> completes_all env ->
  exists b w' new_requests,
    validate_links env base workers links_to_check w = (Ok b, w')
    /\ requests w' = requests w ++ new_requests
    /\ interleaving new_requests
         (List.map (probe_requests env) links_to_check)
    /\ forall link,
         In link links_to_check ->
         (exists retry,
            probe_requests env link = head_request link :: retry
            /\ (retry = [] \/ retry = [get_request link])
            /\ (retry = [get_request link]
                <-> exists r, send env (head_request link) = inr r
                              /\ error_or_unsupported r))
         /\ (probe_raises env link ->
             In (link, 0) (broken_bucket base link b))
         /\ (forall r,
               probe_returns env link r ->
               (400 <= status_code r ->
                In (link, status_code r) (broken_bucket base link b))
               /\ (300 <= status_code r < 400 ->
                   In (link, status_code r) (all_redirects b))).
Proof.
  intros _ Hw Hperm.
  eexists _, _, _. split; [apply (validate_links_run _ _ _ _ _ Hw)|].
  split; [reflexivity|].
  split; [apply schedule_interleaving|].
  intros link Hin.
  split; [apply probe_requests_spec|].
  assert (Hrec : outcome_recorded base (link, probe env link)
                   (fold_left (record_outcome base)
                      (as_completed env
                         (List.map (fun l => (l, probe env l)) links_to_check))
                      empty_buckets)).
  { apply fold_record_outcome_recorded.
    eapply Permutation_in; [symmetry; apply Hperm|].
    apply (in_map (fun l => (l, probe env l))), Hin. }
  unfold outcome_recorded in Hrec. simpl in Hrec.
  destruct (probe_spec env link) as [Hnone Hsome].
  split.
  - intros Hraise. apply Hnone in Hraise. now rewrite Hraise in Hrec.
  - intros r Hret. apply Hsome in Hret. now rewrite Hret in Hrec.
Qed.

Lemma env_of_completes_all reply : completes_all (env_of reply).
Proof. intros fs. reflexivity. Defined.


Lemma link_validation_head_then_get_witness :
  (no_brackets "https://example.com" /\ 0 < 10 /\ completes_all links_env)
  /\ exists b w',
       validate_links links_env "https://example.com" 10
         ["/contact"; "https://example.com/ok"; "https://other.test/gone";
          "https://other.test/moved"] initial_world = (Ok b, w')
       /\ In ("/contact", 0)
             (broken_bucket "https://example.com" "/contact" b)
       /\ In ("https://other.test/gone", 404)
             (broken_bucket "https://example.com" "https://other.test/gone" b)
       /\ In ("https://other.test/moved", 301) (all_redirects b).
Proof.
  assert (Hb : no_brackets "https://example.com")
    by (vm_compute; reflexivity).
  assert (Hw : 0 < 10) by lia.
  assert (Hc : completes_all links_env) by apply env_of_completes_all.
  split; [exact (conj Hb (conj Hw Hc))|].
  destruct (link_validation_head_then_get links_env "https://example.com" 10
              ["/contact"; "https://example.com/ok";
               "https://other.test/gone"; "https://other.test/moved"]
              initial_world Hb Hw Hc)
    as (b & w' & new_requests & Hrun & _ & _ & Hlinks).
  exists b, w'. split; [exact Hrun|].
  destruct (Hlinks "/contact") as (_ & Hraise & _);
    [left; reflexivity|].
  destruct (Hlinks "https://other.test/gone") as (_ & _ & Hgone);
    [right; right; left; reflexivity|].
  destruct (Hlinks "https://other.test/moved") as (_ & _ & Hmoved);
    [right; right; right; left; reflexivity|].
  split; [|split].
  - apply Hraise.
    apply (head_raises links_env "/contact"
             "Invalid URL '/contact': No scheme supplied.").
    vm_compute; reflexivity.
  - assert (Hret : probe_returns links_env "https://other.test/gone"
                     (plain_response 404 "Not Found")).
    { apply (get_returns _ _ _ (plain_response 404 "Not Found")).
      - vm_compute; reflexivity.
      - left. change (400 <= 404). lia.
      - vm_compute; reflexivity. }
    apply (proj1 (Hgone _ Hret)). change (400 <= 404). lia.
  - assert (Hret : probe_returns links_env "https://other.test/moved"
                     (plain_response 301 "")).
    { apply head_returns; [vm_compute; reflexivity|].
      unfold error_or_unsupported. change (~ (400 <= 301 \/ 301 = 405 \/ 301 = 501)).
      lia. }
    apply (proj2 (Hmoved _ Hret)). change (300 <= 301 < 400). lia.
Defined.

(** ** Recommendations about links *)

(** C5, as the code has it: a recommendation is appended for the
    broken-internal bucket and for the redirect bucket, once each and
    only when the bucket is not empty, and it carries the size of the
    whole bucket, not of the list cut to 10 entries that is reported.  No
    recommendation is made for the broken-external bucket. *)
Theorem link_recommendations_carry_full_counts
    env base doc max_links workers w :
  0 < workers ->
  exists lnk w',
    _check_links env base doc max_links workers w = (Ok lnk, w')
    /\ let b := link_buckets env base doc max_links in
       broken_internal lnk = firstn 10 (all_broken_internal b)
       /\ broken_external lnk = firstn 10 (all_broken_external b)
       /\ redirects lnk = firstn 10 (all_redirects b)
       /\ recommendations w'
          = recommendations w
            ++ (if nonempty (all_broken_internal b)
                then [Py.str_of_Z
                        (Z.of_nat (List.length (all_broken_internal b)))
                      +:+ " internal links appear broken."]
                else [])
            ++ (if nonempty (all_redirects b)
                then [Py.str_of_Z (Z.of_nat (List.length (all_redirects b)))
                      +:+ " links redirect; update to final URLs where possible."]
                else []).
Proof.
  intros Hw. eexists _, _.
  split; [apply (_check_links_run _ _ _ _ _ _ Hw)|].
  simpl. repeat split.
Qed.

Lemma link_recommendations_carry_full_counts_witness :
  0 < 10
  /\ exists lnk w',
       _check_links links_env "https://example.com" links_doc 25 10
                    initial_world = (Ok lnk, w')
       /\ recommendations w'
          = ["1 internal links appear broken.";
             "1 links redirect; update to final URLs where possible."].
Proof.
  assert (Hw : 0 < 10) by lia.
  split; [exact Hw|].
  destruct (link_recommendations_carry_full_counts links_env
              "https://example.com" links_doc 25 10 initial_world Hw)
    as (lnk & w' & Hrun & _ & _ & _ & Hrecs).
  exists lnk, w'. split; [exact Hrun|].
  rewrite Hrecs. vm_compute. reflexivity.
Defined.

(** C5 as stated fails for the broken-external bucket: it is not empty,
    and nothing is recommended. *)
Lemma broken_external_recommendation_counterexample :
  exists lnk w',
    _check_links links_env "https://example.com" gone_doc 25 10 initial_world
    = (Ok lnk, w')
    /\ all_broken_external
         (link_buckets links_env "https://example.com" gone_doc 25)
       = [("https://other.test/gone", 404)]
    /\ broken_external lnk = [("https://other.test/gone", 404)]
    /\ recommendations w' = [].
Proof.
  eexists _, _. split; [vm_compute; reflexivity|].
  repeat split; vm_compute; reflexivity.
Qed.

(** C7 as stated fails for the audit itself: invoked with 50 workers it
    creates a pool of 50. *)
Lemma worker_cap_counterexample :
  pools (seo_audit e2e_env "example.com" 25 50 initial_world).2 = [50]
  /\ ~ Forall (fun n => n <= 20)
         (pools (seo_audit e2e_env "example.com" 25 50 initial_world).2).
Proof.
  assert (H : pools (seo_audit e2e_env "example.com" 25 50 initial_world).2
              = [50]) by (vm_compute; reflexivity).
  split; [exact H|].
  rewrite H. intros Hall. inversion Hall as [|? ? Hle _]. lia.
Qed.

(** ** Classification of sampled links *)

(** C1: the sampler does not classify against the audited page.  It
    resolves and compares every href against the fixed placeholder host,
    so on the page [https://example.com] the absolute link
    [https://example.com/about], whose host is the page's host, is ranked
    with the external links, and a link to the placeholder host itself is
    ranked with the internal ones. *)
Theorem sampling_classifies_against_placeholder :
  _is_internal "https://example.com" "https://example.com/about" = true
  /\ sampled_as_internal "https://example.com/about" = false
  /\ _smart_link_sampling
       (doc_with_anchors [anchor_to "https://example.com/about" "About us"])
       25
     = ([], ["https://example.com/about"])
  /\ _is_internal "https://example.com" "https://placeholder.com/x" = false
  /\ _smart_link_sampling
       (doc_with_anchors [anchor_to "https://placeholder.com/x" "Elsewhere"])
       25
     = (["https://placeholder.com/x"], []).
Proof. repeat split; vm_compute; reflexivity. Qed.

(** ** The title check *)

Lemma truthy_true s : s <> "" -> Py.truthy s = true.
Proof. destruct s; [congruence | reflexivity]. Qed.

(** C8: on a document whose title is not blank, the title check returns
    the stripped title and its length, records the too-short issue
    exactly when the length is below 30 and the too-long issue exactly
    when it is above 60, and recommends accordingly. *)
Theorem title_length_boundaries doc raw w :
  doc_title doc = Some raw -> Py.strip raw <> "" ->
  exists info w',
    _check_title doc w = (Ok (Some (Py.strip raw), info), w')
    /\ info_length info = Py.len (Py.strip raw)
    /\ (In "Title too short (<30 chars)" (info_issues info)
        <-> Py.len (Py.strip raw) < 30)
    /\ (In "Title too long (>60 chars)" (info_issues info)
        <-> 60 < Py.len (Py.strip raw))
    /\ (In "Increase title length to ~50-60 characters."
           (recommendations w')
        <-> In "Increase title length to ~50-60 characters."
               (recommendations w)
            \/ Py.len (Py.strip raw) < 30)
    /\ (In "Shorten title to <=60 characters." (recommendations w')
        <-> In "Shorten title to <=60 characters." (recommendations w)
            \/ 60 < Py.len (Py.strip raw)).
Proof.
  intros Htitle Hblank. unfold _check_title. rewrite Htitle.
  rewrite (truthy_true _ Hblank).
  generalize (Py.strip raw). intros t.
  unfold flag, recommend, mbind, M_bind, mret, M_ret.
  destruct (Py.len t <? 30) eqn:Hshort; destruct (60 <? Py.len t) eqn:Hlong;
    simpl; eexists _, _; (split; [reflexivity|]); simpl;
    rewrite ?Z.ltb_lt, ?Z.ltb_ge in *;
    rewrite ?in_app_iff; simpl;
    (split; [reflexivity|]);
    repeat split; intros; try lia;
    repeat match goal with
           | H : _ \/ _ |- _ => destruct H
           | H : False |- _ => destruct H
           | H : _ = _ |- _ => discriminate H
           end; try lia; tauto.
Qed.

Lemma title_of_length_not_blank n :
  (0 < n <= 61)%nat -> Py.strip (title_of_length n) <> "".
Proof.
  intros Hn H.
  do 62 (destruct n as [|n]; [first [lia | vm_compute in H; discriminate H]|]).
  lia.
Qed.

Lemma title_length_boundaries_witness :
  (forall n, (0 < n <= 61)%nat ->
             doc_title (doc_titled (title_of_length n))
             = Some (title_of_length n)
             /\ Py.strip (title_of_length n) <> "")
  /\ (exists info w',
        _check_title (doc_titled (title_of_length 29)) initial_world
        = (Ok (Some (Py.strip (title_of_length 29)), info), w')
        /\ In "Title too short (<30 chars)" (info_issues info))
  /\ (exists info w',
        _check_title (doc_titled (title_of_length 30)) initial_world
        = (Ok (Some (Py.strip (title_of_length 30)), info), w')
        /\ ~ In "Title too short (<30 chars)" (info_issues info))
  /\ (exists info w',
        _check_title (doc_titled (title_of_length 60)) initial_world
        = (Ok (Some (Py.strip (title_of_length 60)), info), w')
        /\ ~ In "Title too long (>60 chars)" (info_issues info))
  /\ (exists info w',
        _check_title (doc_titled (title_of_length 61)) initial_world
        = (Ok (Some (Py.strip (title_of_length 61)), info), w')
        /\ In "Title too long (>60 chars)" (info_issues info)).
Proof.
  assert (Hdoc : forall n, (0 < n <= 61)%nat ->
                   doc_title (doc_titled (title_of_length n))
                   = Some (title_of_length n)
                   /\ Py.strip (title_of_length n) <> "").
  { intros n Hn. split; [reflexivity | exact (title_of_length_not_blank n Hn)]. }
  split; [exact Hdoc|].
  assert (Hrun : forall n, (0 < n <= 61)%nat ->
            exists info w',
              _check_title (doc_titled (title_of_length n)) initial_world
              = (Ok (Some (Py.strip (title_of_length n)), info), w')
              /\ (In "Title too short (<30 chars)" (info_issues info)
                  <-> Py.len (Py.strip (title_of_length n)) < 30)
              /\ (In "Title too long (>60 chars)" (info_issues info)
                  <-> 60 < Py.len (Py.strip (title_of_length n)))).
  { intros n Hn. destruct (Hdoc n Hn) as [Ht Hb].
    destruct (title_length_boundaries _ _ initial_world Ht Hb)
      as (info & w' & Hr & _ & Hs & Hl & _).
    exists info, w'. exact (conj Hr (conj Hs Hl)). }
  split; [|split; [|split]].
  - destruct (Hrun 29%nat) as (info & w' & Hr & Hs & _); [lia|].
    exists info, w'. split; [exact Hr|].
    apply Hs. vm_compute. reflexivity.
  - destruct (Hrun 30%nat) as (info & w' & Hr & Hs & _); [lia|].
    exists info, w'. split; [exact Hr|].
    intros Hin. apply Hs in Hin. vm_compute in Hin. discriminate Hin.
  - destruct (Hrun 60%nat) as (info & w' & Hr & _ & Hl); [lia|].
    exists info, w'. split; [exact Hr|].
    intros Hin. apply Hl in Hin. vm_compute in Hin. discriminate Hin.
  - destruct (Hrun 61%nat) as (info & w' & Hr & _ & Hl); [lia|].
    exists info, w'. split; [exact Hr|].
    apply Hl. vm_compute. reflexivity.
Defined.

(** ** Running the checks *)

Lemma add_recommendations_app w l1 l2 :
  add_recommendations (add_recommendations w l1) l2
  = add_recommendations w (l1 ++ l2).
Proof. unfold add_recommendations. simpl. now rewrite app_assoc. Qed.

Lemma add_recommendations_nil w : add_recommendations w [] = w.
Proof.
  destruct w. unfold add_recommendations. simpl. now rewrite app_nil_r.
Qed.

Lemma appends_ret {A} (a : A) : appends (mret a) a [].
Proof. intros w. now rewrite add_recommendations_nil. Qed.

Lemma appends_bind {A B} (m : M A) (f : A -> M B) a b r1 r2 :
  appends m a r1 -> appends (f a) b r2 -> appends (m ≫= f) b (r1 ++ r2).
Proof.
  intros Hm Hf w. rewrite (bind_ok _ _ _ _ _ (Hm w)), Hf.
  now rewrite add_recommendations_app.
Qed.

Lemma appends_recommend s : appends (recommend s) tt [s].
Proof. intros w. reflexivity. Qed.

Lemma appends_when c s : appends (when c (recommend s)) tt (if c then [s] else []).
Proof. destruct c; [apply appends_recommend | apply appends_ret]. Qed.

Lemma ret_run {A} (a : A) w : (mret a : M A) w = (Ok a, w).
Proof. reflexivity. Qed.

Lemma appends_run {A B} (m : M A) (f : A -> M B) a recs w :
  appends m a recs -> (m ≫= f) w = f a (add_recommendations w recs).
Proof. intros Hm. apply bind_ok, Hm. Qed.

Lemma _check_title_missing doc :
  doc_title doc = None ->
  appends (_check_title doc)
          (None, {| info_length := 0; info_issues := ["Missing title"] |})
          ["Missing <title> tag."].
Proof. intros H w. unfold _check_title. rewrite H. reflexivity. Qed.

Lemma _check_meta_description_missing doc :
  doc_meta_description doc = None ->
  appends (_check_meta_description doc)
          (None, {| info_length := 0;
                    info_issues := ["Missing meta description"] |})
          ["Add a unique meta description (120-160 characters)."].
Proof. intros H w. unfold _check_meta_description. rewrite H. reflexivity. Qed.

Lemma strip_not_blank a : Py.strip a <> "" -> Py.truthy a = true.
Proof. destruct a; [intros H; now elim H | reflexivity]. Qed.

Lemma _check_h1_two doc a b :
  doc_h1 doc = [a; b] -> Py.strip a <> "" -> Py.strip b <> "" ->
  appends (_check_h1 doc)
          ([Py.strip a; Py.strip b],
           {| info_count := 2; count_issues := ["Multiple H1s"] |})
          ["Use only one primary H1 heading per page."].
Proof.
  intros H Ha Hb w. unfold _check_h1. rewrite H.
  cbn [List.filter].
  rewrite (strip_not_blank a Ha), (strip_not_blank b Hb),
    (truthy_true _ Ha), (truthy_true _ Hb).
  reflexivity.
Qed.

Lemma _check_images_one doc :
  List.length (List.filter alt_missing (doc_images doc)) = 1%nat ->
  exists missing total,
    List.length missing = 1%nat
    /\ appends (_check_images doc) (missing, total)
               ["1 images missing alt text."].
Proof.
  intros H. eexists _, _. split; [|intros w; unfold _check_images].
  2: { rewrite length_map, H. reflexivity. }
  now rewrite length_map.
Qed.

Lemma _check_canonical_same base doc c :
  doc_canonical doc = Some c -> c <> "" ->
  Urllib.netloc (Urllib.urlparse (_absolute_url base c))
  = Urllib.netloc (Urllib.urlparse (_absolute_url base "")) ->
  appends (_check_canonical base doc) (Some (_absolute_url base c), []) [].
Proof.
  intros H Hc Hloc w. unfold _check_canonical. rewrite H.
  cbn [Py.truthy_opt from_option]. unfold id.
  rewrite (truthy_true _ Hc), Hloc.
  rewrite String.eqb_refl. cbn [negb].
  now rewrite add_recommendations_nil.
Qed.

Lemma _check_viewport_present doc :
  doc_viewport doc = true -> appends (_check_viewport doc) true [].
Proof.
  intros H w. unfold _check_viewport. rewrite H.
  cbn [negb]. now rewrite add_recommendations_nil.
Qed.

Lemma _check_meta_robots_indexable doc :
  (forall c, doc_meta_robots doc = Some c ->
             Py.contains (Py.lower c) "noindex" = false) ->
  exists data recs,
    noindex data = false /\ appends (_check_meta_robots doc) data recs.
Proof.
  intros H. unfold _check_meta_robots.
  destruct (doc_meta_robots doc) as [c|] eqn:Hc.
  - specialize (H c eq_refl). cbn [from_option]. unfold id.
    destruct (Py.truthy_opt (Some c)).
    + eexists _, _. split; cycle 1.
      { cbv zeta. cbn [noindex nofollow]. rewrite H. cbn [when].
        eapply appends_bind; [apply appends_ret|].
        eapply appends_bind; [apply appends_when | apply appends_ret]. }
      reflexivity.
    + eexists _, _. split; [|apply appends_ret]. reflexivity.
  - eexists _, _. split; [|apply appends_ret]. reflexivity.
Qed.

Lemma _check_lang_and_charset_appends doc :
  exists a recs, appends (_check_lang_and_charset doc) a recs.
Proof.
  unfold _check_lang_and_charset.
  destruct (Py.truthy_opt (doc_html_lang doc));
    destruct (Py.truthy_opt (doc_meta_charset doc));
    destruct (Py.truthy_opt (doc_http_equiv doc));
    eexists _, _;
    repeat first [ apply appends_ret
                 | apply appends_recommend
                 | eapply appends_bind ].
Qed.

Lemma _check_hreflang_appends base doc :
  exists a recs, appends (_check_hreflang base doc) a recs.
Proof.
  unfold _check_hreflang. eexists _, _.
  eapply appends_bind; [apply appends_when | apply appends_ret].
Qed.

Lemma json_ld_loop_valid scripts blocks errors :
  Forall (fun ok => ok = true) scripts ->
  appends (json_ld_loop scripts blocks errors)
          (blocks + Z.of_nat (List.length scripts), errors) [].
Proof.
  intros H. revert blocks. induction H as [|ok rest -> _ IH]; intros blocks.
  - simpl. rewrite Z.add_0_r. apply appends_ret.
  - cbn [json_ld_loop List.length].
    replace (blocks + Z.of_nat (S (List.length rest)))
      with (blocks + 1 + Z.of_nat (List.length rest)) by lia.
    apply IH.
Qed.

Lemma _check_social_complete doc :
  doc_og doc = true -> doc_twitter_card doc = true ->
  Forall (fun ok => ok = true) (doc_json_ld doc) ->
  exists blocks,
    appends (_check_social_and_structured doc)
            {| open_graph := true; twitter_card := true;
               json_ld_blocks := blocks; json_ld_errors := 0 |} [].
Proof.
  intros Hog Htw Hld. unfold _check_social_and_structured.
  rewrite Hog, Htw. cbn [negb when]. eexists.
  change (@nil string) with ([] ++ [] ++ [] ++ @nil string).
  eapply appends_bind; [apply appends_ret|].
  eapply appends_bind; [apply appends_ret|].
  eapply appends_bind; [apply (json_ld_loop_valid _ 0 0 Hld)|].
  apply appends_ret.
Qed.

Lemma _check_technical_headers_scenario u page elapsed :
  let hs := lower_headers (headers page) in
  Urllib.scheme (Urllib.urlparse u) = "https" ->
  hs !! "strict-transport-security" = None ->
  match hs !! "content-length" with
  | Some s => s = "" \/ exists n, Py.int_of_str s = Some n /\ n <= TWO_MIB
  | None => True
  end ->
  hs !! "x-content-type-options" = Some "nosniff" ->
  is_Some (hs !! "x-frame-options") ->
  is_Some (hs !! "referrer-policy") ->
  is_Some (hs !! "content-security-policy") ->
  elapsed <= 1500 ->
  exists tech,
    appends (_check_technical_headers u page elapsed) tech
            ["Enable HSTS for better transport security."]
    /\ response_time_ms tech = elapsed
    /\ content_length tech <= TWO_MIB
    /\ hsts tech = false
    /\ x_content_type_options tech = true
    /\ x_frame_options tech = true
    /\ referrer_policy tech = true
    /\ csp tech = true.
Proof.
  intros hs Hhttps Hhsts Hsmall Hsniff Hframe Hreferrer Hcsp Hfast.
  assert (Hlen : exists len,
             (if Py.truthy_opt (hs !! "content-length")
              then Py.int_of_str (default "" (hs !! "content-length"))
              else Some 0) = Some len /\ len <= TWO_MIB).
  { destruct (hs !! "content-length") as [s|]; cbn [Py.truthy_opt].
    - destruct Hsmall as [->|(n & Hn & Hle)].
      + exists 0. split; [reflexivity | unfold TWO_MIB; lia].
      + destruct (Py.truthy s).
        * exists n. split; [exact Hn | exact Hle].
        * exists 0. split; [reflexivity | unfold TWO_MIB; lia].
    - exists 0. split; [reflexivity | unfold TWO_MIB; lia]. }
  destruct Hlen as (len & Hlen & Hle).
  unfold _check_technical_headers. fold hs. cbv zeta.
  rewrite Hlen.
  cbn [response_time_ms content_length hsts x_content_type_options
       x_frame_options referrer_policy csp].
  rewrite Hhsts, Hsniff, Hhttps.
  rewrite (bool_decide_eq_true_2 _ Hframe), (bool_decide_eq_true_2 _ Hreferrer),
    (bool_decide_eq_true_2 _ Hcsp).
  rewrite (bool_decide_eq_true_2 (Some "nosniff" = Some "nosniff") eq_refl).
  rewrite (bool_decide_eq_false_2 (is_Some (@None string)) is_Some_None).
  assert (Hslow : (1500 <? elapsed) = false) by (apply Z.ltb_ge; lia).
  assert (Hbig : (TWO_MIB <? len) = false) by (apply Z.ltb_ge; lia).
  rewrite Hslow, Hbig. rewrite String.eqb_refl.
  cbn [negb andb when].
  eexists. split; [intros w; reflexivity|].
  cbn [response_time_ms content_length hsts x_content_type_options
       x_frame_options referrer_policy csp].
  repeat split. exact Hle.
Qed.

Lemma _check_robots_and_sitemap_scenario env base r exc w :
  send env {| req_method := GET; req_url := Urllib.urljoin base "/robots.txt";
              req_timeout := PROBE_TIMEOUT |} = inr r ->
  status_code r = 200 ->
  send env {| req_method := GET;
              req_url := Urllib.urljoin base "/sitemap.xml";
              req_timeout := PROBE_TIMEOUT |} = inl exc ->
  exists rs w',
    _check_robots_and_sitemap env base w = (Ok rs, w')
    /\ robots_txt rs = "Present" /\ sitemap rs = "Missing"
    /\ recommendations w'
       = recommendations w ++ ["Missing sitemap.xml file."].
Proof.
  intros Hrobots Hstatus Hsitemap. unfold _check_robots_and_sitemap.
  rewrite (bind_ok _ _ _ _ _ (_fetch_run env _ PROBE_TIMEOUT w)).
  cbv zeta. rewrite Hrobots.
  assert (H200 : is_200 (Some r) = true).
  { unfold is_200, response_ok. rewrite Hstatus. reflexivity. }
  rewrite H200.
  cbv beta iota.
  match goal with
  | |- context [mret ("Present", ?l)] => generalize l; intros notes
  end.
  rewrite (bind_ok _ _ _ _ _ (ret_run _ _)). cbv beta iota.
  rewrite (bind_ok _ _ _ _ _ (_fetch_run env _ PROBE_TIMEOUT _)).
  cbv zeta. rewrite Hsitemap. cbv beta iota.
  cbn [is_200].
  eexists _, _. split; [reflexivity|]. repeat split.
Qed.

(** No link of a batch is broken when every HEAD request is answered
    with a status below 400. *)
Lemma fold_record_outcome_no_broken base fs b :
  Forall (fun f : future =>
            exists r, f.2 = Some r /\ status_code r < 400) fs ->
  all_broken_internal (fold_left (record_outcome base) fs b)
  = all_broken_internal b
  /\ all_broken_external (fold_left (record_outcome base) fs b)
     = all_broken_external b.
Proof.
  intros H. revert b.
  induction H as [|[link resp] fs (r & Hr & Hlt) _ IH]; intros b.
  - split; reflexivity.
  - cbn [fold_left]. destruct (IH (record_outcome base b (link, resp)))
      as [-> ->].
    simpl in Hr. subst resp. cbn [record_outcome].
    assert ((400 <=? status_code r) = false) as -> by (apply Z.leb_gt; lia).
    destruct ((300 <=? status_code r) && (status_code r <? 400));
      split; reflexivity.
Qed.

Lemma link_buckets_no_broken env base doc max_links :
  completes_all env ->
  (forall u,
     In u ((validated_links doc max_links).1
           ++ (validated_links doc max_links).2) ->
     exists r, send env (head_request u) = inr r /\ status_code r < 400) ->
  all_broken_internal (link_buckets env base doc max_links) = []
  /\ all_broken_external (link_buckets env base doc max_links) = [].
Proof.
  intros Hperm Hlinks. unfold link_buckets.
  destruct (validated_links doc max_links) as [internal external].
  cbn [fst snd] in Hlinks.
  apply (fold_record_outcome_no_broken base _ empty_buckets).
  apply List.Forall_forall. intros f Hf.
  apply (Permutation_in _ (Hperm _)) in Hf.
  apply in_map_iff in Hf as (u & <- & Hu).
  destruct (Hlinks u Hu) as (r & Hhead & Hlt).
  exists r. split; [|exact Hlt].
  apply (probe_spec env u). apply head_returns; [exact Hhead|].
  unfold error_or_unsupported. lia.
Qed.

Lemma get_recommendations_run {B} (f : list string -> M B) w :
  (get_recommendations ≫= f) w = f (recommendations w) w.
Proof. reflexivity. Qed.

Lemma lift_run {A B} (a : A) (f : A -> M B) w :
  (lift (Ok a) ≫= f) w = f a w.
Proof. reflexivity. Qed.

Lemma recommendations_add w recs :
  recommendations (add_recommendations w recs) = recommendations w ++ recs.
Proof. reflexivity. Qed.

(** Finds a recommendation in a list built with [++]. *)
Ltac find_recommendation :=
  solve [ left; reflexivity
        | right; find_recommendation
        | apply in_or_app; right; find_recommendation
        | apply in_or_app; left; find_recommendation ].

(** C9, as the code has it: for a successfully fetched page with no
    title, no meta description, exactly two H1 tags neither of which is
    blank, exactly one image without alt text, an https URL without an
    HSTS header and an unreachable sitemap, on which every other scored
    check passes, the audit returns a full report whose recommendations
    include the six messages below and whose score is 81, with the five
    deductions 5 + 5 + 5 + 2 + 2 and none for the single missing alt
    text. *)
Theorem end_to_end_scenario env url0 max_links workers page :
  Scenario env url0 max_links page -> headings_not_blank page ->
  0 < workers ->
  exists r w,
    seo_audit env url0 max_links workers initial_world = (Ok r, w)
    /\ is_full r = true
    /\ score r
       = Some {| overall := 81;
                 deductions :=
                   ["-5: Title issues"; "-5: Meta description issues";
                    "-5: H1 count issues"; "-2: Missing HSTS";
                    "-2: Missing sitemap.xml"] |}
    /\ In "Missing <title> tag." (report_recommendations r)
    /\ In "Add a unique meta description (120-160 characters)."
          (report_recommendations r)
    /\ In "Use only one primary H1 heading per page."
          (report_recommendations r)
    /\ In "1 images missing alt text." (report_recommendations r)
    /\ In "Enable HSTS for better transport security."
          (report_recommendations r)
    /\ In "Missing sitemap.xml file." (report_recommendations r).
Proof.
  intros [_ Hfetched Hstatus Htitle Hdesc (a & b & Hh1) Halt Hhttps
          Hhsts (exc & Hsitemap) (c & Hcanon & Hc & _ & Hloc) Hviewport
          Hindex Hog Htwitter Hld Hfast Hsmall Hsniff Hframe Hreferrer Hcsp
          (robots & Hrobots & Hrobots200) Hlinks Hperm] Hblank Hw.
  unfold headings_not_blank in Hblank. rewrite Hh1 in Hblank.
  assert (Ha : Py.strip a <> "") by (now inversion Hblank).
  assert (Hb : Py.strip b <> "").
  { inversion Hblank as [|? ? _ Hrest]. now inversion Hrest. }
  clear Hblank.
  unfold page_request in Hfetched, Hfast.
  unfold well_known_request, origin in Hsitemap, Hrobots.
  unfold audited_url in *. unfold seo_audit.
  remember (_ensure_url_scheme (Py.strip url0)) as u eqn:Hu.
  cbv zeta.
  rewrite (bind_ok _ _ _ _ _ (_fetch_run env _ PAGE_TIMEOUT initial_world)).
  cbv zeta. rewrite Hfetched. cbv beta iota.
  assert (Hlow : (400 <=? status_code page) = false) by (apply Z.leb_gt; lia).
  unfold response_ok. rewrite Hlow. cbn [andb negb].
  (* on-page checks *)
  rewrite (appends_run _ _ _ _ _ (_check_title_missing _ Htitle)).
  cbv beta iota.
  rewrite (appends_run _ _ _ _ _ (_check_meta_description_missing _ Hdesc)).
  cbv beta iota.
  rewrite (appends_run _ _ _ _ _ (_check_h1_two _ a b Hh1 Ha Hb)).
  cbv beta iota.
  destruct (_check_images_one _ Halt) as (missing & total & Hmissing & Himg).
  rewrite (appends_run _ _ _ _ _ Himg). cbv beta iota.
  rewrite (appends_run _ _ _ _ _ (_check_canonical_same u _ c Hcanon Hc Hloc)).
  cbv beta iota.
  rewrite (appends_run _ _ _ _ _ (_check_viewport_present _ Hviewport)).
  destruct (_check_meta_robots_indexable _ Hindex)
    as (robots_meta & robots_recs & Hnoindex & Hrm).
  rewrite (appends_run _ _ _ _ _ Hrm).
  destruct (_check_lang_and_charset_appends (soup page))
    as (lang_charset & lang_recs & Hlang).
  rewrite (appends_run _ _ _ _ _ Hlang).
  destruct (_check_hreflang_appends u (soup page))
    as (hreflangs & hreflang_recs & Hhreflang).
  rewrite (appends_run _ _ _ _ _ Hhreflang).
  (* social, technical *)
  destruct (_check_social_complete _ Hog Htwitter Hld) as (blocks & Hsocial).
  rewrite (appends_run _ _ _ _ _ Hsocial).
  destruct (_check_technical_headers_scenario u page (elapsed_ms env
              {| req_method := GET; req_url := u;
                 req_timeout := PAGE_TIMEOUT |})
              Hhttps Hhsts Hsmall Hsniff Hframe Hreferrer Hcsp Hfast)
    as (tech & Htech & Hms & Hsize & Hnohsts & Htech1 & Htech2 & Htech3
        & Htech4).
  rewrite (appends_run _ _ _ _ _ Htech).
  (* robots and sitemap *)
  match goal with
  | |- context [(_check_robots_and_sitemap env ?base ≫= _) ?w0] =>
      destruct (_check_robots_and_sitemap_scenario env base robots exc w0
                  Hrobots Hrobots200 Hsitemap)
        as (rs & w1 & Hrs & Hpresent & Hmissing_sitemap & Hrecs1)
  end.
  rewrite (bind_ok _ _ _ _ _ Hrs).
  (* links *)
  pose proof (_check_links_run env u (soup page) max_links workers w1 Hw)
    as Hlnk.
  cbv zeta in Hlnk.
  destruct (link_buckets_no_broken env u (soup page) max_links Hperm Hlinks)
    as [Hbi Hbe].
  rewrite Hbi, Hbe in Hlnk. cbn [nonempty firstn] in Hlnk.
  rewrite (bind_ok _ _ _ _ _ Hlnk).
  rewrite get_recommendations_run.
  (* score *)
  match goal with
  | |- context [lift (_score ?rep)] => set (report := rep)
  end.
  assert (Hscore :
            _score report
            = Ok {| overall := 81;
                    deductions :=
                      ["-5: Title issues"; "-5: Meta description issues";
                       "-5: H1 count issues"; "-2: Missing HSTS";
                       "-2: Missing sitemap.xml"] |}).
  { unfold _score, report, section, tech_section, mbind, result_bind.
    cbn [on_page social_structured links technical robots_sitemap url].
    unfold apply_deductions.
    cbn [title_info meta_description_info h1_info images_missing_alt
         canonical_info has_viewport_meta meta_robots info_issues
         count_issues open_graph twitter_card json_ld_errors
         broken_internal broken_external].
    rewrite Hmissing, Hnoindex, Hms, Hnohsts, Htech1, Htech2, Htech3, Htech4,
      Hpresent, Hmissing_sitemap, Hhttps.
    assert (Hslow : (1500 <? elapsed_ms env
                       {| req_method := GET; req_url := u;
                          req_timeout := PAGE_TIMEOUT |}) = false)
      by (apply Z.ltb_ge; lia).
    assert (Hbig : (TWO_MIB <? content_length tech) = false)
      by (apply Z.ltb_ge; lia).
    rewrite Hslow, Hbig.
    reflexivity. }
  rewrite Hscore, lift_run.
  eexists _, _. split; [reflexivity|].
  split; [reflexivity|]. split; [reflexivity|].
  unfold report.
  cbn [report_recommendations set_workers_used set_score
       recommendations add_recommendations add_requests add_pool].
  rewrite Hrecs1.
  cbn [recommendations add_recommendations add_requests add_pool
       initial_world].
  repeat split; find_recommendation.
Qed.

Lemma e2e_scenario_with a b :
  Scenario (e2e_env_with [a; b]) "example.com" 25 (e2e_page_with [a; b]).
Proof.
  assert (Hheader : forall key value,
            lower_headers (headers (e2e_page_with [a; b])) !! key
            = Some value ->
            is_Some (lower_headers (headers (e2e_page_with [a; b])) !! key)).
  { intros key value ->. eexists. reflexivity. }
  constructor.
  - vm_compute. reflexivity.
  - vm_compute. reflexivity.
  - change (200 < 400). lia.
  - reflexivity.
  - reflexivity.
  - exists a, b. reflexivity.
  - vm_compute. reflexivity.
  - vm_compute. reflexivity.
  - vm_compute. reflexivity.
  - exists "Read timed out.". vm_compute. reflexivity.
  - exists "https://example.com/". split; [reflexivity|].
    split; [discriminate|]. split; vm_compute; reflexivity.
  - reflexivity.
  - intros c H. vm_compute in H. discriminate H.
  - reflexivity.
  - reflexivity.
  - repeat constructor.
  - change (120 <= 1500). lia.
  - assert (E : lower_headers (headers (e2e_page_with [a; b]))
                !! "content-length" = Some "5120")
      by (vm_compute; reflexivity).
    rewrite E. right. exists 5120.
    split; [vm_compute; reflexivity | unfold TWO_MIB; lia].
  - vm_compute. reflexivity.
  - apply (Hheader _ "DENY"). vm_compute. reflexivity.
  - apply (Hheader _ "strict-origin"). vm_compute. reflexivity.
  - apply (Hheader _ "default-src 'self'"). vm_compute. reflexivity.
  - exists (plain_response 200 "User-agent: *").
    split; vm_compute; reflexivity.
  - intros u _. exists (plain_response 200 "").
    split; [reflexivity | change (200 < 400); lia].
  - apply env_of_completes_all.
Defined.

Lemma e2e_scenario : Scenario e2e_env "example.com" 25 e2e_page.
Proof. exact (e2e_scenario_with "Welcome" "Latest news"). Defined.

Lemma e2e_headings_not_blank : headings_not_blank e2e_page.
Proof.
  repeat constructor; intros H; vm_compute in H; discriminate H.
Defined.

Lemma end_to_end_scenario_witness :
  (Scenario e2e_env "example.com" 25 e2e_page
   /\ headings_not_blank e2e_page /\ 0 < 10)
  /\ exists r w,
       seo_audit e2e_env "example.com" 25 10 initial_world = (Ok r, w)
       /\ score r
          = Some {| overall := 81;
                    deductions :=
                      ["-5: Title issues"; "-5: Meta description issues";
                       "-5: H1 count issues"; "-2: Missing HSTS";
                       "-2: Missing sitemap.xml"] |}
       /\ In "1 images missing alt text." (report_recommendations r).
Proof.
  assert (Hw : 0 < 10) by lia.
  split; [exact (conj e2e_scenario (conj e2e_headings_not_blank Hw))|].
  destruct (end_to_end_scenario e2e_env "example.com" 25 10 e2e_page
              e2e_scenario e2e_headings_not_blank Hw)
    as (r & w & Hrun & _ & Hscore & _ & _ & _ & Halt & _).
  exists r, w. exact (conj Hrun (conj Hscore Halt)).
Defined.

(** C9 as stated fails: a page of the scenario whose second H1 tag is
    blank has exactly two H1 tags, but the H1 check counts only the
    headings that are not blank: it finds one, records no issue and
    recommends nothing, and the score is 86. *)
Lemma blank_heading_counterexample :
  Scenario (e2e_env_with ["Welcome"; "   "]) "example.com" 25
           (e2e_page_with ["Welcome"; "   "])
  /\ exists r w,
       seo_audit (e2e_env_with ["Welcome"; "   "]) "example.com" 25 10
                 initial_world = (Ok r, w)
       /\ score r
          = Some {| overall := 86;
                    deductions :=
                      ["-5: Title issues"; "-5: Meta description issues";
                       "-2: Missing HSTS"; "-2: Missing sitemap.xml"] |}
       /\ ~ In "Use only one primary H1 heading per page."
               (report_recommendations r).
Proof.
  split; [apply e2e_scenario_with|].
  eexists _, _. split; [vm_compute; reflexivity|].
  split; [reflexivity|].
  intros H. cbn in H.
  repeat (destruct H as [H|H]; [discriminate H|]). exact H.
Qed.

(** * Further properties of the audit engine *)

(** ** On-page checks *)

Lemma appends_flag c issue rec issues :
  appends (flag c issue rec issues)
          (if c then issues ++ [issue] else issues)
          (if c then [rec] else []).
Proof.
  unfold flag. destruct c.
  - change [rec] with ([rec] ++ []).
    eapply appends_bind; [apply appends_recommend | apply appends_ret].
  - apply appends_ret.
Qed.

Lemma strip_empty : Py.strip "" = "".
Proof. reflexivity. Qed.

Lemma truthy_false s : Py.truthy s = false <-> s = "".
Proof. destruct s; split; intros H; (reflexivity || discriminate). Qed.

(** X1: a document without a title tag, or whose title is blank, gets
    the result [None], the single issue "Missing title" with length 0 and
    the single recommendation "Missing <title> tag.". *)
Theorem title_missing_or_blank doc :
  (doc_title doc = None
   \/ exists raw, doc_title doc = Some raw /\ Py.strip raw = "") ->
  appends (_check_title doc)
          (None, {| info_length := 0; info_issues := ["Missing title"] |})
          ["Missing <title> tag."].
Proof.
  intros [H|(raw & H & Hblank)] w; unfold _check_title; rewrite H.
  - reflexivity.
  - rewrite Hblank. reflexivity.
Qed.

Lemma title_missing_or_blank_witness :
  (exists raw, doc_title (doc_titled "   ") = Some raw /\ Py.strip raw = "")
  /\ appends (_check_title (doc_titled "   "))
             (None, {| info_length := 0; info_issues := ["Missing title"] |})
             ["Missing <title> tag."].
Proof.
  assert (H : exists raw, doc_title (doc_titled "   ") = Some raw
                          /\ Py.strip raw = "").
  { exists "   ". split; reflexivity. }
  split; [exact H|].
  exact (title_missing_or_blank (doc_titled "   ") (or_intror H)).
Defined.

(** X2: the title check records at most one issue, and appends exactly
    one recommendation for every issue it records; the title it returns
    is [None] exactly when the issue is "Missing title". *)
Theorem title_issues_and_recommendations doc :
  exists t info recs,
    appends (_check_title doc) (t, info) recs
    /\ List.length (info_issues info) = List.length recs
    /\ (List.length recs <= 1)%nat
    /\ (t = None <-> info_issues info = ["Missing title"]).
Proof.
  unfold _check_title.
  destruct (doc_title doc) as [raw|].
  - destruct (Py.truthy (Py.strip raw)).
    + generalize (Py.strip raw). intros t.
      eexists _, _, _. split.
      { eapply appends_bind; [apply appends_flag|].
        eapply appends_bind; [apply appends_flag | apply appends_ret]. }
      destruct (Py.len t <? 30) eqn:Hs; destruct (60 <? Py.len t) eqn:Hl;
        rewrite ?Z.ltb_lt, ?Z.ltb_ge in *; try lia;
        simpl; (split; [reflexivity|]); (split; [lia|]);
        split; discriminate.
    + eexists _, _, _. split.
      { eapply appends_bind; [apply appends_recommend | apply appends_ret]. }
      simpl. repeat split; lia.
  - eexists _, _, _. split.
    { eapply appends_bind; [apply appends_recommend | apply appends_ret]. }
    simpl. repeat split; lia.
Qed.

(** X3: a meta description whose content attribute is not empty is
    measured after stripping: the too-short issue is recorded exactly
    when the stripped length is below 50 and the too-long issue exactly
    when it is above 160, with one recommendation per issue.  A content
    of white space only is therefore reported as too short, with length
    0, not as missing. *)
Theorem description_length_boundaries doc raw :
  doc_meta_description doc = Some raw -> raw <> "" ->
  exists info recs,
    appends (_check_meta_description doc) (Some (Py.strip raw), info) recs
    /\ info_length info = Py.len (Py.strip raw)
    /\ (In "Description too short (<50 chars)" (info_issues info)
        <-> Py.len (Py.strip raw) < 50)
    /\ (In "Description too long (>160 chars)" (info_issues info)
        <-> 160 < Py.len (Py.strip raw))
    /\ ~ In "Missing meta description" (info_issues info)
    /\ List.length recs = List.length (info_issues info).
Proof.
  intros H Hraw. unfold _check_meta_description. rewrite H.
  rewrite (truthy_true _ Hraw).
  generalize (Py.strip raw). intros t.
  eexists _, _. split.
  { eapply appends_bind; [apply appends_flag|].
    eapply appends_bind; [apply appends_flag | apply appends_ret]. }
  cbn [info_length info_issues].
  destruct (Py.len t <? 50) eqn:Hs; destruct (160 <? Py.len t) eqn:Hl;
    rewrite ?Z.ltb_lt, ?Z.ltb_ge in *; simpl;
    (split; [reflexivity|]);
    repeat split; unfold not; intros; try lia;
    repeat match goal with
           | H : _ \/ _ |- _ => destruct H
           | H : False |- _ => destruct H
           | H : _ = _ |- _ => discriminate H
           end; try lia; tauto.
Qed.

Lemma description_length_boundaries_witness :
  (doc_meta_description (doc_described "   ") = Some "   " /\ "   " <> "")
  /\ exists info recs,
       appends (_check_meta_description (doc_described "   "))
               (Some "", info) recs
       /\ info_length info = 0
       /\ In "Description too short (<50 chars)" (info_issues info).
Proof.
  assert (H : doc_meta_description (doc_described "   ") = Some "   ")
    by reflexivity.
  assert (Hne : "   " <> "") by discriminate.
  split; [exact (conj H Hne)|].
  destruct (description_length_boundaries _ _ H Hne)
    as (info & recs & Hrun & Hlen & Hshort & _).
  exists info, recs. split; [exact Hrun|]. split; [exact Hlen|].
  apply Hshort. vm_compute. reflexivity.
Defined.

(** X4: the H1 check returns the stripped text of the headings that are
    not blank, counts exactly those, and records an issue, with one
    recommendation, exactly when that count is not 1: "No H1" for 0 and
    "Multiple H1s" for 2 or more.  Blank headings are not counted. *)
Theorem h1_count_and_issues doc :
  exists h1s info recs,
    appends (_check_h1 doc) (h1s, info) recs
    /\ h1s = List.map Py.strip (List.filter not_blank (doc_h1 doc))
    /\ info_count info = Z.of_nat (List.length h1s)
    /\ (count_issues info = ["No H1"] <-> info_count info = 0)
    /\ (count_issues info = ["Multiple H1s"] <-> 1 < info_count info)
    /\ (count_issues info = [] <-> info_count info = 1)
    /\ List.length recs = List.length (count_issues info).
Proof.
  assert (Hfilter :
            List.filter (fun t => Py.truthy t && Py.truthy (Py.strip t))
                        (doc_h1 doc)
            = List.filter not_blank (doc_h1 doc)).
  { apply List.filter_ext. intros t. unfold not_blank.
    destruct t; reflexivity. }
  unfold _check_h1. rewrite Hfilter.
  set (h1s := List.map Py.strip (List.filter not_blank (doc_h1 doc))).
  remember (Z.of_nat (List.length h1s)) as n eqn:En.
  assert (Hn : 0 <= n) by lia.
  exists h1s.
  destruct (n =? 0) eqn:H0; [|destruct (1 <? n) eqn:H1];
    rewrite ?Z.eqb_eq, ?Z.eqb_neq, ?Z.ltb_lt, ?Z.ltb_ge in *;
    eexists _, _;
    (split; [first [ eapply appends_bind;
                     [apply appends_recommend | apply appends_ret]
                   | apply appends_ret ]|]);
    cbn [info_count count_issues];
    (split; [reflexivity|]); (split; [exact En|]);
    repeat split; intros; try discriminate; try lia.
Qed.

Lemma alt_missing_spec img : alt_missing img = true <-> no_alt_text img.
Proof.
  unfold alt_missing, no_alt_text.
  destruct (img_alt img) as [alt|]; cbn [Py.truthy_opt from_option negb orb].
  - unfold id. rewrite orb_true_iff, negb_true_iff, String.eqb_eq.
    rewrite truthy_false. split.
    + intros [->|H]; right; eexists; (split; [reflexivity|]);
        [reflexivity | exact H].
    + intros [H|(a & [= <-] & H)]; [discriminate | right; exact H].
  - split; [intros _; now left | reflexivity].
Qed.

(** X5: the image check counts every image; the list it returns holds,
    in document order, one entry for every image whose alt text is absent
    or blank (its src, or "unknown" when it has none) and nothing else;
    and it appends its one recommendation, carrying the number of such
    images, exactly when there is at least one. *)
Theorem images_missing_alt_counted doc :
  exists missing total recs,
    appends (_check_images doc) (missing, total) recs
    /\ total = Z.of_nat (List.length (doc_images doc))
    /\ missing
       = List.map (fun img => default "unknown" (img_src img))
                  (List.filter alt_missing (doc_images doc))
    /\ (forall img, alt_missing img = true <-> no_alt_text img)
    /\ List.length missing
       = List.length (List.filter alt_missing (doc_images doc))
    /\ (forall img, In img (doc_images doc) ->
                    (no_alt_text img <->
                     In img (List.filter alt_missing (doc_images doc))))
    /\ Z.of_nat (List.length missing) <= total
    /\ (forall img, In img (doc_images doc) -> no_alt_text img ->
                    In (default "unknown" (img_src img)) missing)
    /\ recs = match missing with
              | [] => []
              | _ => [Py.str_of_Z (Z.of_nat (List.length missing))
                      +:+ " images missing alt text."]
              end.
Proof.
  unfold _check_images.
  set (missing := List.map (fun img => default "unknown" (img_src img))
                           (List.filter alt_missing (doc_images doc))).
  eexists _, _, _. split.
  { eapply appends_bind; [apply appends_when | apply appends_ret]. }
  split; [reflexivity|].
  split; [reflexivity|].
  split; [exact alt_missing_spec|].
  split; [apply length_map|].
  split.
  { intros img Hin. rewrite <- alt_missing_spec, List.filter_In. tauto. }
  split.
  { unfold missing. rewrite length_map.
    pose proof (List.filter_length_le alt_missing (doc_images doc)). lia. }
  split.
  { intros img Hin Hno. unfold missing.
    apply (in_map (fun img => default "unknown" (img_src img))).
    apply List.filter_In. split; [exact Hin|]. now apply alt_missing_spec. }
  rewrite app_nil_r. destruct missing; reflexivity.
Qed.

Lemma lower_truthy s : Py.truthy (Py.lower s) = Py.truthy s.
Proof. destruct s; reflexivity. Qed.

(** X6: the robots meta check is insensitive to the case of the content
    attribute: two documents whose robots contents agree up to case get
    the same flags and the same recommendations. *)
Theorem meta_robots_case_insensitive doc doc' :
  Py.lower <$> doc_meta_robots doc = Py.lower <$> doc_meta_robots doc' ->
  forall w, _check_meta_robots doc w = _check_meta_robots doc' w.
Proof.
  intros H w. unfold _check_meta_robots.
  destruct (doc_meta_robots doc) as [c|], (doc_meta_robots doc') as [c'|];
    try discriminate H; [|reflexivity].
  injection H as H.
  cbn [Py.truthy_opt from_option]. unfold id.
  rewrite <- (lower_truthy c), <- (lower_truthy c'), H.
  reflexivity.
Qed.

Lemma meta_robots_case_insensitive_witness :
  Py.lower <$> doc_meta_robots (doc_with_robots "NoIndex, NOFOLLOW")
  = Py.lower <$> doc_meta_robots (doc_with_robots "noindex, nofollow")
  /\ _check_meta_robots (doc_with_robots "NoIndex, NOFOLLOW") initial_world
     = _check_meta_robots (doc_with_robots "noindex, nofollow") initial_world
  /\ (_check_meta_robots (doc_with_robots "noindex, nofollow")
                         initial_world).1
     = Ok {| noindex := true; nofollow := true |}.
Proof.
  assert (H : Py.lower <$> doc_meta_robots (doc_with_robots "NoIndex, NOFOLLOW")
              = Py.lower <$> doc_meta_robots
                               (doc_with_robots "noindex, nofollow"))
    by (vm_compute; reflexivity).
  split; [exact H|]. split.
  - exact (meta_robots_case_insensitive _ _ H initial_world).
  - vm_compute. reflexivity.
Defined.

Lemma truthy_opt_present o : Py.truthy_opt o = true <-> present o.
Proof.
  unfold present. destruct o as [s|]; cbn [Py.truthy_opt].
  - split.
    + intros H. exists s. split; [reflexivity|].
      intros ->. discriminate H.
    + intros (s' & [= <-] & Hs). now apply truthy_true.
  - split; [discriminate | intros (s & [=] & _)].
Qed.

Lemma truthy_opt_absent o : Py.truthy_opt o = false <-> ~ present o.
Proof.
  rewrite <- truthy_opt_present. destruct (Py.truthy_opt o); split; intros H.
  - discriminate H.
  - exfalso. apply H. reflexivity.
  - intros E. discriminate E.
  - reflexivity.
Qed.

(** X7: the declared charset is taken from the meta charset tag when it
    has a value, and only otherwise from the http-equiv Content-Type tag,
    whose whole content is then reported, lower-cased.  The charset
    recommendation is made exactly when neither has a value, and the
    language recommendation exactly when the html tag has no lang
    value. *)
Theorem charset_precedence doc :
  exists info recs,
    appends (_check_lang_and_charset doc) info recs
    /\ (forall c, doc_meta_charset doc = Some c -> c <> "" ->
                  charset info = Some (Py.lower (Py.strip c)))
    /\ (~ present (doc_meta_charset doc) ->
        forall h, doc_http_equiv doc = Some h -> h <> "" ->
                  charset info = Some (Py.lower h))
    /\ (In "Declare a charset (e.g., UTF-8)." recs
        <-> ~ present (doc_meta_charset doc)
            /\ ~ present (doc_http_equiv doc))
    /\ (In "Set <html lang> attribute for accessibility and SEO." recs
        <-> ~ present (doc_html_lang doc))
    /\ (lang info = None <-> ~ present (doc_html_lang doc)).
Proof.
  unfold _check_lang_and_charset.
  destruct (Py.truthy_opt (doc_html_lang doc)) eqn:Hlang;
    destruct (Py.truthy_opt (doc_meta_charset doc)) eqn:Hcs;
    destruct (Py.truthy_opt (doc_http_equiv doc)) eqn:Hhe;
    rewrite ?truthy_opt_present, ?truthy_opt_absent in *;
    eexists _, _;
    (split;
     [repeat first [ apply appends_ret
                   | apply appends_recommend
                   | eapply appends_bind ]|]);
    cbn [lang charset];
    repeat match goal with
           | H : present _ |- _ => destruct H as (? & -> & ?)
           end;
    cbn [fmap option_fmap option_map];
    repeat split; intros;
    repeat match goal with
           | H : Some _ = Some _ |- _ => injection H as <-
           | H : In _ (_ ++ _) |- _ => apply in_app_or in H
           | H : _ \/ _ |- _ => destruct H
           | H : _ /\ _ |- _ => destruct H
           | H : In _ [] |- _ => destruct H
           | H : In _ [_] |- _ => destruct H
           | H : False |- _ => destruct H
           | H : ~ present (Some ?s), H' : ?s <> "" |- _ =>
               exfalso; apply H; exists s; split; [reflexivity | exact H']
           | H : ~ present ?o, H1 : ?o = Some ?s, H2 : ?s <> "" |- _ =>
               exfalso; apply H; exists s; split; [exact H1 | exact H2]
           | H : "Declare a charset (e.g., UTF-8)." = _ |- _ => discriminate H
           | H : _ = "Declare a charset (e.g., UTF-8)." |- _ => discriminate H
           | H : "Set <html lang> attribute for accessibility and SEO." = _
             |- _ => discriminate H
           | H : Some _ = None |- _ => discriminate H
           | H : None = Some _ |- _ => discriminate H
           end;
    try reflexivity; try contradiction; try assumption;
    try (intros (? & [=] & _));
    try (simpl; tauto).
Qed.

(** X8: on a page URL and alternate links without square brackets, the
    hreflang check keeps exactly the alternate links that have both a
    hreflang value and an href value, in document order, with the href
    resolved against the page URL, and recommends an x-default entry
    exactly when it kept some entry and none is x-default in any case. *)
Theorem hreflang_entries base doc :
  no_brackets base ->
  Forall (fun tag : option string * option string =>
            forall h, tag.2 = Some h -> no_brackets h)
         (doc_alternates doc) ->
  exists entries recs,
    appends (_check_hreflang base doc) entries recs
    /\ entries
       = omap (fun tag : option string * option string =>
                 match tag with
                 | (Some lang, Some h) =>
                     if Py.truthy lang && Py.truthy h
                     then Some (lang, Urllib.urljoin base h) else None
                 | _ => None
                 end) (doc_alternates doc)
    /\ (forall lang target,
          In (lang, target) entries <->
          exists h, In (Some lang, Some h) (doc_alternates doc)
                    /\ lang <> "" /\ h <> ""
                    /\ target = _absolute_url base h)
    /\ (List.length entries <= List.length (doc_alternates doc))%nat
    /\ (recs = ["Add x-default hreflang for international pages."]
        <-> entries <> []
            /\ forall e, In e entries -> Py.lower e.1 <> "x-default")
    /\ (recs = [] \/ recs = ["Add x-default hreflang for international pages."]).
Proof.
  intros _ _. unfold _check_hreflang.
  set (keep := fun tag : option string * option string =>
                 if Py.truthy_opt tag.1 && Py.truthy_opt tag.2
                 then Some (default "" tag.1,
                            _absolute_url base (default "" tag.2))
                 else None).
  set (entries := omap keep (doc_alternates doc)).
  exists entries. eexists. split.
  { eapply appends_bind; [apply appends_when | apply appends_ret]. }
  split.
  { unfold entries. clear.
    induction (doc_alternates doc) as [|[[lang|] [h|]] rest IH];
      cbn [omap list_omap]; rewrite <- ?IH; try reflexivity.
    unfold keep. cbn [fst snd Py.truthy_opt]. now rewrite andb_false_r. }
  split.
  { intros lang target. unfold entries.
    rewrite <- list_elem_of_In, list_elem_of_omap. split.
    - intros ([l h] & Hin & Hkeep). unfold keep in Hkeep. cbn [fst snd] in Hkeep.
      destruct (Py.truthy_opt l) eqn:Hl; [|discriminate].
      destruct (Py.truthy_opt h) eqn:Hh; [|discriminate].
      apply truthy_opt_present in Hl as (l' & -> & Hl').
      apply truthy_opt_present in Hh as (h' & -> & Hh').
      injection Hkeep as <- <-.
      exists h'. rewrite <- list_elem_of_In. auto.
    - intros (h & Hin & Hl & Hh & ->).
      exists (Some lang, Some h). rewrite list_elem_of_In. split; [exact Hin|].
      unfold keep. cbn [fst snd Py.truthy_opt].
      now rewrite (truthy_true _ Hl), (truthy_true _ Hh). }
  split.
  { unfold entries. clear.
    induction (doc_alternates doc) as [|tag rest IH]; [reflexivity|].
    cbn [omap list_omap List.length]. destruct (keep tag); cbn [List.length]; lia. }
  rewrite app_nil_r.
  destruct entries as [|e rest] eqn:He.
  { split; [|now left]. split; [discriminate|]. intros [H _]. now elim H. }
  cbn [List.length Nat.eqb negb andb].
  destruct (existsb _ (e :: rest)) eqn:Hx; cbn [negb].
  - split; [|now left]. split; [discriminate|].
    intros [_ Hnone]. exfalso.
    apply existsb_exists in Hx as (x & Hin & Heq).
    apply String.eqb_eq in Heq. exact (Hnone x Hin Heq).
  - split; [|now right]. split; [|reflexivity].
    intros _. split; [discriminate|].
    intros x Hin Heq.
    assert (existsb (fun h : string * string =>
                       String.eqb (Py.lower h.1) "x-default") (e :: rest)
            = true) as Hy.
    { apply existsb_exists. exists x. split; [exact Hin|].
      now apply String.eqb_eq. }
    congruence.
Qed.

Lemma hreflang_entries_witness :
  (no_brackets "https://example.com/"
   /\ Forall (fun tag : option string * option string =>
                forall h, tag.2 = Some h -> no_brackets h)
             (doc_alternates
                (doc_with_alternates
                   [(Some "en", Some "/en/"); (Some "de", None)])))
  /\ exists entries recs,
       appends (_check_hreflang "https://example.com/"
                  (doc_with_alternates
                     [(Some "en", Some "/en/"); (Some "de", None)]))
               entries recs
       /\ entries = [("en", "https://example.com/en/")].
Proof.
  assert (H1 : no_brackets "https://example.com/")
    by (vm_compute; reflexivity).
  assert (H2 : Forall (fun tag : option string * option string =>
                         forall h, tag.2 = Some h -> no_brackets h)
                      (doc_alternates
                         (doc_with_alternates
                            [(Some "en", Some "/en/"); (Some "de", None)]))).
  { repeat constructor.
    - intros h [= <-]. vm_compute. reflexivity.
    - intros h H. discriminate H. }
  split; [exact (conj H1 H2)|].
  destruct (hreflang_entries "https://example.com/"
              (doc_with_alternates
                 [(Some "en", Some "/en/"); (Some "de", None)]) H1 H2)
    as (entries & recs & Hrun & Hentries & _).
  exists entries, recs. split; [exact Hrun|].
  rewrite Hentries. vm_compute. reflexivity.
Defined.

Lemma count_scripts_cons ok b scripts :
  count_scripts ok (b :: scripts)
  = ((if Bool.eqb ok b then 1 else 0) + count_scripts ok scripts)%nat.
Proof. unfold count_scripts. simpl. destruct (Bool.eqb ok b); reflexivity. Qed.

Lemma json_ld_loop_counts scripts blocks errors :
  appends (json_ld_loop scripts blocks errors)
          (blocks + Z.of_nat (count_scripts true scripts),
           errors + Z.of_nat (count_scripts false scripts))
          (repeat "Fix invalid JSON-LD structured data."
                  (count_scripts false scripts)).
Proof.
  revert blocks errors.
  induction scripts as [|[] rest IH]; intros blocks errors.
  - cbn. rewrite !Z.add_0_r. apply appends_ret.
  - cbn [json_ld_loop]. rewrite !count_scripts_cons. cbn [Bool.eqb].
    specialize (IH (blocks + 1) errors).
    replace (blocks + Z.of_nat (1 + count_scripts true rest))
      with (blocks + 1 + Z.of_nat (count_scripts true rest)) by lia.
    exact IH.
  - cbn [json_ld_loop]. rewrite !count_scripts_cons. cbn [Bool.eqb].
    specialize (IH blocks (errors + 1)).
    replace (errors + Z.of_nat (1 + count_scripts false rest))
      with (errors + 1 + Z.of_nat (count_scripts false rest)) by lia.
    cbn [Nat.add repeat].
    change ("Fix invalid JSON-LD structured data."
            :: repeat "Fix invalid JSON-LD structured data."
                      (count_scripts false rest))
      with (["Fix invalid JSON-LD structured data."]
            ++ repeat "Fix invalid JSON-LD structured data."
                      (count_scripts false rest)).
    eapply appends_bind; [apply appends_recommend | exact IH].
Qed.

Lemma count_scripts_total scripts :
  (count_scripts true scripts + count_scripts false scripts
   = List.length scripts)%nat.
Proof.
  induction scripts as [|[] rest IH]; [reflexivity| |];
    rewrite !count_scripts_cons; cbn [Bool.eqb List.length]; lia.
Qed.

(** X9: every JSON-LD script is counted once, as a block when it parses
    and as an error when it does not, and one "Fix invalid JSON-LD"
    recommendation is appended for every error; the Open Graph and
    Twitter Card recommendations are made exactly when the tags are
    missing. *)
Theorem json_ld_blocks_and_errors doc :
  exists social recs,
    appends (_check_social_and_structured doc) social recs
    /\ json_ld_blocks social + json_ld_errors social
       = Z.of_nat (List.length (doc_json_ld doc))
    /\ json_ld_errors social
       = Z.of_nat (count_scripts false (doc_json_ld doc))
    /\ count_occ string_dec recs "Fix invalid JSON-LD structured data."
       = count_scripts false (doc_json_ld doc)
    /\ open_graph social = doc_og doc
    /\ twitter_card social = doc_twitter_card doc
    /\ (In "Add Open Graph tags for better social sharing." recs
        <-> doc_og doc = false)
    /\ (In "Add Twitter Card meta tags." recs
        <-> doc_twitter_card doc = false).
Proof.
  unfold _check_social_and_structured.
  eexists _, _. split.
  { eapply appends_bind; [apply appends_when|].
    eapply appends_bind; [apply appends_when|].
    eapply appends_bind; [apply (json_ld_loop_counts _ 0 0)|].
    apply appends_ret. }
  cbn [json_ld_blocks json_ld_errors open_graph twitter_card].
  pose proof (count_scripts_total (doc_json_ld doc)) as Htotal.
  set (n := count_scripts false (doc_json_ld doc)) in *.
  assert (Hrep : forall s,
             s <> "Fix invalid JSON-LD structured data." ->
             ~ In s (repeat "Fix invalid JSON-LD structured data." n)).
  { intros s Hs Hin. apply repeat_spec in Hin. congruence. }
  assert (Hcount : count_occ string_dec
                     (repeat "Fix invalid JSON-LD structured data." n)
                     "Fix invalid JSON-LD structured data." = n).
  { clear. induction n as [|n IH]; [reflexivity|].
    cbn [repeat]. rewrite count_occ_cons_eq by reflexivity. now rewrite IH. }
  split; [lia|]. split; [lia|].
  rewrite app_nil_r, !count_occ_app, Hcount.
  split.
  { destruct (negb (doc_og doc)); destruct (negb (doc_twitter_card doc));
      reflexivity. }
  split; [reflexivity|]. split; [reflexivity|].
  rewrite !in_app_iff.
  destruct (doc_og doc); destruct (doc_twitter_card doc); cbn [negb];
    split; split; intros H;
    try reflexivity; try discriminate;
    repeat match goal with
           | H : _ \/ _ |- _ => destruct H
           | H : In _ [] |- _ => destruct H
           | H : In _ [_] |- _ => destruct H
           | H : False |- _ => destruct H
           | H : In ?s (repeat _ _) |- _ =>
               exfalso; apply (Hrep s); [discriminate | exact H]
           | H : _ = _ |- _ => discriminate H
           end;
    try (left; left; reflexivity);
    try (right; left; left; reflexivity).
Qed.

(** ** Link sampling *)

(** X10: the importance score of an anchor lies between -5 and 30. *)
Theorem link_score_range a : -5 <= link_score a <= 30.
Proof.
  unfold link_score.
  destruct (in_nav a), (in_main a || in_article a), (in_header a),
    (in_footer a), (existsb _ _), ((3 <? _) && _); lia.
Qed.

Lemma insert_by_score_perm x l : Permutation (insert_by_score x l) (x :: l).
Proof.
  induction l as [|y l IH]; cbn [insert_by_score]; [reflexivity|].
  destruct (y.2 <=? x.2); [reflexivity|].
  rewrite IH. apply perm_swap.
Qed.

Lemma sort_by_score_perm l : Permutation (sort_by_score l) l.
Proof.
  unfold sort_by_score.
  induction l as [|x l IH]; cbn [foldr]; [reflexivity|].
  rewrite insert_by_score_perm. now constructor.
Qed.

Lemma insert_by_score_sorted x l :
  sorted_by_score l -> sorted_by_score (insert_by_score x l).
Proof.
  unfold sorted_by_score.
  induction 1 as [|y l Hl IH Hy]; cbn [insert_by_score].
  - repeat constructor.
  - destruct (y.2 <=? x.2) eqn:E.
    + apply Z.leb_le in E. constructor; [now constructor|].
      constructor; [exact E|].
      eapply List.Forall_impl; [|exact Hy].
      intros z Hz. cbn beta in *. lia.
    + apply Z.leb_gt in E. constructor; [exact IH|].
      rewrite insert_by_score_perm.
      constructor; [lia | exact Hy].
Qed.

Lemma insert_by_score_with_score k x l :
  sorted_by_score l ->
  with_score k (insert_by_score x l) = with_score k (x :: l).
Proof.
  unfold sorted_by_score, with_score.
  induction 1 as [|y l Hl IH Hy]; cbn [insert_by_score]; [reflexivity|].
  destruct (y.2 <=? x.2) eqn:E; [reflexivity|].
  apply Z.leb_gt in E.
  cbn [List.filter] in *. rewrite IH.
  destruct (x.2 =? k) eqn:Hx; [|reflexivity].
  apply Z.eqb_eq in Hx.
  destruct (y.2 =? k) eqn:Hyk; [apply Z.eqb_eq in Hyk; lia|].
  reflexivity.
Qed.

Lemma sort_by_score_sorted l : sorted_by_score (sort_by_score l).
Proof.
  unfold sort_by_score.
  induction l as [|x l IH]; cbn [foldr]; [constructor|].
  now apply insert_by_score_sorted.
Qed.

(** X11: ranking by score is a stable descending sort: the result holds
    the same entries, in descending order of score, and entries with the
    same score keep the order they had in the document. *)
Theorem sort_by_score_stable l :
  Permutation (sort_by_score l) l
  /\ sorted_by_score (sort_by_score l)
  /\ forall k, with_score k (sort_by_score l) = with_score k l.
Proof.
  split; [apply sort_by_score_perm|].
  split; [apply sort_by_score_sorted|].
  intros k. induction l as [|x l IH]; [reflexivity|].
  change (sort_by_score (x :: l))
    with (insert_by_score x (sort_by_score l)).
  rewrite insert_by_score_with_score by apply sort_by_score_sorted.
  unfold with_score in *. cbn [List.filter]. now rewrite IH.
Qed.

Lemma score_anchors_internal anchors h s :
  In (h, s) (score_anchors anchors).1 <->
  exists a, In a anchors /\ href a = h /\ s = link_score a
            /\ skipped_scheme h = false /\ sampled_as_internal h = true.
Proof.
  induction anchors as [|a rest IH]; cbn [score_anchors].
  - split; [intros [] | intros (a & [] & _)].
  - destruct (score_anchors rest) as [si se]. cbn [fst] in IH.
    destruct (skipped_scheme (href a)) eqn:Hskip;
      [|destruct (sampled_as_internal (href a)) eqn:Hint]; cbn [fst].
    + rewrite IH. split; intros (b & Hb & Hrest); exists b.
      * split; [now right | exact Hrest].
      * destruct Hb as [<-|Hb]; [|now split].
        destruct Hrest as (<- & _ & Hs & _). congruence.
    + cbn [In]. rewrite IH. split.
      * intros [[= <- <-]|(b & Hb & Hrest)].
        -- exists a. repeat split; trivial. now left.
        -- exists b. split; [now right | exact Hrest].
      * intros (b & [<-|Hb] & Hrest).
        -- left. destruct Hrest as (<- & -> & _). reflexivity.
        -- right. exists b. now split.
    + rewrite IH. split; intros (b & Hb & Hrest); exists b.
      * split; [now right | exact Hrest].
      * destruct Hb as [<-|Hb]; [|now split].
        destruct Hrest as (<- & _ & _ & Hi). congruence.
Qed.

Lemma score_anchors_external anchors h s :
  In (h, s) (score_anchors anchors).2 <->
  exists a, In a anchors /\ href a = h /\ s = link_score a
            /\ skipped_scheme h = false /\ sampled_as_internal h = false.
Proof.
  induction anchors as [|a rest IH]; cbn [score_anchors].
  - split; [intros [] | intros (a & [] & _)].
  - destruct (score_anchors rest) as [si se]. cbn [snd] in IH.
    destruct (skipped_scheme (href a)) eqn:Hskip;
      [|destruct (sampled_as_internal (href a)) eqn:Hint]; cbn [snd].
    + rewrite IH. split; intros (b & Hb & Hrest); exists b.
      * split; [now right | exact Hrest].
      * destruct Hb as [<-|Hb]; [|now split].
        destruct Hrest as (<- & _ & Hs & _). congruence.
    + rewrite IH. split; intros (b & Hb & Hrest); exists b.
      * split; [now right | exact Hrest].
      * destruct Hb as [<-|Hb]; [|now split].
        destruct Hrest as (<- & _ & _ & Hi). congruence.
    + cbn [In]. rewrite IH. split.
      * intros [[= <- <-]|(b & Hb & Hrest)].
        -- exists a. repeat split; trivial. now left.
        -- exists b. split; [now right | exact Hrest].
      * intros (b & [<-|Hb] & Hrest).
        -- left. destruct Hrest as (<- & -> & _). reflexivity.
        -- right. exists b. now split.
Qed.

Lemma firstn_incl {A} n (l : list A) x : In x (firstn n l) -> In x l.
Proof.
  intros H. rewrite <- (firstn_skipn n l). apply in_or_app. now left.
Qed.

Lemma slice_to_incl {A} n (l : list A) x : In x (Py.slice_to n l) -> In x l.
Proof. unfold Py.slice_to. destruct (0 <=? n); apply firstn_incl. Qed.

Lemma slice_to_all {A} n (l : list A) :
  Z.of_nat (List.length l) <= n -> Py.slice_to n l = l.
Proof.
  intros H. unfold Py.slice_to.
  destruct (0 <=? n) eqn:E; [|apply Z.leb_gt in E; lia].
  apply firstn_all2. lia.
Qed.

Lemma score_anchors_length anchors :
  (List.length (score_anchors anchors).1 <= List.length anchors
   /\ List.length (score_anchors anchors).2 <= List.length anchors)%nat.
Proof.
  induction anchors as [|a rest IH]; cbn [score_anchors]; [split; reflexivity|].
  destruct (score_anchors rest) as [si se]. cbn [fst snd] in IH.
  destruct (skipped_scheme (href a)); [|destruct (sampled_as_internal (href a))];
    cbn [fst snd List.length]; lia.
Qed.

(** X12: every sampled link is the href of an anchor of the page that
    does not start with [javascript:], [mailto:] or [tel:]; the two
    sampled lists share no link; and when the budget is at least the
    number of anchors, every such anchor is sampled. *)
Theorem sampled_links_come_from_anchors doc max_links :
  let internal := (_smart_link_sampling doc max_links).1 in
  let external := (_smart_link_sampling doc max_links).2 in
  (forall h, In h (internal ++ external) ->
             exists a, In a (doc_anchors doc) /\ href a = h
                       /\ skipped_scheme h = false)
  /\ (forall h, In h internal -> ~ In h external)
  /\ (Z.of_nat (List.length (doc_anchors doc)) <= max_links ->
      forall a, In a (doc_anchors doc) -> skipped_scheme (href a) = false ->
                In (href a) (internal ++ external)).
Proof.
  unfold _smart_link_sampling.
  pose proof (score_anchors_internal (doc_anchors doc)) as Hint.
  pose proof (score_anchors_external (doc_anchors doc)) as Hext.
  pose proof (score_anchors_length (doc_anchors doc)) as [Hli Hle].
  destruct (score_anchors (doc_anchors doc)) as [si se].
  cbn [fst snd] in *. cbv zeta.
  assert (Hin_i : forall h, In h (List.map fst (Py.slice_to max_links
                                                  (sort_by_score si))) ->
                            exists s, In (h, s) si).
  { intros h Hh. apply in_map_iff in Hh as ([h' s] & <- & Hh).
    apply slice_to_incl in Hh.
    exists s. eapply Permutation_in; [apply sort_by_score_perm | exact Hh]. }
  assert (Hin_e : forall h, In h (List.map fst (Py.slice_to max_links
                                                  (sort_by_score se))) ->
                            exists s, In (h, s) se).
  { intros h Hh. apply in_map_iff in Hh as ([h' s] & <- & Hh).
    apply slice_to_incl in Hh.
    exists s. eapply Permutation_in; [apply sort_by_score_perm | exact Hh]. }
  split; [|split].
  - intros h Hh. apply in_app_or in Hh as [Hh|Hh].
    + apply Hin_i in Hh as (s & Hs). apply Hint in Hs as (a & Ha & Hhref & _ & Hsk & _).
      exists a. auto.
    + apply Hin_e in Hh as (s & Hs). apply Hext in Hs as (a & Ha & Hhref & _ & Hsk & _).
      exists a. auto.
  - intros h Hi He.
    apply Hin_i in Hi as (s & Hs). apply Hint in Hs as (_ & _ & _ & _ & _ & Ht).
    apply Hin_e in He as (s' & Hs'). apply Hext in Hs' as (_ & _ & _ & _ & _ & Hf).
    congruence.
  - intros Hbudget a Ha Hskip.
    rewrite !slice_to_all
      by (rewrite (Permutation_length (sort_by_score_perm _)); lia).
    apply in_or_app.
    destruct (sampled_as_internal (href a)) eqn:Hc; [left | right];
      apply in_map_iff; exists (href a, link_score a);
      (split; [reflexivity|]);
      (eapply Permutation_in; [symmetry; apply sort_by_score_perm|]).
    + apply Hint. exists a. auto.
    + apply Hext. exists a. auto.
Qed.

Lemma not_in_extended (x y : string) (seen : gset string) :
  x ∉ {[y]} ∪ seen <-> x <> y /\ x ∉ seen.
Proof.
  rewrite elem_of_union, elem_of_singleton. tauto.
Qed.

Lemma unique_from_in seen xs x :
  In x (unique_from seen xs) <-> In x xs /\ x ∉ seen.
Proof.
  revert seen. induction xs as [|y xs IH]; intros seen; cbn [unique_from].
  - cbn. tauto.
  - destruct (decide (y ∈ seen)) as [Hy|Hy].
    + rewrite IH. cbn [In]. split.
      * intros [H1 H2]. auto.
      * intros [[->|H1] H2]; [contradiction | auto].
    + cbn [In]. rewrite IH, not_in_extended. split.
      * intros [->|[H1 [H2 H3]]]; auto.
      * intros [[->|H1] H2]; [now left|].
        destruct (decide (x = y)) as [->|Hne]; [now left | auto].
Qed.

Lemma unique_from_NoDup seen xs : List.NoDup (unique_from seen xs).
Proof.
  revert seen. induction xs as [|y xs IH]; intros seen; cbn [unique_from].
  - constructor.
  - destruct (decide (y ∈ seen)); [apply IH|].
    constructor; [|apply IH].
    rewrite unique_from_in, not_in_extended. intros [_ [H _]]. now apply H.
Qed.

Lemma unique_from_fixed seen xs :
  List.NoDup xs -> (forall x, In x xs -> x ∉ seen) ->
  unique_from seen xs = xs.
Proof.
  intros Hnd. revert seen.
  induction Hnd as [|y xs Hy Hnd IH]; intros seen Hseen; cbn [unique_from];
    [reflexivity|].
  destruct (decide (y ∈ seen)) as [Hin|Hin].
  - exfalso. apply (Hseen y); [now left | exact Hin].
  - f_equal. apply IH. intros x Hx.
    apply not_in_extended. split.
    + intros ->. contradiction.
    + apply Hseen. now right.
Qed.

(** X13: deduplication keeps exactly the elements of its input, each
    once; it leaves a list without duplicates unchanged, so it is
    idempotent; and it never makes the list longer. *)
Theorem unique_removes_duplicates xs :
  List.NoDup (unique xs)
  /\ (forall x, In x (unique xs) <-> In x xs)
  /\ (List.NoDup xs -> unique xs = xs)
  /\ unique (unique xs) = unique xs
  /\ (List.length (unique xs) <= List.length xs)%nat.
Proof.
  assert (Hfixed : forall l, List.NoDup l -> unique l = l).
  { intros l Hl. apply unique_from_fixed; [exact Hl|].
    intros x _. apply not_elem_of_empty. }
  split; [apply unique_from_NoDup|].
  split.
  { intros x. unfold unique. rewrite unique_from_in.
    pose proof (not_elem_of_empty (C := gset string) x). tauto. }
  split; [apply Hfixed|].
  split; [apply Hfixed, unique_from_NoDup | apply unique_length].
Qed.

(** ** Outcomes of link validation *)

Lemma add_broken_sound base batch link status b :
  outcomes_sound base batch b -> In link batch -> status = 0 \/ 400 <= status ->
  outcomes_sound base batch (add_broken base link status b).
Proof.
  intros (Hi & He & Hr) Hin Hs. unfold add_broken, outcomes_sound.
  destruct (_is_internal base link) eqn:E; cbn [all_broken_internal
    all_broken_external all_redirects];
    repeat split; trivial; apply Forall_app; (split; [assumption|]);
    constructor; [|constructor| |constructor]; cbn [fst snd]; auto.
Qed.

Lemma record_outcome_sound base batch b f :
  outcomes_sound base batch b -> In f.1 batch ->
  outcomes_sound base batch (record_outcome base b f).
Proof.
  intros Hb Hin. destruct f as [link [r|]]; cbn [record_outcome fst] in *.
  - destruct ((300 <=? status_code r) && (status_code r <? 400)) eqn:Hred;
      destruct (400 <=? status_code r) eqn:Herr;
      rewrite ?andb_true_iff, ?Z.leb_le, ?Z.ltb_lt in *.
    + lia.
    + destruct Hb as (Hi & He & Hr). repeat split; trivial.
      cbn [add_redirect all_redirects]. apply Forall_app. split; [exact Hr|].
      constructor; [|constructor]. cbn [fst snd]. split; [exact Hin | lia].
    + apply add_broken_sound; auto.
    + exact Hb.
  - apply add_broken_sound; auto.
Qed.

Lemma add_broken_outcomes base link status b :
  outcomes (add_broken base link status b) = S (outcomes b).
Proof.
  unfold add_broken, outcomes. destruct (_is_internal base link);
    cbn [all_broken_internal all_broken_external all_redirects];
    rewrite length_app; cbn [List.length]; lia.
Qed.

Lemma record_outcome_outcomes base b f :
  (outcomes (record_outcome base b f) <= S (outcomes b))%nat.
Proof.
  destruct f as [link [r|]]; cbn [record_outcome].
  - destruct ((300 <=? status_code r) && (status_code r <? 400)) eqn:Hred;
      destruct (400 <=? status_code r) eqn:Herr;
      rewrite ?andb_true_iff, ?Z.leb_le, ?Z.ltb_lt in *.
    + lia.
    + unfold outcomes, add_redirect.
      cbn [all_broken_internal all_broken_external all_redirects].
      rewrite length_app. cbn [List.length]. lia.
    + rewrite add_broken_outcomes. lia.
    + lia.
  - rewrite add_broken_outcomes. lia.
Qed.

Lemma fold_record_outcome_sound base batch fs b :
  outcomes_sound base batch b ->
  Forall (fun f : future => In f.1 batch) fs ->
  outcomes_sound base batch (fold_left (record_outcome base) fs b)
  /\ (outcomes (fold_left (record_outcome base) fs b)
      <= outcomes b + List.length fs)%nat.
Proof.
  intros Hb Hfs. revert b Hb.
  induction Hfs as [|f fs Hf _ IH]; intros b Hb; cbn [fold_left List.length].
  - split; [exact Hb | lia].
  - destruct (IH _ (record_outcome_sound base batch b f Hb Hf)) as [Hs Hn].
    split; [exact Hs|].
    pose proof (record_outcome_outcomes base b f). lia.
Qed.

Lemma firstn_Forall {A} (P : A -> Prop) n l :
  Forall P l -> Forall P (firstn n l).
Proof.
  intros H. apply List.Forall_forall. intros x Hx.
  apply firstn_incl in Hx. revert x Hx. now apply List.Forall_forall.
Qed.

(** X14: when the pool yields the futures it was given, the outcome
    lists are sound: every entry is one of the validated links; a broken
    entry carries status 0 or a status of 400 or more and sits in the
    internal list exactly when the link is internal to the audited page;
    a redirect entry carries a status from 300 to 399; the three lists
    together have at most one entry per validated link; and each
    reported list is the first 10 entries of its bucket. *)
Theorem link_outcomes_sound env base doc max_links workers w :
  0 < workers -> completes_all env ->
  let batch := (validated_links doc max_links).1
               ++ (validated_links doc max_links).2 in
  let b := link_buckets env base doc max_links in
  exists lnk w',
    _check_links env base doc max_links workers w = (Ok lnk, w')
    /\ outcomes_sound base batch b
    /\ (outcomes b <= List.length batch)%nat
    /\ broken_internal lnk = firstn 10 (all_broken_internal b)
    /\ broken_external lnk = firstn 10 (all_broken_external b)
    /\ redirects lnk = firstn 10 (all_redirects b)
    /\ (List.length (broken_internal lnk) <= 10)%nat
    /\ (List.length (broken_external lnk) <= 10)%nat
    /\ (List.length (redirects lnk) <= 10)%nat.
Proof.
  intros Hw Hperm batch b.
  eexists _, _. split; [apply (_check_links_run _ _ _ _ _ _ Hw)|].
  cbn [broken_internal broken_external redirects].
  assert (Hb : outcomes_sound base batch b
               /\ (outcomes b <= List.length batch)%nat).
  { unfold b, batch, link_buckets.
    destruct (validated_links doc max_links) as [internal external].
    cbn [fst snd].
    set (fs := List.map (fun link => (link, probe env link))
                        (internal ++ external)).
    destruct (fold_record_outcome_sound base (internal ++ external)
                (as_completed env fs) empty_buckets) as [Hs Hn].
    - repeat split; constructor.
    - apply List.Forall_forall. intros f Hf.
      apply (Permutation_in _ (Hperm _)) in Hf.
      unfold fs in Hf. apply in_map_iff in Hf as (u & <- & Hu). exact Hu.
    - split; [exact Hs|].
      rewrite (Permutation_length (Hperm fs)) in Hn.
      unfold fs in Hn. rewrite length_map in Hn. exact Hn. }
  destruct Hb as [Hs Hn].
  split; [exact Hs|]. split; [exact Hn|].
  repeat (split; [reflexivity|]).
  repeat split; apply firstn_le_length.
Qed.

Lemma link_outcomes_sound_witness :
  (0 < 10 /\ completes_all links_env)
  /\ exists lnk w',
       _check_links links_env "https://example.com" links_doc 25 10
                    initial_world = (Ok lnk, w')
       /\ (List.length (broken_internal lnk) <= 10)%nat
       /\ outcomes_sound "https://example.com"
            ((validated_links links_doc 25).1
             ++ (validated_links links_doc 25).2)
            (link_buckets links_env "https://example.com" links_doc 25).
Proof.
  assert (Hw : 0 < 10) by lia.
  assert (Hc : completes_all links_env) by apply env_of_completes_all.
  split; [exact (conj Hw Hc)|].
  destruct (link_outcomes_sound links_env "https://example.com" links_doc 25
              10 initial_world Hw Hc)
    as (lnk & w' & Hrun & Hsound & _ & _ & _ & _ & Hlen & _).
  exists lnk, w'. exact (conj Hrun (conj Hlen Hsound)).
Defined.

Lemma probe_requests_shape env u :
  (List.length (probe_requests env u) <= 2)%nat
  /\ Forall (fun rq => req_url rq = u /\ req_timeout rq = LINK_TIMEOUT)
            (probe_requests env u).
Proof.
  destruct (probe_requests_spec env u) as (retry & -> & [->| ->] & _);
    cbn [List.length]; (split; [lia|]); repeat constructor.
Qed.

Lemma batch_requests_shape env batch :
  (List.length (concat (List.map (probe_requests env) batch))
   <= 2 * List.length batch)%nat
  /\ Forall (fun rq => In (req_url rq) batch
                       /\ req_timeout rq = LINK_TIMEOUT)
            (concat (List.map (probe_requests env) batch)).
Proof.
  induction batch as [|u rest [IHn IHf]]; cbn [List.map concat List.length].
  - split; [lia | constructor].
  - destruct (probe_requests_shape env u) as [Hn Hf].
    rewrite length_app. split; [lia|].
    apply Forall_app. split.
    + eapply List.Forall_impl; [|exact Hf].
      intros rq [-> Ht]. split; [now left | exact Ht].
    + eapply List.Forall_impl; [|exact IHf].
      intros rq [Hin Ht]. split; [now right | exact Ht].
Qed.

Lemma pool_requests_shape env batch :
  (List.length (schedule env (List.map (probe_requests env) batch))
   <= 2 * List.length batch)%nat
  /\ Forall (fun rq => In (req_url rq) batch
                       /\ req_timeout rq = LINK_TIMEOUT)
            (schedule env (List.map (probe_requests env) batch)).
Proof.
  destruct (batch_requests_shape env batch) as [Hlen Hall].
  destruct (schedule_interleaving env (List.map (probe_requests env) batch))
    as [Hperm _].
  split.
  - rewrite (Permutation_length Hperm). exact Hlen.
  - apply List.Forall_forall. intros rq Hin.
    apply (Permutation_in _ Hperm) in Hin.
    exact (proj1 (List.Forall_forall _ _) Hall rq Hin).
Qed.

(** X15: link checking with a budget of [max_links >= 0] issues at most
    four requests per unit of budget (a HEAD and at most one GET for at
    most [max_links] internal and [max_links] external links), each to a
    validated link and each with a timeout of 3 seconds; it creates one
    pool and touches nothing else but the recommendation list. *)
Theorem link_checking_network_budget env base doc max_links workers w :
  0 <= max_links -> 0 < workers ->
  exists lnk w' new_requests,
    _check_links env base doc max_links workers w = (Ok lnk, w')
    /\ requests w' = requests w ++ new_requests
    /\ pools w' = pools w ++ [workers]
    /\ Z.of_nat (List.length new_requests) <= 4 * max_links
    /\ Forall (fun rq =>
                 In (req_url rq) ((validated_links doc max_links).1
                                  ++ (validated_links doc max_links).2)
                 /\ req_timeout rq = 3) new_requests.
Proof.
  intros Hn Hw.
  eexists _, _, _. split; [apply (_check_links_run _ _ _ _ _ _ Hw)|].
  cbn [requests pools add_recommendations add_requests add_pool].
  split; [reflexivity|]. split; [reflexivity|].
  destruct (pool_requests_shape env
              ((validated_links doc max_links).1
               ++ (validated_links doc max_links).2)) as [Hlen Hall].
  split; [|exact Hall].
  pose proof (_smart_link_sampling_length doc max_links Hn) as [Hi He].
  pose proof (unique_length (_smart_link_sampling doc max_links).1) as Hui.
  pose proof (unique_length (_smart_link_sampling doc max_links).2) as Hue.
  rewrite length_app in Hlen. unfold validated_links in *.
  cbn [fst snd] in *. lia.
Qed.

Lemma link_checking_network_budget_witness :
  (0 <= 25 /\ 0 < 10)
  /\ exists lnk w' new_requests,
       _check_links links_env "https://example.com" links_doc 25 10
                    initial_world = (Ok lnk, w')
       /\ requests w' = requests initial_world ++ new_requests
       /\ Z.of_nat (List.length new_requests) <= 4 * 25.
Proof.
  assert (Hn : 0 <= 25) by lia.
  assert (Hw : 0 < 10) by lia.
  split; [exact (conj Hn Hw)|].
  destruct (link_checking_network_budget links_env "https://example.com"
              links_doc 25 10 initial_world Hn Hw)
    as (lnk & w' & new & Hrun & Hreq & _ & Hlen & _).
  exists lnk, w', new. exact (conj Hrun (conj Hreq Hlen)).
Defined.

(** ** What makes the audit raise *)

Lemma raises_bind_first {A B} (m : M A) (f : A -> M B) :
  raises m -> raises (m ≫= f).
Proof.
  intros Hm w. destruct (Hm w) as (e & w' & H).
  exists e, w'. unfold mbind, M_bind. now rewrite H.
Qed.

Lemma raises_bind_any {A B} (m : M A) (f : A -> M B) :
  (forall a, raises (f a)) -> raises (m ≫= f).
Proof.
  intros Hf w. unfold mbind, M_bind.
  destruct (m w) as [[a|e] w1]; [apply Hf | eauto].
Qed.

Lemma _check_links_nonpositive_workers env base doc max_links workers w :
  workers <= 0 ->
  _check_links env base doc max_links workers w
  = (Raise (ValueError "max_workers must be greater than 0"), w).
Proof.
  intros H. unfold _check_links, validate_links.
  destruct (_smart_link_sampling doc max_links) as [internal external].
  apply Z.leb_le in H. rewrite H. reflexivity.
Qed.

(** X16: with a worker count of 0 or less the pool cannot be created:
    link checking raises ValueError before any request is made, leaving
    the recommendation list as it was, and the audit of any page that was
    fetched raises instead of returning a report, whatever the link
    budget. *)
Theorem nonpositive_workers_raise env workers :
  workers <= 0 ->
  (forall base doc max_links w,
     _check_links env base doc max_links workers w
     = (Raise (ValueError "max_workers must be greater than 0"), w))
  /\ (forall url0 max_links page,
        send env (page_request url0) = inr page -> status_code page < 400 ->
        exists e w, seo_audit env url0 max_links workers initial_world
                    = (Raise e, w)).
Proof.
  intros Hw. split.
  { intros. now apply _check_links_nonpositive_workers. }
  intros url0 max_links page Hpage Hstatus.
  unfold page_request in Hpage. unfold seo_audit.
  remember (_ensure_url_scheme (Py.strip url0)) as u eqn:Hu.
  cbv zeta.
  rewrite (bind_ok _ _ _ _ _ (_fetch_run env _ PAGE_TIMEOUT initial_world)).
  cbv zeta. rewrite Hpage. cbv beta iota.
  assert (Hlow : (400 <=? status_code page) = false) by (apply Z.leb_gt; lia).
  unfold response_ok. rewrite Hlow. cbn [andb negb].
  match goal with |- exists e w, ?m ?w0 = _ => cut (raises m) end.
  { intros H. apply H. }
  repeat match goal with
         | |- raises (match ?x with _ => _ end) => destruct x
         | |- raises (_check_links _ _ _ _ _ ≫= _) =>
             apply raises_bind_first; intros w;
             eexists _, _; now apply _check_links_nonpositive_workers
         | |- raises (_ ≫= _) => apply raises_bind_any; intros ?
         end.
Qed.

Lemma nonpositive_workers_raise_witness :
  0 <= 0
  /\ exists e w, seo_audit e2e_env "example.com" 0 0 initial_world
                 = (Raise e, w).
Proof.
  assert (H : 0 <= 0) by lia.
  split; [exact H|].
  destruct (nonpositive_workers_raise e2e_env 0 H) as [_ Hrun].
  apply (Hrun "example.com" 0 e2e_page).
  - vm_compute. reflexivity.
  - change (200 < 400). lia.
Defined.

(** Every check that looks only at the document returns and only appends
    recommendations. *)
Ltac only_recommends :=
  unfold only_recommends;
  repeat match goal with
         | |- context [if ?c then _ else _] => destruct c
         | |- context [match ?x with Some _ => _ | None => _ end] =>
             destruct x
         end;
  eexists _, _;
  repeat first [ apply appends_ret
               | apply appends_recommend
               | apply appends_when
               | apply appends_flag
               | apply json_ld_loop_counts
               | eapply appends_bind ].

Lemma _check_title_only_recommends doc : only_recommends (_check_title doc).
Proof. unfold _check_title. only_recommends. Qed.

Lemma _check_meta_description_only_recommends doc :
  only_recommends (_check_meta_description doc).
Proof. unfold _check_meta_description. only_recommends. Qed.

Lemma _check_h1_only_recommends doc : only_recommends (_check_h1 doc).
Proof. unfold _check_h1. only_recommends. Qed.

Lemma _check_images_only_recommends doc : only_recommends (_check_images doc).
Proof. unfold _check_images. only_recommends. Qed.

Lemma _check_canonical_only_recommends base doc :
  only_recommends (_check_canonical base doc).
Proof. unfold _check_canonical. only_recommends. Qed.

Lemma _check_viewport_only_recommends doc :
  only_recommends (_check_viewport doc).
Proof. unfold _check_viewport. only_recommends. Qed.

Lemma _check_meta_robots_only_recommends doc :
  only_recommends (_check_meta_robots doc).
Proof. unfold _check_meta_robots. only_recommends. Qed.

Lemma _check_social_only_recommends doc :
  only_recommends (_check_social_and_structured doc).
Proof.
  unfold _check_social_and_structured, only_recommends.
  eexists _, _.
  eapply appends_bind; [apply appends_when|].
  eapply appends_bind; [apply appends_when|].
  eapply appends_bind; [apply (json_ld_loop_counts _ 0 0) | apply appends_ret].
Qed.

Lemma bind_raise {A B} (m : M A) (f : A -> M B) w e w' :
  m w = (Raise e, w') -> (m ≫= f) w = (Raise e, w').
Proof. intros H. unfold mbind, M_bind. now rewrite H. Qed.

Lemma _check_technical_headers_bad_length u response elapsed s w :
  lower_headers (headers response) !! "content-length" = Some s ->
  s <> "" -> Py.int_of_str s = None ->
  _check_technical_headers u response elapsed w
  = (Raise (IntValueError s), w).
Proof.
  intros Hs Hne Hint. unfold _check_technical_headers. cbv zeta.
  rewrite Hs. cbn [Py.truthy_opt from_option]. unfold id.
  rewrite (truthy_true _ Hne), Hint. reflexivity.
Qed.

(** Runs one check that only recommends, naming its result. *)
Ltac run_check lemma :=
  let a := fresh "a" in
  let recs := fresh "recs" in
  let H := fresh "Hrun" in
  destruct lemma as (a & recs & H);
  rewrite (appends_run _ _ _ _ _ H); clear H;
  try (destruct a as [? ?]); cbv beta iota.

(** X17: a Content-Length header with a value that [int] does not
    accept makes the technical check raise the ValueError of [int] for
    that value, without appending any recommendation, and the audit of
    that page raises it too: no report is returned, and robots.txt, the
    sitemap and the links are never requested.  (The URL and the
    canonical link of the page are taken without square brackets, so
    that no URL is rejected before.) *)
Theorem malformed_content_length_raises env url0 max_links workers page s :
  no_brackets url0 ->
  (forall raw, doc_canonical (soup page) = Some raw -> no_brackets raw) ->
  send env (page_request url0) = inr page -> status_code page < 400 ->
  lower_headers (headers page) !! "content-length" = Some s ->
  s <> "" -> Py.int_of_str s = None ->
  (forall u elapsed w,
     _check_technical_headers u page elapsed w
     = (Raise (IntValueError s), w))
  /\ exists w,
       seo_audit env url0 max_links workers initial_world
       = (Raise (IntValueError s), w)
       /\ requests w = [page_request url0] /\ pools w = [].
Proof.
  intros _ _ Hpage Hstatus Hs Hne Hint. split.
  { intros. now apply (_check_technical_headers_bad_length _ _ _ s). }
  unfold page_request in *. unfold seo_audit.
  remember (_ensure_url_scheme (Py.strip url0)) as u eqn:Hu.
  cbv zeta.
  rewrite (bind_ok _ _ _ _ _ (_fetch_run env _ PAGE_TIMEOUT initial_world)).
  cbv zeta. rewrite Hpage. cbv beta iota.
  assert (Hlow : (400 <=? status_code page) = false) by (apply Z.leb_gt; lia).
  unfold response_ok. rewrite Hlow. cbn [andb negb].
  run_check (_check_title_only_recommends (soup page)).
  run_check (_check_meta_description_only_recommends (soup page)).
  run_check (_check_h1_only_recommends (soup page)).
  run_check (_check_images_only_recommends (soup page)).
  run_check (_check_canonical_only_recommends u (soup page)).
  run_check (_check_viewport_only_recommends (soup page)).
  run_check (_check_meta_robots_only_recommends (soup page)).
  run_check (_check_lang_and_charset_appends (soup page)).
  run_check (_check_hreflang_appends u (soup page)).
  run_check (_check_social_only_recommends (soup page)).
  rewrite (bind_raise _ _ _ _ _
             (_check_technical_headers_bad_length _ _ _ s _ Hs Hne Hint)).
  eexists. split; [reflexivity|]. split; reflexivity.
Qed.

Lemma malformed_content_length_raises_witness :
  (no_brackets "example.com"
   /\ (forall raw, doc_canonical (soup bad_length_page) = Some raw ->
                   no_brackets raw)
   /\ send bad_length_env (page_request "example.com") = inr bad_length_page
   /\ status_code bad_length_page < 400
   /\ lower_headers (headers bad_length_page) !! "content-length"
      = Some "unknown"
   /\ "unknown" <> "" /\ Py.int_of_str "unknown" = None)
  /\ exists w,
       seo_audit bad_length_env "example.com" 25 10 initial_world
       = (Raise (IntValueError "unknown"), w)
       /\ requests w = [page_request "example.com"] /\ pools w = [].
Proof.
  assert (Hb : no_brackets "example.com") by (vm_compute; reflexivity).
  assert (Hc : forall raw, doc_canonical (soup bad_length_page) = Some raw ->
                           no_brackets raw)
    by (intros raw H; discriminate H).
  assert (H1 : send bad_length_env (page_request "example.com")
               = inr bad_length_page) by reflexivity.
  assert (H2 : status_code bad_length_page < 400)
    by (change (200 < 400); lia).
  assert (H3 : lower_headers (headers bad_length_page) !! "content-length"
               = Some "unknown") by (vm_compute; reflexivity).
  assert (H4 : "unknown" <> "") by discriminate.
  assert (H5 : Py.int_of_str "unknown" = None) by (vm_compute; reflexivity).
  split; [exact (conj Hb (conj Hc (conj H1 (conj H2 (conj H3 (conj H4 H5))))))|].
  exact (proj2 (malformed_content_length_raises bad_length_env "example.com"
                  25 10 bad_length_page "unknown" Hb Hc H1 H2 H3 H4 H5)).
Defined.

(** ** Header lookup *)

Lemma lower_headers_lookup hs (m : gmap string string) name :
  is_Some (fold_left (fun m kv => <[Py.lower kv.1 := kv.2]> m) hs m !! name)
  <-> is_Some (m !! name) \/ has_header hs name.
Proof.
  unfold has_header. revert m.
  induction hs as [|[k v] hs IH]; intros m; cbn [fold_left].
  - split; [now left | intros [H|(k & v & [] & _)]; exact H].
  - rewrite IH. cbn [fst snd]. split.
    + intros [H|(k' & v' & Hin & Hk)].
      * destruct (decide (Py.lower k = name)) as [E|E].
        -- right. exists k, v. split; [now left | exact E].
        -- rewrite lookup_insert_ne in H by exact E. now left.
      * right. exists k', v'. split; [now right | exact Hk].
    + intros [H|(k' & v' & [[= <- <-]|Hin] & Hk)].
      * left. destruct (decide (Py.lower k = name)) as [<-|E].
        -- rewrite lookup_insert_eq. eauto.
        -- now rewrite lookup_insert_ne by exact E.
      * left. rewrite <- Hk, lookup_insert_eq. eauto.
      * right. exists k', v'. split; [exact Hin | exact Hk].
Qed.

Lemma lower_headers_is_Some hs name :
  is_Some (lower_headers hs !! name) <-> has_header hs name.
Proof.
  unfold lower_headers. rewrite lower_headers_lookup, lookup_empty.
  split; [intros [H|H]; [now apply is_Some_None in H | exact H] | now right].
Qed.

(** X18: response headers are looked up by name without regard to case:
    whenever the technical check returns, it reports HSTS, X-Frame-Options,
    Referrer-Policy and Content-Security-Policy as present exactly when
    the response has a header of that name in some case, and it reports
    the status code and the elapsed time as it was given them. *)
Theorem security_headers_case_insensitive u response elapsed w tech w' :
  _check_technical_headers u response elapsed w = (Ok tech, w') ->
  (hsts tech = true
   <-> has_header (headers response) "strict-transport-security")
  /\ (x_frame_options tech = true
      <-> has_header (headers response) "x-frame-options")
  /\ (referrer_policy tech = true
      <-> has_header (headers response) "referrer-policy")
  /\ (csp tech = true
      <-> has_header (headers response) "content-security-policy")
  /\ tech_status_code tech = status_code response
  /\ response_time_ms tech = elapsed.
Proof.
  unfold _check_technical_headers. cbv zeta.
  destruct (if Py.truthy_opt _ then _ else _) as [len|]; [|discriminate].
  intros H.
  repeat match type of H with
         | (_ ≫= _) _ = _ =>
             apply bind_inv in H as (? & ? & _ & H)
         end.
  injection H as <- _.
  cbn [hsts x_frame_options referrer_policy csp tech_status_code
       response_time_ms].
  rewrite !bool_decide_eq_true, !lower_headers_is_Some.
  repeat split; trivial.
Qed.

Lemma security_headers_case_insensitive_witness :
  exists tech w',
    _check_technical_headers "https://example.com" e2e_page 120 initial_world
    = (Ok tech, w')
    /\ (x_frame_options tech = true
        <-> has_header (headers e2e_page) "x-frame-options").
Proof.
  eexists _, _.
  assert (H : _check_technical_headers "https://example.com" e2e_page 120
                initial_world
              = ((_check_technical_headers "https://example.com" e2e_page 120
                    initial_world).1,
                 (_check_technical_headers "https://example.com" e2e_page 120
                    initial_world).2))
    by (destruct (_check_technical_headers _ _ _ _); reflexivity).
  assert (Hok : (_check_technical_headers "https://example.com" e2e_page 120
                   initial_world).1
                = Ok {| tech_status_code := 200; response_time_ms := 120;
                        content_length := 5120; gzip := false; hsts := false;
                        x_content_type_options := true;
                        x_frame_options := true; referrer_policy := true;
                        csp := true; server := None;
                        cache_control := None |})
    by (vm_compute; reflexivity).
  rewrite Hok in H.
  split; [exact H|].
  exact (proj1 (proj2 (security_headers_case_insensitive _ _ _ _ _ _ H))).
Defined.

(** ** robots.txt and sitemap.xml *)

Lemma is_200_spec env u :
  is_200 (match send env (probe_get u) with
          | inr response => Some response
          | inl _ => None
          end) = true <-> answers_200 env u.
Proof.
  unfold answers_200, is_200, response_ok.
  destruct (send env (probe_get u)) as [exc|r].
  - split; [discriminate | intros (r & [=] & _)].
  - split.
    + intros H. apply andb_true_iff in H as [_ H]. apply Z.eqb_eq in H.
      now exists r.
    + intros (r' & [= <-] & H). rewrite H. reflexivity.
Qed.

Lemma sitemap_probe_run env sitemap_url robots notes w :
  exists state,
    ('(s_resp, _, _) ← _fetch env sitemap_url PROBE_TIMEOUT;
     if is_200 s_resp then
       mret {| robots_txt := robots; sitemap := "Present";
               robots_notes := notes |}
     else
       _ ← recommend "Missing sitemap.xml file.";
       mret {| robots_txt := robots; sitemap := "Missing";
               robots_notes := notes |}) w
    = (Ok {| robots_txt := robots; sitemap := state; robots_notes := notes |},
       add_recommendations (add_requests w [probe_get sitemap_url])
         (missing_file state "Missing sitemap.xml file."))
    /\ (state = "Present" <-> answers_200 env sitemap_url)
    /\ (state = "Present" \/ state = "Missing").
Proof.
  pose proof (is_200_spec env sitemap_url) as Hs.
  rewrite (bind_ok _ _ _ _ _ (_fetch_run env sitemap_url PROBE_TIMEOUT w)).
  cbv zeta.
  change {| req_method := GET; req_url := sitemap_url;
            req_timeout := PROBE_TIMEOUT |} with (probe_get sitemap_url).
  destruct (send env (probe_get sitemap_url)) as [exc|r]; cbv beta iota.
  - exists "Missing". split; [reflexivity|]. split; [|now right].
    split; [discriminate|]. intros H. apply Hs in H. discriminate H.
  - destruct (is_200 (Some r)) eqn:E.
    + exists "Present". split.
      * unfold add_recommendations, missing_file. cbn.
        now rewrite app_nil_r.
      * split; [|now left]. split; [intros _; now apply Hs | reflexivity].
    + exists "Missing". split; [reflexivity|]. split; [|now right].
      split; [discriminate|]. intros H. apply Hs in H. discriminate H.
Qed.

Lemma _check_robots_and_sitemap_run env base w :
  let robots_url := Urllib.urljoin base "/robots.txt" in
  let sitemap_url := Urllib.urljoin base "/sitemap.xml" in
  exists rs,
    _check_robots_and_sitemap env base w
    = (Ok rs,
       add_recommendations
         (add_requests w [probe_get robots_url; probe_get sitemap_url])
         (missing_file (robots_txt rs) "Missing robots.txt file."
          ++ missing_file (sitemap rs) "Missing sitemap.xml file."))
    /\ (robots_txt rs = "Present" <-> answers_200 env robots_url)
    /\ (robots_txt rs = "Present" \/
        robots_txt rs = "Missing" /\ robots_notes rs = [])
    /\ (sitemap rs = "Present" <-> answers_200 env sitemap_url)
    /\ (sitemap rs = "Present" \/ sitemap rs = "Missing").
Proof.
  intros robots_url sitemap_url.
  pose proof (is_200_spec env robots_url) as Hr.
  unfold _check_robots_and_sitemap. fold robots_url sitemap_url.
  rewrite (bind_ok _ _ _ _ _ (_fetch_run env robots_url PROBE_TIMEOUT w)).
  cbv zeta.
  change {| req_method := GET; req_url := robots_url;
            req_timeout := PROBE_TIMEOUT |} with (probe_get robots_url).
  set (w1 := {| recommendations := recommendations w;
                requests := requests w ++ [probe_get robots_url];
                pools := pools w |}).
  assert (Hmissing :
            forall resp,
              is_200 resp = false ->
              (is_200 resp = true <-> answers_200 env robots_url) ->
              exists rs,
                (('(robots, notes) ←
                    (_ ← recommend "Missing robots.txt file.";
                     mret ("Missing", []));
                  '(s_resp, _, _) ← _fetch env sitemap_url PROBE_TIMEOUT;
                  if is_200 s_resp then
                    mret {| robots_txt := robots; sitemap := "Present";
                            robots_notes := notes |}
                  else
                    _ ← recommend "Missing sitemap.xml file.";
                    mret {| robots_txt := robots; sitemap := "Missing";
                            robots_notes := notes |}) w1
                 = (Ok rs,
                    add_recommendations
                      (add_requests w
                         [probe_get robots_url; probe_get sitemap_url])
                      (missing_file (robots_txt rs) "Missing robots.txt file."
                       ++ missing_file (sitemap rs)
                            "Missing sitemap.xml file."))
                /\ (robots_txt rs = "Present" <-> answers_200 env robots_url)
                /\ (robots_txt rs = "Present" \/
                    robots_txt rs = "Missing" /\ robots_notes rs = [])
                /\ (sitemap rs = "Present" <-> answers_200 env sitemap_url)
                /\ (sitemap rs = "Present" \/ sitemap rs = "Missing"))).
  { intros resp E H200.
    assert (Hrec : (_ ← recommend "Missing robots.txt file.";
                    mret ("Missing", @nil string)) w1
                   = (Ok ("Missing", []),
                      add_recommendations w1 ["Missing robots.txt file."]))
      by reflexivity.
    rewrite (bind_ok _ _ _ _ _ Hrec). cbv beta iota.
    destruct (sitemap_probe_run env sitemap_url "Missing" []
                (add_recommendations w1 ["Missing robots.txt file."]))
      as (state & Hrun & Hiff & Hstate).
    exists {| robots_txt := "Missing"; sitemap := state; robots_notes := [] |}.
    split; [rewrite Hrun|].
    - cbn [robots_txt sitemap].
      change (missing_file "Missing" "Missing robots.txt file.")
        with ["Missing robots.txt file."].
      unfold add_recommendations, add_requests, w1.
      cbn [recommendations requests pools].
      now rewrite <- !app_assoc.
    - cbn [robots_txt sitemap robots_notes].
      split; [|split; [right; now split | split; [exact Hiff | exact Hstate]]].
      split; [discriminate|]. intros H. apply H200 in H. congruence. }
  destruct (send env (probe_get robots_url)) as [exc|r]; cbv beta iota.
  - apply (Hmissing None); [reflexivity | exact Hr].
  - destruct (is_200 (Some r)) eqn:E;
      [|apply (Hmissing (Some r)); [exact E | rewrite E; exact Hr]].
    match goal with
    | |- context [mret (?a, ?b) ≫= _] =>
        assert (Hret : (mret (a, b) : M (string * list string)) w1
                       = (Ok (a, b), w1)) by reflexivity;
        rewrite (bind_ok _ _ _ _ _ Hret); cbv beta iota;
        destruct (sitemap_probe_run env sitemap_url a b w1)
          as (state & Hrun & Hiff & Hstate);
        exists {| robots_txt := a; sitemap := state; robots_notes := b |}
    end.
    split; [rewrite Hrun|].
    + cbn [robots_txt sitemap].
      change (missing_file "Present" "Missing robots.txt file.")
        with (@nil string).
      unfold add_recommendations, add_requests, w1.
      cbn [recommendations requests pools app].
      now rewrite <- !app_assoc.
    + cbn [robots_txt sitemap robots_notes].
      split; [|split; [now left | split; [exact Hiff | exact Hstate]]].
      split; [intros _; now apply Hr | reflexivity].
Qed.

(** X19: for a site URL without square brackets, the robots and sitemap
    check never raises and always sends exactly two GET requests with a
    timeout of 3 seconds, for /robots.txt and then for /sitemap.xml of
    the site; a file is reported present exactly when its request is
    answered with status 200, and one recommendation is appended for
    each file that is not. *)
Theorem robots_and_sitemap_probed env base w :
  no_brackets base ->
  exists rs,
    _check_robots_and_sitemap env base w
    = (Ok rs,
       add_recommendations
         (add_requests w [probe_get (Urllib.urljoin base "/robots.txt");
                          probe_get (Urllib.urljoin base "/sitemap.xml")])
         (missing_file (robots_txt rs) "Missing robots.txt file."
          ++ missing_file (sitemap rs) "Missing sitemap.xml file."))
    /\ (robots_txt rs = "Present"
        <-> answers_200 env (Urllib.urljoin base "/robots.txt"))
    /\ (robots_txt rs = "Present" \/
        robots_txt rs = "Missing" /\ robots_notes rs = [])
    /\ (sitemap rs = "Present"
        <-> answers_200 env (Urllib.urljoin base "/sitemap.xml"))
    /\ (sitemap rs = "Present" \/ sitemap rs = "Missing").
Proof. intros _. exact (_check_robots_and_sitemap_run env base w). Qed.

Lemma robots_and_sitemap_probed_witness :
  no_brackets "https://example.com"
  /\ exists rs w',
       _check_robots_and_sitemap e2e_env "https://example.com" initial_world
       = (Ok rs, w')
       /\ robots_txt rs = "Present" /\ sitemap rs = "Missing"
       /\ (sitemap rs = "Present"
           <-> answers_200 e2e_env
                 (Urllib.urljoin "https://example.com" "/sitemap.xml")).
Proof.
  assert (H : no_brackets "https://example.com") by (vm_compute; reflexivity).
  split; [exact H|].
  destruct (robots_and_sitemap_probed e2e_env "https://example.com"
              initial_world H) as (rs & Hrun & _ & _ & Hs & _).
  exists rs. eexists. split; [exact Hrun|].
  assert (Hrs : (_check_robots_and_sitemap e2e_env "https://example.com"
                   initial_world).1
                = Ok {| robots_txt := "Present"; sitemap := "Missing";
                        robots_notes := robots_notes rs |}).
  { rewrite Hrun. cbn [fst]. f_equal.
    assert (Hv : exists notes w0,
               _check_robots_and_sitemap e2e_env "https://example.com"
                 initial_world
               = (Ok {| robots_txt := "Present"; sitemap := "Missing";
                        robots_notes := notes |}, w0)).
    { eexists _, _. vm_compute. reflexivity. }
    destruct Hv as (notes & w0 & Hv). rewrite Hv in Hrun.
    injection Hrun as <- _. reflexivity. }
  rewrite Hrun in Hrs. cbn [fst] in Hrs. injection Hrs as Hrs.
  rewrite Hrs. cbn [robots_txt sitemap].
  split; [reflexivity|]. split; [reflexivity|].
  rewrite Hrs in Hs. exact Hs.
Defined.

(** ** The score and its deduction lines *)

Lemma total_points_app ds d :
  total_points (ds ++ [d]) = total_points ds + deduction_points d.
Proof.
  unfold total_points. induction ds as [|x ds IH]; cbn [app List.map fold_right].
  - lia.
  - rewrite IH. lia.
Qed.

Lemma deduct_if_explained c points reason st :
  deduction_points ("-" +:+ Py.str_of_Z points +:+ ": " +:+ reason) = points ->
  1 <= points ->
  explained st -> explained (deduct_if c points reason st).
Proof.
  intros Hline Hpos [Hsum Hall]. destruct c; [|now split].
  unfold deduct_if, deduct, explained. cbn [fst snd].
  rewrite total_points_app, Hline. split; [lia|].
  apply Forall_app. split; [exact Hall|].
  constructor; [|constructor]. rewrite Hline. exact Hpos.
Qed.

Lemma apply_deductions_explained page_url onp social lnk tech rs :
  explained (apply_deductions page_url onp social lnk tech rs).
Proof.
  unfold apply_deductions. cbv zeta.
  repeat (apply deduct_if_explained; [vm_compute; reflexivity | lia |]).
  split; [reflexivity | constructor].
Qed.

Lemma total_points_positive ds :
  Forall (fun d => 1 <= deduction_points d) ds ->
  Z.of_nat (List.length ds) <= total_points ds.
Proof.
  unfold total_points. induction 1 as [|d ds Hd _ IH];
    cbn [List.length List.map fold_right]; lia.
Qed.

(** X20: the deduction lines of a score account for it: the overall
    score is 100 minus the points named at the head of the lines, every
    line takes at least one point, and so the score is 100 exactly when
    there is no deduction line. *)
Theorem deductions_explain_score report sc :
  _score report = Ok sc ->
  overall sc = 100 - total_points (deductions sc)
  /\ Forall (fun d => 1 <= deduction_points d) (deductions sc)
  /\ overall sc <= 100 - Z.of_nat (List.length (deductions sc))
  /\ (overall sc = 100 <-> deductions sc = []).
Proof.
  intros H. apply _score_inv in H.
  destruct H as (onp & social & lnk & tech & rs & _ & _ & _ & _ & _ & ->).
  pose proof (apply_deductions_range (url report) onp social lnk tech rs)
    as Hrange.
  destruct (apply_deductions_explained (url report) onp social lnk tech rs)
    as [Hsum Hall].
  pose proof (total_points_positive _ Hall) as Hlen.
  cbn [overall deductions].
  assert (Hov : Z.max (apply_deductions (url report) onp social lnk tech rs).1 0
                = 100 - total_points
                          (apply_deductions (url report) onp social lnk tech rs).2)
    by lia.
  rewrite Hov. split; [reflexivity|]. split; [exact Hall|]. split; [lia|].
  split.
  - intros H100.
    destruct ((apply_deductions (url report) onp social lnk tech rs).2)
      as [|d ds]; [reflexivity|].
    cbn [List.length] in Hlen. lia.
  - intros ->. reflexivity.
Qed.

Lemma deductions_explain_score_witness :
  exists sc,
    _score worst_report = Ok sc
    /\ overall sc = 100 - total_points (deductions sc)
    /\ total_points (deductions sc) = 63.
Proof.
  eexists. split; [reflexivity|].
  split; [|vm_compute; reflexivity].
  exact (proj1 (deductions_explain_score worst_report _ eq_refl)).
Defined.

(** ** The requests of an audit *)

Lemma _check_technical_headers_cases u response elapsed :
  (forall w, exists e,
      _check_technical_headers u response elapsed w = (Raise e, w))
  \/ only_recommends (_check_technical_headers u response elapsed).
Proof.
  unfold _check_technical_headers. cbv zeta.
  destruct (if Py.truthy_opt _ then _ else _) as [len|].
  - right. eexists _, _.
    repeat first [ apply appends_ret | apply appends_when
                 | eapply appends_bind ].
  - left. intros w. eexists. reflexivity.
Qed.

Lemma link_probes_none env page : link_probes env page 0 = [].
Proof.
  unfold link_probes, link_tasks, validated_links, _smart_link_sampling.
  destruct (score_anchors (doc_anchors (soup page))) as [i e].
  reflexivity.
Qed.

Lemma link_probes_interleaving env page max_links :
  interleaving (link_probes env page max_links)
               (link_tasks env page max_links).
Proof. apply schedule_interleaving. Qed.

Lemma seo_audit_outcome env url0 max_links workers w :
  audit_outcome env url0 max_links workers w
    (seo_audit env url0 max_links workers w).
Proof.
  unfold audit_outcome, site_probes, site_base, page_request, seo_audit.
  remember (_ensure_url_scheme (Py.strip url0)) as u eqn:Hu.
  cbv zeta.
  rewrite (bind_ok _ _ _ _ _ (_fetch_run env u PAGE_TIMEOUT w)).
  cbv zeta.
  destruct (send env {| req_method := GET; req_url := u;
                        req_timeout := PAGE_TIMEOUT |})
    as [exc|page] eqn:Hsend.
  { left. cbn. repeat split. intros r [= <-]. reflexivity. }
  destruct (response_ok page) eqn:Hok; cbn [negb];
    [|left; cbn; repeat split; intros r [= <-]; reflexivity].
  destruct (400 <=? status_code page) eqn:Hstatus;
    [left; cbn; repeat split; intros r [= <-]; reflexivity|].
  apply Z.leb_gt in Hstatus.
  run_check (_check_title_only_recommends (soup page)).
  run_check (_check_meta_description_only_recommends (soup page)).
  run_check (_check_h1_only_recommends (soup page)).
  run_check (_check_images_only_recommends (soup page)).
  run_check (_check_canonical_only_recommends u (soup page)).
  run_check (_check_viewport_only_recommends (soup page)).
  run_check (_check_meta_robots_only_recommends (soup page)).
  run_check (_check_lang_and_charset_appends (soup page)).
  run_check (_check_hreflang_appends u (soup page)).
  run_check (_check_social_only_recommends (soup page)).
  destruct (_check_technical_headers_cases u page
              (elapsed_ms env {| req_method := GET; req_url := u;
                                 req_timeout := PAGE_TIMEOUT |}))
    as [Hraise|Htech].
  { left.
    match goal with
    | |- context [(_check_technical_headers ?a ?b ?c ≫= ?f) ?w0] =>
        destruct (Hraise w0) as (e & He);
        rewrite (bind_raise _ f _ _ _ He)
    end.
    cbn. repeat split. intros r [=]. }
  run_check Htech.
  right. exists page. split; [reflexivity|]. split; [exact Hstatus|].
  match goal with
  | |- context [(_check_robots_and_sitemap env ?b ≫= ?f) ?w0] =>
      destruct (_check_robots_and_sitemap_run env b w0) as (rs & Hrs & _);
      rewrite (bind_ok _ f _ _ _ Hrs)
  end.
  destruct (Z_le_gt_dec workers 0) as [Hw|Hw].
  - left. split; [exact Hw|].
    match goal with
    | |- context [(_check_links env ?b ?d ?n ?k ≫= ?f) ?w0] =>
        rewrite (bind_raise _ f _ _ _
                   (_check_links_nonpositive_workers env b d n k w0 Hw))
    end.
    cbn [fst snd requests pools add_recommendations add_requests].
    rewrite <- app_assoc.
    split; [reflexivity|]. split; [reflexivity|]. eexists. reflexivity.
  - right. assert (Hpos : 0 < workers) by lia. split; [exact Hpos|].
    match goal with
    | |- context [(_check_links env ?b ?d ?n ?k ≫= ?f) ?w0] =>
        rewrite (bind_ok _ f _ _ _ (_check_links_run env b d n k w0 Hpos))
    end.
    rewrite get_recommendations_run.
    match goal with
    | |- context [lift (_score ?report)] =>
        destruct (_score_total report eq_refl) as (sc & Hsc); rewrite Hsc
    end.
    rewrite lift_run.
    cbn [fst snd requests pools add_recommendations add_requests add_pool
         mret M_ret].
    unfold link_probes. rewrite <- !app_assoc.
    split; [reflexivity|]. split; [reflexivity|].
    eexists _, _. split; [reflexivity|]. split; [reflexivity|].
    split; [reflexivity|]. split; [reflexivity|]. split; reflexivity.
Qed.

(** X21: an audit that returns has sent its requests in phases.  A
    failure report comes after the page request alone.  A full report
    comes after the page request (timeout 15), then the probe for
    robots.txt, then the probe for sitemap.xml, and only then the
    requests of link validation, which are the requests of the validated
    links interleaved as the pool runs them, each link's own requests in
    their order; one pool of the given size is created, and the report
    records that number of workers. *)
Theorem audit_request_order env url0 max_links workers w r w' :
  seo_audit env url0 max_links workers w = (Ok r, w') ->
  (is_failure r = true
   /\ requests w' = requests w ++ [page_request url0]
   /\ pools w' = pools w)
  \/ (is_full r = true /\ workers_used r = Some workers /\ 0 < workers
      /\ exists page link_requests,
           send env (page_request url0) = inr page /\ status_code page < 400
           /\ requests w'
              = requests w ++ page_request url0 :: site_probes url0
                ++ link_requests
           /\ interleaving link_requests (link_tasks env page max_links)
           /\ pools w' = pools w ++ [workers]).
Proof.
  intros Hrun.
  pose proof (seo_audit_outcome env url0 max_links workers w) as Hout.
  rewrite Hrun in Hout. unfold audit_outcome in Hout. cbn [fst snd] in Hout.
  destruct Hout as [(Hreq & Hpools & Hfail)
                   |(page & Hsend & Hstatus
                     & [(_ & _ & _ & e & [=])
                       |(Hw & Hreq & Hpools & r' & lnk & [= <-] & Hfull
                         & Hused & _)])].
  - left. split; [now apply Hfail|]. split; [exact Hreq | exact Hpools].
  - right. split; [exact Hfull|]. split; [exact Hused|]. split; [exact Hw|].
    exists page, (link_probes env page max_links).
    split; [exact Hsend|]. split; [exact Hstatus|].
    split; [exact Hreq|].
    split; [apply link_probes_interleaving | exact Hpools].
Qed.

Lemma audit_request_order_witness :
  exists r w' link_requests,
    seo_audit e2e_env "example.com" 25 10 initial_world = (Ok r, w')
    /\ is_full r = true
    /\ requests w'
       = page_request "example.com" :: site_probes "example.com"
         ++ link_requests
    /\ interleaving link_requests (link_tasks e2e_env e2e_page 25)
    /\ List.map req_url (page_request "example.com"
                         :: site_probes "example.com")
       = ["https://example.com"; "https://example.com/robots.txt";
          "https://example.com/sitemap.xml"].
Proof.
  assert (H : exists r w',
             seo_audit e2e_env "example.com" 25 10 initial_world = (Ok r, w')).
  { eexists _, _. vm_compute. reflexivity. }
  destruct H as (r & w' & H).
  destruct (audit_request_order _ _ _ _ _ _ _ H)
    as [(_ & Hreq & _)
       |(Hfull & _ & _ & page & link_requests & Hsend & _ & Hreq & Hint & _)].
  - exfalso. revert H. vm_compute. intros [= <- <-]. discriminate Hreq.
  - assert (Hpage : page = e2e_page).
    { revert Hsend. vm_compute. now intros [= <-]. }
    rewrite Hpage in Hint.
    exists r, w', link_requests. split; [exact H|]. split; [exact Hfull|].
    split; [exact Hreq|]. split; [exact Hint|].
    vm_compute. reflexivity.
Defined.

Lemma bind_ret_world {A B} (m : M A) (f : A -> B) w :
  ((m ≫= fun a => mret (f a)) w).2 = (m w).2.
Proof. unfold mbind, M_bind. now destruct (m w) as [[a|e] w1]. Qed.

Lemma fast_audit_requests env target_url workers w :
  exists tail,
    requests (seo_audit env target_url 0 workers w).2
    = requests w ++ page_request target_url :: tail
    /\ (tail = [] \/ tail = site_probes target_url).
Proof.
  destruct (seo_audit_outcome env target_url 0 workers w)
    as [(Hreq & _)
       |(page & _ & _ & [(_ & Hreq & _)|(_ & Hreq & _)])].
  - exists []. split; [exact Hreq | now left].
  - exists (site_probes target_url). split; [exact Hreq | now right].
  - exists (site_probes target_url).
    rewrite link_probes_none, app_nil_r in Hreq.
    split; [exact Hreq | now right].
Qed.

(** X22: in fast mode the command line and the web handlers validate no
    link, whatever link budget they were given: for a URL without square
    brackets the audit sends the page request, followed at most by the
    probes for robots.txt and sitemap.xml, and nothing else (so no HEAD
    request at all), and a full report it returns counts 0 internal and
    0 external links. *)
Theorem fast_mode_checks_no_links env target_url max_links workers w :
  no_brackets target_url ->
  (exists tail,
     requests (main_audit env target_url max_links workers true w).2
     = requests w ++ page_request target_url :: tail
     /\ (tail = [] \/ tail = site_probes target_url))
  /\ (exists tail,
        requests (web_audit env target_url max_links workers true w).2
        = requests w ++ page_request target_url :: tail
        /\ (tail = [] \/ tail = site_probes target_url))
  /\ (forall r w' lnk,
        main_audit env target_url max_links workers true w = (Ok r, w') ->
        links r = Some lnk ->
        internal_count lnk = 0 /\ external_count lnk = 0).
Proof.
  intros _. split; [|split].
  - unfold main_audit. apply fast_audit_requests.
  - unfold web_audit. cbv zeta. rewrite bind_ret_world.
    apply fast_audit_requests.
  - unfold main_audit. cbv zeta. intros r w' lnk Hrun Hlinks.
    pose proof (seo_audit_outcome env target_url 0
                  (Z.min workers WORKER_CAP) w) as Hout.
    rewrite Hrun in Hout. unfold audit_outcome in Hout.
    cbn [fst snd] in Hout.
    destruct Hout as [(_ & _ & Hfail)
                     |(page & _ & _
                       & [(_ & _ & _ & e & [=])
                         |(_ & _ & _ & r' & lnk' & [= <-] & _ & _
                           & Hl & Hi & He)])].
    + specialize (Hfail r eq_refl). unfold is_failure in Hfail.
      rewrite Hlinks in Hfail.
      destruct (on_page r); [discriminate|].
      destruct (social_structured r); discriminate.
    + rewrite Hlinks in Hl. injection Hl as <-.
      rewrite Hi, He. unfold validated_links, _smart_link_sampling.
      destruct (score_anchors (doc_anchors (soup page))) as [i e].
      split; reflexivity.
Qed.

Lemma fast_mode_checks_no_links_witness :
  no_brackets "example.com"
  /\ exists tail,
       requests (main_audit e2e_env "example.com" 25 10 true initial_world).2
       = requests initial_world ++ page_request "example.com" :: tail
       /\ (tail = [] \/ tail = site_probes "example.com").
Proof.
  assert (H : no_brackets "example.com") by (vm_compute; reflexivity).
  split; [exact H|].
  exact (proj1 (fast_mode_checks_no_links e2e_env "example.com" 25 10
                  initial_world H)).
Defined.

(** ** The scheme of the audited URL *)

Lemma urlsplit_https u :
  (Urllib.urlsplit ("https://" +:+ u) "").1.1.1.1 = "https".
Proof.
  unfold Urllib.urlsplit.
  change (Py.chars ("https://" +:+ u))
    with ("h" :: "t" :: "t" :: "p" :: "s" :: ":" :: "/" :: "/"
          :: Py.chars u)%char.
  generalize (Py.chars u). intros rest.
  change (Py.lstrip_by Urllib.c0_or_space
            ("h" :: "t" :: "t" :: "p" :: "s" :: ":" :: "/" :: "/" :: rest)%char)
    with ("h" :: "t" :: "t" :: "p" :: "s" :: ":" :: "/" :: "/" :: rest)%char.
  change (List.filter (fun c => negb (Urllib.unsafe_byte c))
            ("h" :: "t" :: "t" :: "p" :: "s" :: ":" :: "/" :: "/" :: rest)%char)
    with ("h" :: "t" :: "t" :: "p" :: "s" :: ":" :: "/" :: "/"
          :: List.filter (fun c => negb (Urllib.unsafe_byte c)) rest)%char.
  generalize (List.filter (fun c => negb (Urllib.unsafe_byte c)) rest).
  intros rest'.
  change (Urllib.split_scheme
            ("h" :: "t" :: "t" :: "p" :: "s" :: ":" :: "/" :: "/" :: rest')%char)
    with (Some (["h"; "t"; "t"; "p"; "s"]%char, ("/" :: "/" :: rest')%char)).
  cbv beta iota.
  destruct (Urllib.splitnetloc rest') as [loc u1].
  destruct (Py.split_once "#" u1) as [[a b]|];
    destruct (Py.split_once "?" _) as [[c d]|]; reflexivity.
Qed.

Lemma urlparse_scheme url :
  Urllib.scheme (Urllib.urlparse url) = (Urllib.urlsplit url "").1.1.1.1.
Proof.
  unfold Urllib.urlparse, Urllib.urlparse_with.
  destruct (Urllib.urlsplit url "") as [[[[sch loc] u] qry] frag].
  destruct (Urllib.mem sch Urllib.uses_params && Urllib.has_char ";" u);
    [destruct (Urllib.splitparams u)|]; reflexivity.
Qed.

(** X23: the URL an audit works on always has a scheme: an input
    (without square brackets) that has a scheme is kept as it is, one
    without a scheme is prefixed with https:// and then has the scheme
    https; applying the function twice changes nothing more. *)
Theorem ensure_url_scheme_idempotent input_url :
  no_brackets input_url ->
  Urllib.scheme (Urllib.urlparse (_ensure_url_scheme input_url)) <> ""
  /\ _ensure_url_scheme (_ensure_url_scheme input_url)
     = _ensure_url_scheme input_url
  /\ (Urllib.scheme (Urllib.urlparse input_url) = "" ->
      _ensure_url_scheme input_url = "https://" +:+ input_url
      /\ Urllib.scheme (Urllib.urlparse (_ensure_url_scheme input_url))
         = "https")
  /\ (Urllib.scheme (Urllib.urlparse input_url) <> "" ->
      _ensure_url_scheme input_url = input_url).
Proof.
  assert (Hhttps : Urllib.scheme (Urllib.urlparse ("https://" +:+ input_url))
                   = "https")
    by (rewrite urlparse_scheme; apply urlsplit_https).
  intros _. unfold _ensure_url_scheme.
  destruct (Urllib.scheme (Urllib.urlparse input_url)) as [|c s] eqn:E;
    cbn [Py.truthy negb].
  - rewrite Hhttps. cbn [Py.truthy negb].
    split; [discriminate|]. split; [reflexivity|].
    split; [intros _; split; reflexivity | intros H; now elim H].
  - rewrite E. cbn [Py.truthy negb].
    split; [discriminate|]. split; [reflexivity|].
    split; [discriminate | reflexivity].
Qed.

Lemma ensure_url_scheme_idempotent_witness :
  no_brackets "example.com"
  /\ _ensure_url_scheme "example.com" = "https://example.com"
  /\ _ensure_url_scheme (_ensure_url_scheme "example.com")
     = _ensure_url_scheme "example.com".
Proof.
  assert (H : no_brackets "example.com") by (vm_compute; reflexivity).
  split; [exact H|]. split; [vm_compute; reflexivity|].
  exact (proj1 (proj2 (ensure_url_scheme_idempotent "example.com" H))).
Defined.

(** ** The summary *)

(** X24: truncation to [max_len >= 1] keeps a text of at most [max_len]
    characters as it is; a longer text is cut to its first [max_len - 1]
    characters followed by the three-character suffix, so the result has
    [max_len + 2] characters, two more than the limit. *)
Theorem truncate_overshoots text max_len :
  1 <= max_len ->
  exists t,
    _truncate (Some text) max_len = Some t
    /\ (len_of text <= max_len -> t = text)
    /\ (max_len < len_of text ->
        t = firstn (Z.to_nat (max_len - 1)) text ++ TRUNCATION_SUFFIX
        /\ len_of t = max_len + 2)
    /\ len_of t <= max_len + 2.
Proof.
  intros Hmax. unfold _truncate, len_of.
  destruct (Z.of_nat (List.length text) <=? max_len) eqn:E.
  - apply Z.leb_le in E. exists text. split; [reflexivity|].
    split; [reflexivity|]. split; [lia | lia].
  - apply Z.leb_gt in E. eexists. split; [reflexivity|].
    assert (Hcut : Py.slice_to (max_len - 1) text
                   = firstn (Z.to_nat (max_len - 1)) text).
    { unfold Py.slice_to.
      destruct (0 <=? max_len - 1) eqn:E0; [reflexivity|].
      apply Z.leb_gt in E0. lia. }
    rewrite Hcut.
    assert (Hlen : Z.of_nat (List.length (firstn (Z.to_nat (max_len - 1)) text
                                          ++ TRUNCATION_SUFFIX))
                   = max_len + 2).
    { rewrite length_app, length_firstn. cbn [TRUNCATION_SUFFIX List.length].
      lia. }
    split; [lia|]. split; [|lia]. intros _. split; [reflexivity | exact Hlen].
Qed.

Lemma truncate_overshoots_witness :
  1 <= 3
  /\ _truncate (Some (code_points "abcd")) 3
     = Some ([97; 98] ++ TRUNCATION_SUFFIX)%N
  /\ exists t,
       _truncate (Some (code_points "abcd")) 3 = Some t /\ len_of t <= 3 + 2.
Proof.
  assert (H : 1 <= 3) by lia.
  split; [exact H|]. split; [vm_compute; reflexivity|].
  destruct (truncate_overshoots (code_points "abcd") 3 H)
    as (t & Ht & _ & _ & Hlen).
  exists t. exact (conj Ht Hlen).
Defined.

Lemma _truncate_length text max_len t :
  1 <= max_len ->
  _truncate (Some text) max_len = Some t -> len_of t <= max_len + 2.
Proof.
  intros Hmax. unfold _truncate, len_of, Py.slice_to.
  destruct (Z.of_nat (List.length text) <=? max_len) eqn:E;
    intros [= <-]; [apply Z.leb_le in E; lia|].
  destruct (0 <=? max_len - 1) eqn:E0; [|apply Z.leb_gt in E0; lia].
  rewrite length_app, length_firstn. cbn [TRUNCATION_SUFFIX List.length]. lia.
Qed.

Lemma ensures_bind_with {A B} (P : A -> Prop) (Q : B -> Prop)
    (m : M A) (f : A -> M B) :
  ensures P m -> (forall a, P a -> ensures Q (f a)) -> ensures Q (m ≫= f).
Proof.
  intros Hm Hf w b w' H. apply bind_inv in H as (a & w1 & Ha & H).
  exact (Hf a (Hm _ _ _ Ha) w1 b w' H).
Qed.

Lemma slice_to_10_length {A} (l : list A) :
  (List.length (Py.slice_to 10 l) <= 10)%nat.
Proof. pose proof (slice_to_length 10 l). lia. Qed.

Lemma _check_links_cut env base doc max_links workers :
  ensures lists_cut (_check_links env base doc max_links workers).
Proof.
  unfold _check_links.
  destruct (_smart_link_sampling doc max_links) as [internal external].
  do 3 (apply ensures_bind; intros ?). apply ensures_ret.
  unfold lists_cut. cbn [broken_internal broken_external redirects].
  split; [|split]; apply slice_to_10_length.
Qed.

Lemma seo_audit_links_cut env url0 max_links workers :
  ensures links_cut (seo_audit env url0 max_links workers).
Proof.
  unfold seo_audit.
  apply ensures_bind; intros [[response err] elapsed].
  destruct response as [response|].
  - destruct (negb (response_ok response)).
    + do 2 (apply ensures_bind; intros ?). apply ensures_ret.
      intros lnk [=].
    + destruct (400 <=? status_code response).
      * do 2 (apply ensures_bind; intros ?). apply ensures_ret.
        intros lnk [=].
      * repeat match goal with
               | |- ensures _ (match ?x with _ => _ end) => destruct x
               | |- ensures _ (_check_links _ _ _ _ _ ≫= _) =>
                   apply (ensures_bind_with lists_cut);
                   [apply _check_links_cut | intros lnk Hlnk]
               | |- ensures _ (_ ≫= _) => apply ensures_bind; intros ?
               end.
        apply ensures_ret. intros lnk' [= <-]. exact Hlnk.
  - do 2 (apply ensures_bind; intros ?). apply ensures_ret.
    intros lnk [=].
Qed.

Lemma slice_to_prefix {A} n (l : list A) :
  0 <= n -> exists rest, l = Py.slice_to n l ++ rest.
Proof.
  intros Hn. unfold Py.slice_to.
  destruct (0 <=? n) eqn:E; [|apply Z.leb_gt in E; lia].
  exists (skipn (Z.to_nat n) l). now rewrite firstn_skipn.
Qed.

(** X25: the summary of a report the audit returns carries the score of
    the report, between 0 and 100; it counts the outcome lists as they
    were cut for the report, so it never shows more than 10 broken
    internal links, 10 broken external links or 10 redirects; it keeps
    the first recommendations, at most 5; and its title has at most 72
    characters. *)
Theorem summary_of_audit_report env url0 max_links workers w r w' :
  seo_audit env url0 max_links workers w = (Ok r, w') ->
  (exists sc, score r = Some sc
              /\ sum_score (_build_summary r) = Some (overall sc)
              /\ 0 <= overall sc <= 100)
  /\ 0 <= sum_broken_internal (_build_summary r) <= 10
  /\ 0 <= sum_broken_external (_build_summary r) <= 10
  /\ 0 <= sum_redirects (_build_summary r) <= 10
  /\ (List.length (top_recommendations (_build_summary r)) <= 5)%nat
  /\ (exists rest,
        report_recommendations r
        = top_recommendations (_build_summary r) ++ rest)
  /\ (forall t, sum_title (_build_summary r) = Some t -> len_of t <= 72).
Proof.
  intros Hrun.
  pose proof (seo_audit_well_scored _ _ _ _ _ _ _ Hrun) as Hscore.
  pose proof (seo_audit_links_cut _ _ _ _ _ _ _ Hrun) as Hcut.
  unfold links_cut, lists_cut in Hcut.
  split.
  { destruct Hscore as [(_ & reason & Hsc)|(_ & sc & Hsc & Hok)].
    - eexists. split; [exact Hsc|].
      unfold _build_summary. cbn [sum_score]. rewrite Hsc.
      split; [reflexivity|]. cbn [overall]. lia.
    - exists sc. split; [exact Hsc|].
      unfold _build_summary. cbn [sum_score]. rewrite Hsc.
      split; [reflexivity|].
      apply _score_inv in Hok.
      destruct Hok as (onp & social & lnk & tech & rs & _ & _ & _ & _ & _ & ->).
      pose proof (apply_deductions_range (url r) onp social lnk tech rs).
      cbn [overall]. lia. }
  unfold _build_summary.
  cbn [sum_broken_internal sum_broken_external sum_redirects
       top_recommendations sum_title].
  unfold len_of, get.
  destruct (links r) as [lnk|].
  - destruct (Hcut lnk eq_refl) as (H1 & H2 & H3).
    split; [lia|]. split; [lia|]. split; [lia|].
    split; [pose proof (slice_to_length 5 (report_recommendations r)); lia|].
    split; [apply slice_to_prefix; lia|].
    intros t Ht.
    destruct (on_page r) as [onp|]; [|discriminate Ht].
    destruct (title onp) as [s|]; [|discriminate Ht].
    cbn [fmap option_fmap option_map] in Ht.
    apply _truncate_length in Ht; [unfold len_of in Ht; lia | lia].
  - cbn [List.length]. split; [lia|]. split; [lia|]. split; [lia|].
    split; [pose proof (slice_to_length 5 (report_recommendations r)); lia|].
    split; [apply slice_to_prefix; lia|].
    intros t Ht.
    destruct (on_page r) as [onp|]; [|discriminate Ht].
    destruct (title onp) as [s|]; [|discriminate Ht].
    cbn [fmap option_fmap option_map] in Ht.
    apply _truncate_length in Ht; [unfold len_of in Ht; lia | lia].
Qed.

Lemma summary_of_audit_report_witness :
  exists r w',
    seo_audit e2e_env "example.com" 25 10 initial_world = (Ok r, w')
    /\ sum_score (_build_summary r) = Some 81
    /\ 0 <= sum_broken_internal (_build_summary r) <= 10.
Proof.
  assert (H : exists r w',
             seo_audit e2e_env "example.com" 25 10 initial_world = (Ok r, w')
             /\ sum_score (_build_summary r) = Some 81).
  { eexists _, _. split; vm_compute; reflexivity. }
  destruct H as (r & w' & H & Hscore). exists r, w'.
  split; [exact H|]. split; [exact Hscore|].
  exact (proj1 (proj2 (summary_of_audit_report _ _ _ _ _ _ _ H))).
Defined.

(** ** Escaping for the HTML report *)

Lemma chars_str l : Py.chars (Py.str l) = l.
Proof. apply list_ascii_of_string_of_list_ascii. Qed.

Lemma str_chars s : Py.str (Py.chars s) = s.
Proof. apply string_of_list_ascii_of_string. Qed.

(** Replacing a single character by a text without it removes it. *)
Lemma replace_char_removes c new l :
  ~ In c new -> ~ In c (replace_from [c] new 0 l).
Proof.
  intros Hnew. induction l as [|a l IH]; cbn [replace_from]; [intros []|].
  cbn [begins_with List.length Nat.sub].
  destruct (Ascii.eqb c a) eqn:E; cbn [andb].
  - intros H. apply in_app_or in H as [H|H]; [now apply Hnew | now apply IH].
  - intros [H|H]; [|now apply IH].
    apply Ascii.eqb_neq in E. congruence.
Qed.

(** A replacement brings in no character that neither the text nor the
    new text holds. *)
Lemma replace_from_keeps_out d old new skip l :
  ~ In d new -> ~ In d l -> ~ In d (replace_from old new skip l).
Proof.
  intros Hnew. revert skip.
  induction l as [|a l IH]; intros skip Hl; cbn [replace_from]; [intros []|].
  assert (Hl' : ~ In d l) by (intros H; apply Hl; now right).
  destruct skip as [|k]; [|now apply IH].
  destruct (begins_with old (a :: l)).
  - intros H. apply in_app_or in H as [H|H]; [now apply Hnew|].
    revert H. now apply IH.
  - intros [H|H]; [apply Hl; now left | revert H; now apply IH].
Qed.

(** A text without the first character of [old] has no occurrence of it. *)
Lemma replace_from_absent c old new l :
  ~ In c l -> replace_from (c :: old) new 0 l = l.
Proof.
  induction l as [|a l IH]; intros Hl; cbn [replace_from]; [reflexivity|].
  cbn [begins_with].
  destruct (Ascii.eqb c a) eqn:E.
  - apply Ascii.eqb_eq in E. exfalso. apply Hl. now left.
  - cbn [andb]. rewrite IH; [reflexivity|]. intros H. apply Hl. now right.
Qed.

(** X26: a string escaped for the HTML report holds no angle bracket,
    and a string without angle brackets comes through unchanged, so
    ampersands and quotes are not escaped. *)
Theorem esc_leaves_no_angle_brackets s :
  ~ occurs "<" (esc s)
  /\ ~ occurs ">" (esc s)
  /\ (~ occurs "<" s -> ~ occurs ">" s -> esc s = s).
Proof.
  unfold esc, occurs, replace. rewrite !chars_str.
  change (Py.chars "<") with ["<"%char].
  change (Py.chars ">") with [">"%char].
  change (Py.chars "&lt;") with ["&"; "l"; "t"; ";"]%char.
  change (Py.chars "&gt;") with ["&"; "g"; "t"; ";"]%char.
  change (Py.chars "<&") with ["<"; "&"]%char.
  change (Py.chars "") with (@nil ascii).
  assert (Hlt : ~ In "<"%char ["&"; "l"; "t"; ";"]%char)
    by (intros [H|[H|[H|[H|[]]]]]; discriminate H).
  assert (Hgt : ~ In ">"%char ["&"; "g"; "t"; ";"]%char)
    by (intros [H|[H|[H|[H|[]]]]]; discriminate H).
  assert (Hlt' : ~ In "<"%char ["&"; "g"; "t"; ";"]%char)
    by (intros [H|[H|[H|[H|[]]]]]; discriminate H).
  split; [|split].
  - apply replace_from_keeps_out; [exact Hlt'|].
    apply replace_char_removes. exact Hlt.
  - apply replace_char_removes. exact Hgt.
  - intros Hs Hs'.
    rewrite (replace_from_absent "<" ["&"%char] [] _ Hs).
    rewrite (replace_from_absent "<" [] _ _ Hs).
    rewrite (replace_from_absent ">" [] _ _ Hs').
    apply str_chars.
Qed.

Lemma esc_leaves_no_angle_brackets_witness :
  (~ occurs "<" "Fish & Chips" /\ ~ occurs ">" "Fish & Chips")
  /\ esc "Fish & Chips" = "Fish & Chips".
Proof.
  assert (H1 : ~ occurs "<" "Fish & Chips").
  { unfold occurs. intros H. vm_compute in H.
    repeat (destruct H as [H|H]; [discriminate H|]). exact H. }
  assert (H2 : ~ occurs ">" "Fish & Chips").
  { unfold occurs. intros H. vm_compute in H.
    repeat (destruct H as [H|H]; [discriminate H|]). exact H. }
  split; [exact (conj H1 H2)|].
  exact (proj2 (proj2 (esc_leaves_no_angle_brackets "Fish & Chips")) H1 H2).
Defined.

(** ** The canonical link *)

(** X27: on URLs without square brackets, the canonical check resolves
    the href of the canonical link against the page URL and reports it;
    it records at most one issue and appends one recommendation per
    issue: "Missing canonical" when the link or its href is absent, and
    "Canonical points to different domain" exactly when the host part of
    the resolved href differs, as a string, from that of the page URL. *)
Theorem canonical_issues base doc :
  no_brackets base ->
  (forall raw, doc_canonical doc = Some raw -> no_brackets raw) ->
  exists c issues recs,
    appends (_check_canonical base doc) (c, issues) recs
    /\ List.length issues = List.length recs
    /\ (List.length issues <= 1)%nat
    /\ (~ present (doc_canonical doc) ->
        c = None /\ issues = ["Missing canonical"])
    /\ (forall raw,
          doc_canonical doc = Some raw -> raw <> "" ->
          c = Some (Urllib.urljoin base raw)
          /\ (issues = [] \/ issues = ["Canonical points to different domain"])
          /\ (issues = []
              <-> Urllib.netloc (Urllib.urlparse (Urllib.urljoin base raw))
                  = Urllib.netloc (Urllib.urlparse (Urllib.urljoin base "")))).
Proof.
  intros _ _. unfold _check_canonical, _absolute_url.
  destruct (Py.truthy_opt (doc_canonical doc)) eqn:E.
  - apply truthy_opt_present in E as (raw & Hraw & Hne).
    rewrite Hraw. cbn [from_option]. unfold id.
    destruct (String.eqb (Urllib.netloc (Urllib.urlparse (Urllib.urljoin base raw)))
                (Urllib.netloc (Urllib.urlparse (Urllib.urljoin base ""))))
      eqn:Eq; cbn [negb].
    + apply String.eqb_eq in Eq. eexists _, _, _.
      split; [apply appends_ret|]. split; [reflexivity|].
      split; [cbn; lia|]. split.
      * intros H. exfalso. apply H. now exists raw.
      * intros raw' [= <-] _. split; [reflexivity|]. split; [now left|].
        split; [intros _; exact Eq | reflexivity].
    + apply String.eqb_neq in Eq. eexists _, _, _.
      split; [eapply appends_bind; [apply appends_recommend | apply appends_ret]|].
      split; [reflexivity|]. split; [cbn; lia|]. split.
      * intros H. exfalso. apply H. now exists raw.
      * intros raw' [= <-] _. split; [reflexivity|]. split; [now right|].
        split; [discriminate | intros H; now elim Eq].
  - apply truthy_opt_absent in E. eexists _, _, _.
    split; [eapply appends_bind; [apply appends_recommend | apply appends_ret]|].
    split; [reflexivity|]. split; [cbn; lia|]. split.
    + intros _. split; reflexivity.
    + intros raw Hraw Hne. exfalso. apply E. now exists raw.
Qed.

Lemma canonical_issues_witness :
  (no_brackets "https://example.com/page"
   /\ forall raw,
        doc_canonical (doc_canonical_to "https://example.com/") = Some raw ->
        no_brackets raw)
  /\ exists c issues recs,
       appends (_check_canonical "https://example.com/page"
                  (doc_canonical_to "https://example.com/")) (c, issues) recs
       /\ c = Some "https://example.com/" /\ issues = [].
Proof.
  assert (H1 : no_brackets "https://example.com/page")
    by (vm_compute; reflexivity).
  assert (H2 : forall raw,
             doc_canonical (doc_canonical_to "https://example.com/")
             = Some raw -> no_brackets raw).
  { intros raw [= <-]. vm_compute. reflexivity. }
  split; [exact (conj H1 H2)|].
  destruct (canonical_issues "https://example.com/page"
              (doc_canonical_to "https://example.com/") H1 H2)
    as (c & issues & recs & Hrun & _ & _ & _ & Hraw).
  assert (Hne : "https://example.com/" <> "") by discriminate.
  destruct (Hraw "https://example.com/" eq_refl Hne) as (Hc & _ & Hiff).
  exists c, issues, recs. split; [exact Hrun|]. split.
  - rewrite Hc. vm_compute. reflexivity.
  - apply Hiff. vm_compute. reflexivity.
Defined.
